(** * vity: the do/chat orchestrator of [src/vity/cli.py]

    A shallow embedding of the [do] / [chat] branch of [main]
    (cli.py, lines 162-276): loading the two context files, calling the
    generation collaborator, stripping the terminal-history tag, parsing the
    assistant text, printing, appending to the shell history file and saving
    the chat file.

    Python values are modelled by a JSON-shaped datatype with the dynamic
    operations the code uses on them ([d[k]], [d.get(k, default)], [x in y],
    [s.split(sep)], [s.replace(old, new)]); exceptions are explicit
    results; standard output and the file system are threaded as state. *)

From Stdlib Require Import ZArith Ascii String List Lia.
From stdpp Require Import base option gmap strings list pretty.

Local Open Scope string_scope.
Set Warnings "-register-all".
Local Arguments String.append !_ _ / : simpl nomatch.

(** ** Python [str] operations

    Strings are byte strings (UTF-8).  Every separator searched for by the
    code is ASCII, and UTF-8 is self-synchronising, so searching bytes finds
    the same occurrences as searching code points. *)

Module PyStr.

(** [s.startswith(p)] *)
Fixpoint startswith (p s : string) : bool :=
  match p, s with
  | EmptyString, _ => true
  | String a p', String b s' => if Ascii.eqb a b then startswith p' s' else false
  | String _ _, EmptyString => false
  end.

(** [s.find(sub)], [None] standing for [-1] *)
Fixpoint find (sub s : string) : option nat :=
  if startswith sub s then Some 0
  else match s with
       | EmptyString => None
       | String _ s' => S <$> find sub s'
       end.

(** [sub in s] *)
Definition contains (sub s : string) : bool := bool_decide (is_Some (find sub s)).

(** The scan shared by [split] and [replace]: walk [s] from the left; at a
    position where [sep] starts, close the current piece and skip the
    separator ([skip] counts the separator characters still to be passed
    over); otherwise the character joins the current piece.  The result is
    the current piece and the pieces after it. *)
Fixpoint split_go (sep : string) (skip : nat) (s : string) : string * list string :=
  match s with
  | EmptyString => (EmptyString, [])
  | String c s' =>
      match skip with
      | S k => split_go sep k s'
      | O =>
          if startswith sep s
          then (EmptyString,
                let '(p, ps) := split_go sep (String.length sep - 1) s' in p :: ps)
          else let '(p, ps) := split_go sep 0 s' in (String c p, ps)
      end
  end.

(** [s.split(sep)] for a non-empty [sep] (Python raises [ValueError] on the
    empty separator; the code only splits on a literal). *)
Definition split (sep s : string) : list string :=
  let '(p, ps) := split_go sep 0 s in p :: ps.

(** [sep.join(l)] *)
Fixpoint join (sep : string) (l : list string) : string :=
  match l with
  | [] => EmptyString
  | [x] => x
  | x :: rest => x ++ sep ++ join sep rest
  end.

(** [s.replace(old, new)] for a non-empty [old]: the occurrences of [old]
    found by the left-to-right scan are replaced, the text between them is
    kept. *)
Fixpoint replace_go (old new : string) (skip : nat) (s : string) : string :=
  match s with
  | EmptyString => EmptyString
  | String c s' =>
      match skip with
      | S k => replace_go old new k s'
      | O =>
          if startswith old s
          then new ++ replace_go old new (String.length old - 1) s'
          else String c (replace_go old new 0 s')
      end
  end.

Definition replace (old new s : string) : string := replace_go old new 0 s.

End PyStr.

(** ** Exceptions

    The classes the code distinguishes: [except FileNotFoundError],
    [except json.JSONDecodeError], [except (IOError, OSError)] and
    [except Exception].  [KeyboardInterrupt] and [SystemExit] derive from
    [BaseException] only. *)

Inductive exn : Type :=
  | FileNotFoundError (msg : string)
  | PermissionError (msg : string)
  | IsADirectoryError (msg : string)
  | NotADirectoryError (msg : string)
  | OSError (msg : string)
  | JSONDecodeError (msg : string)
  | UnicodeDecodeError (msg : string)
  | KeyError (msg : string)
  | IndexError (msg : string)
  | TypeError (msg : string)
  | AttributeError (msg : string)
  | OtherException (msg : string)
  | KeyboardInterrupt
  | SystemExit (code : Z).

(** [str(e)] *)
Definition exn_str (e : exn) : string :=
  match e with
  | FileNotFoundError m | PermissionError m | IsADirectoryError m
  | NotADirectoryError m | OSError m
  | JSONDecodeError m | UnicodeDecodeError m | KeyError m | IndexError m
  | TypeError m | AttributeError m | OtherException m => m
  | KeyboardInterrupt => ""
  | SystemExit c => pretty c
  end.

Definition is_FileNotFoundError (e : exn) : bool :=
  match e with FileNotFoundError _ => true | _ => false end.

Definition is_JSONDecodeError (e : exn) : bool :=
  match e with JSONDecodeError _ => true | _ => false end.

(** [IOError] is an alias of [OSError]. *)
Definition is_OSError (e : exn) : bool :=
  match e with
  | FileNotFoundError _ | PermissionError _ | IsADirectoryError _
  | NotADirectoryError _ | OSError _ => true
  | _ => false
  end.

Definition is_Exception (e : exn) : bool :=
  match e with KeyboardInterrupt | SystemExit _ => false | _ => true end.

Inductive result (A : Type) : Type :=
  | Ok (a : A)
  | Raise (e : exn).
Arguments Ok {A} a.
Arguments Raise {A} e.

Global Instance result_ret : MRet result := λ A a, Ok a.
Global Instance result_bind : MBind result := λ A B f r,
  match r with Ok a => f a | Raise e => Raise e end.

(** ** Python values

    What [json.load] builds and what the collaborator returns: [None],
    booleans, numbers, strings, lists and dicts with string keys (a dict
    keeps insertion order, so it is an association list).  The chat history
    is a tree: [json.load] shares no object between two places and the
    collaborator appends freshly built messages, so an in-place assignment
    is a functional update of the one place it names. *)

Inductive value : Type :=
  | VNone
  | VBool (b : bool)
  | VInt (n : Z)
  | VFloat (lit : string)
  | VStr (s : string)
  | VList (l : list value)
  | VDict (d : list (string * value)).

Definition type_name (v : value) : string :=
  match v with
  | VNone => "NoneType" | VBool _ => "bool" | VInt _ => "int" | VFloat _ => "float"
  | VStr _ => "str" | VList _ => "list" | VDict _ => "dict"
  end.

Module Py.

Fixpoint assoc_get (k : string) (d : list (string * value)) : option value :=
  match d with
  | [] => None
  | (k', v) :: d' => if String.eqb k k' then Some v else assoc_get k d'
  end.

(** [d[k] = x]: an existing key keeps its position, a new key goes last. *)
Fixpoint assoc_set (k : string) (x : value) (d : list (string * value))
  : list (string * value) :=
  match d with
  | [] => [(k, x)]
  | (k', v) :: d' => if String.eqb k k' then (k', x) :: d' else (k', v) :: assoc_set k x d'
  end.

Definition not_subscriptable (v : value) : exn :=
  TypeError ("'" ++ type_name v ++ "' object is not subscriptable").

Definition no_attribute (v : value) (attr : string) : exn :=
  AttributeError ("'" ++ type_name v ++ "' object has no attribute '" ++ attr ++ "'").

(** [v[k]] for a string key [k] *)
Definition getitem (v : value) (k : string) : result value :=
  match v with
  | VDict d => match assoc_get k d with
               | Some x => Ok x
               | None => Raise (KeyError ("'" ++ k ++ "'"))
               end
  | VList _ => Raise (TypeError "list indices must be integers or slices, not str")
  | VStr _ => Raise (TypeError "string indices must be integers, not 'str'")
  | _ => Raise (not_subscriptable v)
  end.

(** [v[0]]; on a string it is the first character (here the first byte:
    every operation the code applies to it afterwards raises). *)
Definition getitem0 (v : value) : result value :=
  match v with
  | VList (x :: _) => Ok x
  | VList [] => Raise (IndexError "list index out of range")
  | VStr (String c _) => Ok (VStr (String c EmptyString))
  | VStr EmptyString => Raise (IndexError "string index out of range")
  | VDict _ => Raise (KeyError "0")
  | _ => Raise (not_subscriptable v)
  end.

(** [v.get(k, default)] *)
Definition get (v : value) (k : string) (default : value) : result value :=
  match v with
  | VDict d => Ok (match assoc_get k d with Some x => x | None => default end)
  | _ => Raise (no_attribute v "get")
  end.

(** [v[k] = x] for a string key [k] *)
Definition setitem (v : value) (k : string) (x : value) : result value :=
  match v with
  | VDict d => Ok (VDict (assoc_set k x d))
  | VList _ => Raise (TypeError "list indices must be integers or slices, not str")
  | _ => Raise (TypeError ("'" ++ type_name v ++ "' object does not support item assignment"))
  end.

(** [v == s] for a string literal [s] *)
Definition eq_str (v : value) (s : string) : bool :=
  match v with VStr s' => String.eqb s' s | _ => false end.

(** [s in v] for a string literal [s]: substring of a string, element of a
    list, key of a dict. *)
Definition contains (s : string) (v : value) : result bool :=
  match v with
  | VStr t => Ok (PyStr.contains s t)
  | VList l => Ok (existsb (λ x, eq_str x s) l)
  | VDict d => Ok (bool_decide (is_Some (assoc_get s d)))
  | _ => Raise (TypeError ("argument of type '" ++ type_name v ++ "' is not iterable"))
  end.

(** [v.split(sep)] *)
Definition split (v : value) (sep : string) : result (list string) :=
  match v with
  | VStr t => Ok (PyStr.split sep t)
  | _ => Raise (no_attribute v "split")
  end.

(** [l[i]] on a Python list *)
Definition index {A} (l : list A) (i : nat) : result A :=
  match l !! i with
  | Some x => Ok x
  | None => Raise (IndexError "list index out of range")
  end.

(** Truth value of an object in [if v:] *)
Definition truthy (v : value) : bool :=
  match v with
  | VNone => false
  | VBool b => b
  | VInt n => negb (Z.eqb n 0)
  | VFloat _ => true
  | VStr s => negb (String.eqb s "")
  | VList l => match l with [] => false | _ => true end
  | VDict d => match d with [] => false | _ => true end
  end.

(** Shapes of a message: a dict, and a dict whose ["role"] equals [r]. *)
Definition is_dict (m : value) : bool :=
  match m with VDict _ => true | _ => false end.

Definition has_role (r : string) (m : value) : bool :=
  match m with
  | VDict d => match assoc_get "role" d with
               | Some v => eq_str v r
               | None => false
               end
  | _ => false
  end.

End Py.

(** ** The process and its surroundings

    [environ] is what the process reads and cannot change: the environment
    variables, the clock, the configured base URL, and which file operations
    fail.  [world] is what it changes: the lines printed on standard output
    (one entry per [print] call) and the contents of the regular files. *)

Inductive write_failure : Type :=
  | FailOpen (e : exn)                 (* [open(p, "w")] raises, the file is untouched *)
  | FailWrite (written : nat) (e : exn). (* raised after the file was truncated and
                                          [written] characters went out *)

Record environ : Type := {
  HOME : string;                       (* [Path.home()] *)
  SHELL : option string;               (* [os.environ.get("SHELL")] *)
  now : Z;                             (* [int(time.time())] *)
  vity_llm_base_url : string;          (* [config.vity_llm_base_url] *)
  read_fault : string → option exn;    (* [open(p, "r")] or [f.read()] raises *)
  write_fault : string → option write_failure;
  append_fault : string → option exn;  (* [open(p, "a")] or [f.write] raises *)
  unlink_fault : string → option exn   (* [Path.unlink] raises *)
}.

Record world : Type := {
  stdout : list string;
  fs : gmap string string
}.

Definition M (A : Type) : Type := world → result A * world.

Global Instance M_ret : MRet M := λ A a w, (Ok a, w).
Global Instance M_bind : MBind M := λ A B f m w,
  match m w with
  | (Ok a, w') => f a w'
  | (Raise e, w') => (Raise e, w')
  end.

Definition raise {A} (e : exn) : M A := λ w, (Raise e, w).

Definition lift {A} (r : result A) : M A := λ w, (r, w).

(** [try: body / except ...: handler]: [handler e] is [Some h] when one of
    the [except] clauses matches [e]. *)
Definition try_except {A} (body : M A) (handler : exn → option (M A)) : M A := λ w,
  match body w with
  | (Raise e, w') => match handler e with
                     | Some h => h w'
                     | None => (Raise e, w')
                     end
  | r => r
  end.

(** The world after more lines were printed, and after a file was given
    new contents. *)
Definition out (w : world) (lines : list string) : world :=
  {| stdout := stdout w ++ lines; fs := fs w |}.

Definition put (w : world) (p data : string) : world :=
  {| stdout := stdout w; fs := <[p := data]> (fs w) |}.

Definition print (line : string) : M unit := λ w, (Ok tt, out w [line]).

Section Files.
Context (env : environ).

(** [with open(p, "r") as f: f.read()] *)
Definition read_file (p : string) : M string := λ w,
  match read_fault env p with
  | Some e => (Raise e, w)
  | None => match fs w !! p with
            | Some data => (Ok data, w)
            | None => (Raise (FileNotFoundError
                         ("[Errno 2] No such file or directory: '" ++ p ++ "'")), w)
            end
  end.

(** [with open(p, "w") as f: f.write(data)]: opening truncates. *)
Definition write_file (p data : string) : M unit := λ w,
  match write_fault env p with
  | Some (FailOpen e) => (Raise e, w)
  | Some (FailWrite n e) => (Raise e, put w p (String.substring 0 n data))
  | None => (Ok tt, put w p data)
  end.

(** [with open(p, "a") as f: f.write(data)] *)
Definition append_file (p data : string) : M unit := λ w,
  match append_fault env p with
  | Some e => (Raise e, w)
  | None => (Ok tt, put w p (default "" (fs w !! p) ++ data))
  end.
End Files.

(** ** Command line *)

Inductive subcommand : Type := Do | Chat.

Record arguments : Type := {
  command : subcommand;
  prompt : list string;                (* [nargs="+"] *)
  history_file : option string;        (* [-f], [None] when absent *)
  chat_file : option string            (* [-c], [None] when absent *)
}.

(** [if args.history_file:] — [None] and the empty string are false. *)
Definition given (o : option string) : option string :=
  match o with
  | Some p => if String.eqb p "" then None else Some p
  | None => None
  end.

Definition delimiter : string := " # ".
Definition marker : string := " * vity generated command".
Definition sentinel : string := "__VITY_CMD__:".

Definition LF : string := String "010" EmptyString.

Global Instance result_fmap : FMap result := λ A B f r,
  match r with Ok a => Ok (f a) | Raise e => Raise e end.

(** What the interpreter reports when [main] is over: status 0 after a
    normal return, the code of [sys.exit], and status 1 with a traceback for
    an exception nobody caught. *)
Definition exit_status (r : result unit) : Z :=
  match r with
  | Ok _ => 0
  | Raise (SystemExit c) => c
  | Raise _ => 1
  end.

Definition uncaught (r : result unit) : option exn :=
  match r with
  | Ok _ | Raise (SystemExit _) => None
  | Raise e => Some e
  end.

(** ** The orchestrator (cli.py, lines 162-276)

    What lives outside [cli.py] is a parameter: [generate_command],
    [generate_chat_response] and [remove_terminal_history_tags] of
    [vity/llm.py] (each may raise), [json.loads] (which raises
    [JSONDecodeError] for a text that is not JSON, and may raise another
    error, as [RecursionError] for a text nested too deeply),
    [json.dumps(_, indent=2)], and the text Python prints for an object
    that is not a string. *)

Record collaborators : Type := {
  generate_command : string → value → string → string → result (list value);
  generate_chat_response : string → value → string → string → result (list value);
  remove_terminal_history_tags : value → result value;
  json_loads : string → result value;
  json_dumps : list value → string;
  py_repr : value → string
}.

Section Orchestrator.
Context (env : environ) (lib : collaborators).

(** [f"{v}"] and [print(v)] *)
Definition py_str (v : value) : string :=
  match v with VStr s => s | _ => py_repr lib v end.

(** Lines 170-177. *)
Definition load_terminal_history (args : arguments) : M string :=
  match given (history_file args) with
  | Some p =>
      try_except (read_file env p)
        (λ e, if is_FileNotFoundError e
              then Some (print ("⚠️  Warning: history file '" ++ p ++ "' not found");;
                         mret "")
              else None)
  | None => mret ""
  end.

(** [json.load(f)] *)
Definition json_load (p : string) : M value :=
  data ← read_file env p;
  lift (json_loads lib data).

(** Lines 179-190. *)
Definition load_chat_history (args : arguments) : M value :=
  match given (chat_file args) with
  | Some p =>
      try_except (json_load p)
        (λ e, if is_FileNotFoundError e then Some (mret (VList []))
              else if is_JSONDecodeError e
              then Some (print ("⚠️  Warning: chat file '" ++ p
                                ++ "' contains invalid JSON, starting fresh");;
                         mret (VList []))
              else None)
  | None => mret (VList [])
  end.

(** Line 201, [message["content"][0]["text"] =
    remove_terminal_history_tags(message["content"][0]["text"])]: the
    right-hand side first, then the target [message["content"][0]], then
    the store into that dict, seen from [message]. *)
Definition store_part (message part' : value) : value :=
  match message with
  | VDict d =>
      match Py.assoc_get "content" d with
      | Some (VList (_ :: parts)) =>
          VDict (Py.assoc_set "content" (VList (part' :: parts)) d)
      | _ => message
      end
  | _ => message
  end.

Definition strip_message (message : value) : result value :=
  content ← Py.getitem message "content";
  part ← Py.getitem0 content;
  text ← Py.getitem part "text";
  text' ← remove_terminal_history_tags lib text;
  content ← Py.getitem message "content";
  part ← Py.getitem0 content;
  part' ← Py.setitem part "text" text';
  mret (store_part message part').

(** Lines 199-202, over [reversed(updated_chat_history)]. *)
Fixpoint strip_loop (reversed : list value) : result (list value) :=
  match reversed with
  | [] => mret []
  | message :: rest =>
      role ← Py.getitem message "role";
      if Py.eq_str role "user"
      then message' ← strip_message message; mret (message' :: rest)
      else rest' ← strip_loop rest; mret (message :: rest')
  end.

Definition strip_last_user (history : list value) : result (list value) :=
  reverse <$> strip_loop (reverse history).

(** Lines 205-209; [VNone] is [last_assistant_msg = None]. *)
Fixpoint last_assistant_loop (reversed : list value) : result value :=
  match reversed with
  | [] => mret VNone
  | msg :: rest =>
      role ← Py.get msg "role" VNone;
      if Py.eq_str role "assistant" then mret msg else last_assistant_loop rest
  end.

Definition last_assistant (history : list value) : result value :=
  last_assistant_loop (reverse history).

(** Line 213 (and 266). *)
Definition assistant_text (msg : value) : result value :=
  content ← Py.get msg "content" (VList [VDict []]);
  part ← Py.getitem0 content;
  Py.get part "text" (VStr "").

(** Lines 214-219. *)
Definition cmd_string (content : value) : result value :=
  has ← Py.contains delimiter content;
  if (has : bool) then
    parts ← Py.split content delimiter;
    cmd_part ← Py.index parts 0;
    parts' ← Py.split content delimiter;
    piece ← Py.index parts' 1;
    let comment_part := PyStr.replace marker "" piece in
    mret (VStr (cmd_part ++ " # " ++ comment_part))
  else mret content.

(** Lines 227-231. *)
Definition shell : string := default "/bin/bash" (SHELL env).

Definition shell_history_file : string :=
  if PyStr.contains "zsh" shell
  then HOME env ++ "/.zsh_history"
  else HOME env ++ "/.bash_history".

(** Lines 235-240. *)
Definition history_entry (cmd : string) : string :=
  if PyStr.contains "zsh" shell
  then ": " ++ pretty (now env) ++ ":0;" ++ cmd ++ LF
  else cmd ++ LF.

(** Lines 233-242. *)
Definition append_shell_history (cmd : string) : M unit :=
  try_except (append_file env shell_history_file (history_entry cmd))
    (λ e, if is_OSError e then Some (mret tt) else None).

(** Lines 246-248 (and 270-272). *)
Definition save (args : arguments) (history : list value) : M unit :=
  match given (chat_file args) with
  | Some p => write_file env p (json_dumps lib history)
  | None => mret tt
  end.

(** Lines 211-242. *)
Definition emit_command (last_assistant_msg : value) : M unit :=
  if Py.truthy last_assistant_msg then
    content ← lift (assistant_text last_assistant_msg);
    cmd ← lift (cmd_string content);
    print ("Command: " ++ py_str cmd);;
    print (sentinel ++ py_str cmd);;
    append_shell_history (py_str cmd)
  else mret tt.

(** Lines 265-267. *)
Definition emit_reply (last_assistant_msg : value) : M unit :=
  if Py.truthy last_assistant_msg then
    content ← lift (assistant_text last_assistant_msg);
    print (py_str content)
  else mret tt.

(** Lines 195-248. *)
Definition do_command (args : arguments) (terminal_history : string)
    (chat_history : value) (user_input provider : string) : M unit :=
  updated ← lift (generate_command lib terminal_history chat_history user_input provider);
  updated ← lift (strip_last_user updated);
  last_assistant_msg ← lift (last_assistant updated);
  emit_command last_assistant_msg;;
  save args updated.

(** Lines 250-272. *)
Definition chat_command (args : arguments) (terminal_history : string)
    (chat_history : value) (user_input provider : string) : M unit :=
  updated ← lift (generate_chat_response lib terminal_history chat_history
                    user_input provider);
  updated ← lift (strip_last_user updated);
  last_assistant_msg ← lift (last_assistant updated);
  emit_reply last_assistant_msg;;
  save args updated.

(** Lines 164-168. *)
Definition provider : string :=
  if PyStr.contains "googleapis" (vity_llm_base_url env) then "google" else "openai".

Definition user_input (args : arguments) : string := PyStr.join " " (prompt args).

(** The body of the [try] statement, lines 195-272. *)
Definition do_or_chat (args : arguments) (terminal_history : string)
    (chat_history : value) : M unit :=
  match command args with
  | Do => do_command args terminal_history chat_history (user_input args) provider
  | Chat => chat_command args terminal_history chat_history (user_input args) provider
  end.

(** Lines 274-276. *)
Definition report (e : exn) : M unit :=
  print ("❌ Error: " ++ exn_str e);; raise (SystemExit 1).

(** Lines 194-276: the [try] statement. *)
Definition handled (args : arguments) (terminal_history : string)
    (chat_history : value) : M unit :=
  try_except (do_or_chat args terminal_history chat_history)
    (λ e, if is_Exception e then Some (report e) else None).

(** The [do] / [chat] branch of [main], reached when the configuration
    exists and [args.command] is one of the two. *)
Definition main (args : arguments) : M unit :=
  terminal_history ← load_terminal_history args;
  chat_history ← load_chat_history args;
  print "🤖 Vity is thinking...";;
  handled args terminal_history chat_history.

End Orchestrator.

(** ** What stripping may change

    The statement to compare the loop of lines 199-202 with: the history
    after stripping is the history before, except that in the most recent
    message whose role is ["user"] the ["text"] of the first content part
    went through [remove_terminal_history_tags].  A history without a user
    message stays as it is. *)

Definition not_user (m : value) : Prop :=
  ∃ v, Py.getitem m "role" = Ok v ∧ Py.eq_str v "user" = false.

Inductive stripped_last_user (lib : collaborators) : list value → list value → Prop :=
  | stripped_none (history : list value) :
      Forall not_user history →
      stripped_last_user lib history history
  | stripped_one (earlier later : list value) (d part : list (string * value))
        (parts : list value) (text text' : value) :
      Forall not_user later →
      Py.assoc_get "role" d = Some (VStr "user") →
      Py.assoc_get "content" d = Some (VList (VDict part :: parts)) →
      Py.assoc_get "text" part = Some text →
      remove_terminal_history_tags lib text = Ok text' →
      stripped_last_user lib
        (earlier ++ VDict d :: later)
        (earlier
           ++ VDict (Py.assoc_set "content"
                       (VList (VDict (Py.assoc_set "text" text' part) :: parts)) d)
           :: later).

(** A message that the scan of lines 205-209 passes over: a dict whose
    role is not ["assistant"]. *)
Definition no_assistant (m : value) : bool :=
  Py.is_dict m && negb (Py.has_role "assistant" m).

(** The world after [save]. *)
Definition saved (lib : collaborators) (args : arguments) (history : list value)
    (w : world) : world :=
  match given (chat_file args) with
  | Some p => put w p (json_dumps lib history)
  | None => w
  end.

(** ** A concrete setting

    One instance of the parameters, to run the model on: a collaborator that
    appends the user turn (the terminal history wrapped in a tag, then the
    prompt) and an assistant turn with a fixed reply, a tag stripper for that
    wrapping, and compact stand-ins for the [json] functions. *)

Module Sample.

Definition user_message (text : string) : value :=
  VDict [("role", VStr "user"); ("content", VList [VDict [("text", VStr text)]])].

Definition assistant_message (text : string) : value :=
  VDict [("role", VStr "assistant"); ("content", VList [VDict [("text", VStr text)]])].

Definition open_tag : string := "<terminal_history>".
Definition close_tag : string := "</terminal_history>".

Definition generate (reply terminal_history : string) (chat_history : value)
    (user_input provider : string) : result (list value) :=
  let earlier := match chat_history with VList l => l | _ => [] end in
  Ok (earlier ++ [user_message (open_tag ++ terminal_history ++ close_tag ++ user_input);
                  assistant_message reply])%list.

(** A collaborator that answers with the user turn only. *)
Definition generate_silent (terminal_history : string) (chat_history : value)
    (user_input provider : string) : result (list value) :=
  let earlier := match chat_history with VList l => l | _ => [] end in
  Ok (earlier ++ [user_message (open_tag ++ terminal_history ++ close_tag ++ user_input)])%list.

(** A collaborator whose request fails. *)
Definition generate_failing (terminal_history : string) (chat_history : value)
    (user_input provider : string) : result (list value) :=
  Raise (OtherException "Connection error.").

(** Drops a leading tag: the text from [open_tag] up to [close_tag]. *)
Definition strip_tags (text : value) : result value :=
  match text with
  | VStr s =>
      if PyStr.startswith open_tag s
      then match PyStr.split close_tag s with
           | _ :: rest => Ok (VStr (PyStr.join close_tag rest))
           | [] => Ok text
           end
      else Ok text
  | _ => Raise (TypeError "expected string or bytes-like object")
  end.

Fixpoint dumps (v : value) : string :=
  match v with
  | VNone => "null"
  | VBool true => "true"
  | VBool false => "false"
  | VInt n => pretty n
  | VFloat lit => lit
  | VStr s => "'" ++ s ++ "'"
  | VList l =>
      "[" ++ (fix items (l : list value) : string :=
                match l with
                | [] => ""
                | [x] => dumps x
                | x :: rest => dumps x ++ ", " ++ items rest
                end) l ++ "]"
  | VDict d =>
      "{" ++ (fix items (d : list (string * value)) : string :=
                match d with
                | [] => ""
                | [(k, x)] => "'" ++ k ++ "': " ++ dumps x
                | (k, x) :: rest => "'" ++ k ++ "': " ++ dumps x ++ ", " ++ items rest
                end) d ++ "}"
  end.

Definition loads (data : string) : result value :=
  if String.eqb data "[]" then Ok (VList [])
  else Raise (JSONDecodeError "Expecting value: line 1 column 1 (char 0)").

Definition lib (reply : string) : collaborators := {|
  generate_command := generate reply;
  generate_chat_response := generate reply;
  remove_terminal_history_tags := strip_tags;
  json_loads := loads;
  json_dumps := λ history, dumps (VList history);
  py_repr := dumps
|}.

Definition silent_lib : collaborators := {|
  generate_command := generate_silent;
  generate_chat_response := generate_silent;
  remove_terminal_history_tags := strip_tags;
  json_loads := loads;
  json_dumps := λ history, dumps (VList history);
  py_repr := dumps
|}.

Definition failing_lib : collaborators := {|
  generate_command := generate_failing;
  generate_chat_response := generate_failing;
  remove_terminal_history_tags := strip_tags;
  json_loads := loads;
  json_dumps := λ history, dumps (VList history);
  py_repr := dumps
|}.

(** No operation fails. *)
Definition env (sh : option string) : environ := {|
  HOME := "/home/u";
  SHELL := sh;
  now := 1700000000;
  vity_llm_base_url := "https://api.openai.com/v1";
  read_fault := λ _, None;
  write_fault := λ _, None;
  append_fault := λ _, None;
  unlink_fault := λ _, None
|}.

Definition bash : environ := env (Some "/bin/bash").
Definition zsh : environ := env (Some "/usr/bin/zsh").

(** The terminal log cannot be read. *)
Definition unreadable_log : environ := {|
  HOME := "/home/u";
  SHELL := Some "/bin/bash";
  now := 1700000000;
  vity_llm_base_url := "https://api.openai.com/v1";
  read_fault := λ p, if String.eqb p "session.log"
                     then Some (PermissionError "[Errno 13] Permission denied: 'session.log'")
                     else None;
  write_fault := λ _, None;
  append_fault := λ _, None;
  unlink_fault := λ _, None
|}.

(** The disk is full: the chat file is opened, and nothing can be written. *)
Definition disk_full : environ := {|
  HOME := "/home/u";
  SHELL := Some "/bin/bash";
  now := 1700000000;
  vity_llm_base_url := "https://api.openai.com/v1";
  read_fault := λ _, None;
  write_fault := λ p, if String.eqb p "chat.json"
                      then Some (FailWrite 0 (OSError "[Errno 28] No space left on device"))
                      else None;
  append_fault := λ _, None;
  unlink_fault := λ _, None
|}.

(** The shell history file is read-only. *)
Definition history_readonly : environ := {|
  HOME := "/home/u";
  SHELL := Some "/bin/bash";
  now := 1700000000;
  vity_llm_base_url := "https://api.openai.com/v1";
  read_fault := λ _, None;
  write_fault := λ _, None;
  append_fault := λ _, Some (PermissionError
                   "[Errno 13] Permission denied: '/home/u/.bash_history'");
  unlink_fault := λ _, None
|}.

Definition args (c : subcommand) (f ch : option string) : arguments := {|
  command := c;
  prompt := ["list"; "files"];
  history_file := f;
  chat_file := ch
|}.

Definition empty : world := {| stdout := []; fs := ∅ |}.

(** The scenario of the specification: prompt "list files", and the reply
    below; what the collaborator returns for it, and the same after
    stripping. *)
Definition reply : string := "ls -la # lists all files * vity generated command".

Definition returned (terminal_history : string) (reply : string) : list value :=
  [user_message (open_tag ++ terminal_history ++ close_tag ++ "list files");
   assistant_message reply].

Definition stripped (reply : string) : list value :=
  [user_message "list files"; assistant_message reply].

Definition with_files (files : list (string * string)) : world :=
  {| stdout := []; fs := list_to_map files |}.

End Sample.

(** ** More of Python's [str] *)

Module PyText.

Definition of_codes (codes : list nat) : string :=
  fold_right (λ n s, String (ascii_of_nat n) s) EmptyString codes.

(** The characters [str.isspace] accepts, in UTF-8: U+0009-000D,
    U+001C-001F, U+0020, U+0085, U+00A0, U+1680, U+2000-200A, U+2028,
    U+2029, U+202F, U+205F and U+3000. *)
Definition whitespace : list string :=
  of_codes <$>
    [[9]; [10]; [11]; [12]; [13]; [28]; [29]; [30]; [31]; [32];
     [194; 133]; [194; 160]; [225; 154; 128];
     [226; 128; 128]; [226; 128; 129]; [226; 128; 130]; [226; 128; 131];
     [226; 128; 132]; [226; 128; 133]; [226; 128; 134]; [226; 128; 135];
     [226; 128; 136]; [226; 128; 137]; [226; 128; 138];
     [226; 128; 168]; [226; 128; 169]; [226; 128; 175]; [226; 129; 159];
     [227; 128; 128]].

(** The length of the first pattern that [s] starts with. *)
Fixpoint leading (patterns : list string) (s : string) : option nat :=
  match patterns with
  | [] => None
  | p :: rest => if PyStr.startswith p s then Some (String.length p) else leading rest s
  end.

Fixpoint lstrip_go (skip : nat) (s : string) : string :=
  match s with
  | EmptyString => EmptyString
  | String c s' =>
      match skip with
      | S k => lstrip_go k s'
      | O => match leading whitespace s with
             | Some n => lstrip_go (n - 1) s'
             | None => s
             end
      end
  end.

(** [s.lstrip()] *)
Definition lstrip (s : string) : string := lstrip_go 0 s.

(** [s.rstrip()]: the text up to where only whitespace follows.  (Inside
    a multi-byte character what follows starts with a continuation byte,
    which begins no whitespace character.) *)
Fixpoint rstrip (s : string) : string :=
  match s with
  | EmptyString => EmptyString
  | String c s' => if String.eqb (lstrip s) "" then EmptyString else String c (rstrip s')
  end.

(** [s.strip()] *)
Definition strip (s : string) : string := lstrip (rstrip s).

(** What a file opened in text mode hands over (universal newlines):
    [\r\n] and a [\r] alone both become [\n]. *)
Fixpoint universal_newlines (s : string) : string :=
  match s with
  | EmptyString => EmptyString
  | String c s' =>
      if Ascii.eqb c "013" then
        match s' with
        | String d _ =>
            if Ascii.eqb d "010" then universal_newlines s'
            else String "010" (universal_newlines s')
        | EmptyString => String "010" EmptyString
        end
      else String c (universal_newlines s')
  end.

End PyText.

(** ** The shell integration script (cli.py, lines 279-422)

    The text that [_get_shell_script_content] returns, line by line as in
    the source (lines 282-421); [DQ] is the double quote. *)

Definition DQ : string := String "034" EmptyString.

Definition shell_script_lines : list string := [
  "# Vity shell integration";
  "vity() {";
  "    if [[ " ++ DQ ++ "$1" ++ DQ ++ " == " ++ DQ ++ "record" ++ DQ ++ " ]]; then";
  "        shift";
  "        log_dir=" ++ DQ ++ "$HOME/.local/share/vity/logs" ++ DQ;
  "        chat_dir=" ++ DQ ++ "$HOME/.local/share/vity/chat" ++ DQ;
  "        mkdir -p " ++ DQ ++ "$log_dir" ++ DQ;
  "        mkdir -p " ++ DQ ++ "$chat_dir" ++ DQ;
  "        logfile=" ++ DQ ++ "$log_dir/$(date +%Y%m%d-%H%M%S)-$$.log" ++ DQ;
  "        chatfile=" ++ DQ ++ "$chat_dir/$(date +%Y%m%d-%H%M%S)-$$.json" ++ DQ;
  "        ";
  "        export VITY_ACTIVE_LOG=" ++ DQ ++ "$logfile" ++ DQ;
  "        export VITY_ACTIVE_CHAT=" ++ DQ ++ "$chatfile" ++ DQ;
  "        echo " ++ DQ ++ "🔴 Starting recording session" ++ DQ;
  "        echo " ++ DQ ++ "📝 Use 'vity do' or 'vity chat' for contextual help" ++ DQ;
  "        echo " ++ DQ ++ "🛑 Type 'exit' to stop recording" ++ DQ;
  "        ";
  "        script -f " ++ DQ ++ "$logfile" ++ DQ;
  "        ";
  "        unset VITY_ACTIVE_LOG VITY_ACTIVE_CHAT";
  "        echo " ++ DQ ++ "🟢 Recording session ended" ++ DQ;
  "        ";
  "    elif [[ " ++ DQ ++ "$1" ++ DQ ++ " == " ++ DQ ++ "do" ++ DQ ++ " ]]; then";
  "        shift";
  "        local _vity_output";
  "        if [[ -n " ++ DQ ++ "$VITY_ACTIVE_LOG" ++ DQ ++ " && -f " ++ DQ ++ "$VITY_ACTIVE_LOG" ++ DQ ++ " ]]; then";
  "            _vity_output=$(command vity -f " ++ DQ ++ "$VITY_ACTIVE_LOG" ++ DQ ++ " -c " ++ DQ ++ "$VITY_ACTIVE_CHAT" ++ DQ ++ " do " ++ DQ ++ "$@" ++ DQ ++ " 2>&1)";
  "        else";
  "            echo " ++ DQ ++ "⚠️  No active recording. Use 'vity record' for context." ++ DQ;
  "            _vity_output=$(command vity do " ++ DQ ++ "$@" ++ DQ ++ " 2>&1)";
  "        fi";
  "        ";
  "        # Print all output lines EXCEPT the __VITY_CMD__ marker";
  "        local _vity_cmd=" ++ DQ ++ DQ;
  "        echo " ++ DQ ++ "$_vity_output" ++ DQ ++ " | while IFS= read -r line; do";
  "            if [[ " ++ DQ ++ "$line" ++ DQ ++ " == __VITY_CMD__:* ]]; then";
  "                : # skip marker line in display output";
  "            else";
  "                echo " ++ DQ ++ "$line" ++ DQ;
  "            fi";
  "        done";
  "        ";
  "        # Extract command from the __VITY_CMD__ marker";
  "        _vity_cmd=$(echo " ++ DQ ++ "$_vity_output" ++ DQ ++ " | grep '^__VITY_CMD__:' | head -1 | sed 's/^__VITY_CMD__://')";
  "        ";
  "        # Inject into shell's live in-memory history so up-arrow works immediately";
  "        if [[ -n " ++ DQ ++ "$_vity_cmd" ++ DQ ++ " ]]; then";
  "            if [[ -n " ++ DQ ++ "$ZSH_VERSION" ++ DQ ++ " ]]; then";
  "                # ZSH: print -s adds directly to the in-memory history";
  "                print -s " ++ DQ ++ "$_vity_cmd" ++ DQ;
  "            else";
  "                # Bash: history -s adds directly to the in-memory history";
  "                history -s " ++ DQ ++ "$_vity_cmd" ++ DQ;
  "            fi";
  "        fi";
  "        ";
  "    elif [[ " ++ DQ ++ "$1" ++ DQ ++ " == " ++ DQ ++ "chat" ++ DQ ++ " ]]; then";
  "        shift";
  "        if [[ -n " ++ DQ ++ "$VITY_ACTIVE_LOG" ++ DQ ++ " && -f " ++ DQ ++ "$VITY_ACTIVE_LOG" ++ DQ ++ " ]]; then";
  "            command vity -f " ++ DQ ++ "$VITY_ACTIVE_LOG" ++ DQ ++ " -c " ++ DQ ++ "$VITY_ACTIVE_CHAT" ++ DQ ++ " chat " ++ DQ ++ "$@" ++ DQ;
  "        else";
  "            echo " ++ DQ ++ "⚠️  No active recording. Use 'vity record' for context." ++ DQ;
  "            command vity chat " ++ DQ ++ "$@" ++ DQ;
  "        fi";
  "        ";
  "    elif [[ " ++ DQ ++ "$1" ++ DQ ++ " == " ++ DQ ++ "status" ++ DQ ++ " ]]; then";
  "        if [[ -n " ++ DQ ++ "$VITY_ACTIVE_LOG" ++ DQ ++ " ]]; then";
  "            echo " ++ DQ ++ "🔴 Recording active:" ++ DQ;
  "            echo " ++ DQ ++ "  📝 Terminal log: $VITY_ACTIVE_LOG" ++ DQ;
  "            echo " ++ DQ ++ "  💬 Chat history: $VITY_ACTIVE_CHAT" ++ DQ;
  "        else";
  "            echo " ++ DQ ++ "⚫ No active recording" ++ DQ;
  "        fi";
  "        ";
  "    # Forward commands that should be handled directly by the Python CLI";
  "    elif [[ " ++ DQ ++ "$1" ++ DQ ++ " == " ++ DQ ++ "install" ++ DQ ++ " || " ++ DQ ++ "$1" ++ DQ ++ " == " ++ DQ ++ "reinstall" ++ DQ ++ " || " ++ DQ ++ "$1" ++ DQ ++ " == " ++ DQ ++ "config" ++ DQ ++ " || " ++ DQ ++ "$1" ++ DQ ++ " == " ++ DQ ++ "uninstall" ++ DQ ++ " ]]; then";
  "        # Call the underlying vity executable with the provided arguments unchanged";
  "        command vity " ++ DQ ++ "$@" ++ DQ;
  "        ";
  "    elif [[ " ++ DQ ++ "$1" ++ DQ ++ " == " ++ DQ ++ "help" ++ DQ ++ " || " ++ DQ ++ "$1" ++ DQ ++ " == " ++ DQ ++ "-h" ++ DQ ++ " || " ++ DQ ++ "$1" ++ DQ ++ " == " ++ DQ ++ "--help" ++ DQ ++ " ]]; then";
  "        cat << 'EOF'";
  "🤖 Vity - AI Terminal Assistant";
  "";
  "USAGE:";
  "    vity <command> [options] [prompt]";
  "";
  "COMMANDS:";
  "    do <prompt>      Generate a shell command (adds to history)";
  "    chat <prompt>    Chat with AI about terminal/coding topics";
  "    record           Start recording session for context";
  "    status           Show current recording status";
  "    config           Show configuration";
  "    config --reset   Reset configuration (always available)";
  "    install          Install shell integration (always available)";
  "    reinstall        Reinstall shell integration (always available)";
  "    uninstall        Completely remove vity and all data";
  "    help             Show this help message";
  "";
  "EXAMPLES:";
  "    vity do " ++ DQ ++ "find all python files" ++ DQ;
  "    vity chat " ++ DQ ++ "explain this error message" ++ DQ;
  "    vity record";
  "    vity do " ++ DQ ++ "deploy the app" ++ DQ ++ "  # (with context from recording)";
  "    vity status";
  "    vity config --reset";
  "    vity reinstall";
  "";
  "CONTEXT:";
  "    • Use 'vity record' to start capturing session context";
  "    • Commands run during recording provide better AI responses";
  "    • Recording captures both terminal output and chat history";
  "    • Recording indicator (🔴) shows in your prompt";
  "    • Use 'exit' to stop recording";
  "EOF";
  "        ";
  "    else";
  "        # Show help for unknown commands or no arguments";
  "        if [[ -n " ++ DQ ++ "$1" ++ DQ ++ " ]]; then";
  "            echo " ++ DQ ++ "❌ Unknown command: $1" ++ DQ;
  "            echo " ++ DQ ++ DQ;
  "        fi";
  "        echo " ++ DQ ++ "🤖 Vity - AI Terminal Assistant" ++ DQ;
  "        echo " ++ DQ ++ DQ;
  "        echo " ++ DQ ++ "Usage: vity <command> [prompt]" ++ DQ;
  "        echo " ++ DQ ++ DQ;
  "        echo " ++ DQ ++ "Commands:" ++ DQ;
  "        echo " ++ DQ ++ "  do <prompt>      Generate shell command" ++ DQ;
  "        echo " ++ DQ ++ "  chat <prompt>    Chat with AI" ++ DQ;
  "        echo " ++ DQ ++ "  record           Start recording session" ++ DQ;
  "        echo " ++ DQ ++ "  status           Show recording status" ++ DQ;
  "        echo " ++ DQ ++ "  config           Show configuration" ++ DQ;
  "        echo " ++ DQ ++ "  config --reset   Reset configuration" ++ DQ;
  "        echo " ++ DQ ++ "  install          Install shell integration" ++ DQ;
  "        echo " ++ DQ ++ "  reinstall        Reinstall shell integration" ++ DQ;
  "        echo " ++ DQ ++ "  uninstall        Completely remove vity and all data" ++ DQ;
  "        echo " ++ DQ ++ "  help             Show detailed help" ++ DQ;
  "        echo " ++ DQ ++ DQ;
  "        echo " ++ DQ ++ "Run 'vity help' for more details and examples." ++ DQ;
  "    fi";
  "}"
].

Definition _get_shell_script_content : string :=
  LF ++ PyStr.join LF shell_script_lines ++ LF.

(** ** The terminal

    [input] takes the next line the user types and shows its prompt first;
    the prompts are kept apart from the printed lines (a prompt ends no
    line).  With nothing left to read [input] raises [EOFError], an
    [Exception] like any other. *)

Record terminal : Type := {
  stdin : list string;
  asked : list string
}.

Definition IO (A : Type) : Type := terminal → world → result A * terminal * world.

Global Instance IO_ret : MRet IO := λ A a t w, (Ok a, t, w).
Global Instance IO_bind : MBind IO := λ A B f m t w,
  match m t w with
  | (Ok a, t', w') => f a t' w'
  | (Raise e, t', w') => (Raise e, t', w')
  end.

Definition run {A} (m : M A) : IO A := λ t w,
  let '(r, w') := m w in (r, t, w').

Definition input (prompt : string) : IO string := λ t w,
  match stdin t with
  | line :: rest => (Ok line, {| stdin := rest; asked := asked t ++ [prompt] |}, w)
  | [] => (Raise (OtherException "EOF when reading a line"),
           {| stdin := []; asked := asked t ++ [prompt] |}, w)
  end.

(** ** Configuration and shell integration (cli.py, lines 15-58, 425-476,
    517-545 and 615-637)

    Paths name regular files; directories are not part of the model, so
    [Path.exists] is asked of files only and [mkdir] has nothing to do. *)

Section Maintenance.
Context (env : environ).

Definition exists_ (p : string) : M bool := λ w,
  (Ok (bool_decide (is_Some (fs w !! p))), w).

(** [Path(p).read_text()] *)
Definition read_text (p : string) : M string :=
  text ← read_file env p;
  mret (PyText.universal_newlines text).

(** [Path(p).unlink()] *)
Definition unlink (p : string) : M unit := λ w,
  match unlink_fault env p with
  | Some e => (Raise e, w)
  | None =>
      match fs w !! p with
      | Some _ => (Ok tt, {| stdout := stdout w; fs := delete p (fs w) |})
      | None => (Raise (FileNotFoundError
                   ("[Errno 2] No such file or directory: '" ++ p ++ "'")), w)
      end
  end.

(** [Path.home() / ".config" / "vity" / ".env"] *)
Definition config_file : string := HOME env ++ "/.config" ++ "/vity" ++ "/.env".

(** Lines 15-19. *)
Definition check_config : M bool := exists_ config_file.

(** Lines 21-58.  The result is [False] after a refusal and [None]
    otherwise. *)
Definition setup_config : IO value :=
  present ← run (exists_ config_file);
  if negb present then
    run (print "🤖 Welcome to Vity! Let's set up your OpenAI API key.");;
    run (print "You can get one at: https://platform.openai.com/api-keys");;
    run (print "");;
    base_url ← input "Enter your LLM provider base url: ";
    let base_url := PyText.strip base_url in
    api_key ← input "Enter your LLM provider API key[Use 'NONE' if not needed]: ";
    let api_key := PyText.strip api_key in
    llm_model ← input "Enter LLM model name to use: ";
    let llm_model := PyText.strip llm_model in
    terminal_history_limit ← input "How many lines of terminal history do you wanna send to the LLM[Leave empty for default: last 1000 lines]: ";
    let terminal_history_limit := PyText.strip terminal_history_limit in
    if String.eqb api_key "" then
      run (print "❌ API key is required");; mret (VBool false)
    else if String.eqb base_url "" then
      run (print "❌ Base URL is required");; mret (VBool false)
    else
      (if String.eqb llm_model "" then run (print "❌ LLM model name is required") else mret tt);;
      let terminal_history_limit :=
        if String.eqb terminal_history_limit "" then "1000" else terminal_history_limit in
      let config_text :=
        "VITY_LLM_API_KEY=" ++ api_key ++ LF ++
        "VITY_LLM_MODEL=" ++ llm_model ++ LF ++
        "VITY_LLM_BASE_URL=" ++ base_url ++ LF ++
        "VITY_TERMINAL_HISTORY_LIMIT=" ++ terminal_history_limit in
      run (write_file env config_file config_text);;
      run (print "✅ Configuration saved!");;
      run (print ("Config file: " ++ config_file));;
      run (print "");;
      mret VNone
  else
    run (print "✅ Configuration already exists");;
    run (print ("Config file: " ++ config_file));;
    run (print "Run 'vity config --reset' to reset the configuration");;
    mret VNone.

(** Lines 615-624. *)
Definition reset_config : M unit :=
  present ← exists_ config_file;
  if (present : bool) then unlink config_file;; print "✅ Configuration reset"
  else print "ℹ️  No configuration found".

(** Lines 627-637. *)
Definition show_config : M unit :=
  present ← exists_ config_file;
  if (present : bool) then
    print ("📁 Config file: " ++ config_file);;
    print "🔑 API key configured"
  else
    print "❌ No configuration found";;
    print "Run 'vity config' to set up".

Definition integration_marker : string := "# Vity shell integration".

Definition bashrc : string := HOME env ++ "/.bashrc".
Definition zshrc : string := HOME env ++ "/.zshrc".

(** Lines 431-441 for [~/.bashrc] and 444-454 for [~/.zshrc]: the same
    block twice, with the file and its name changed. *)
Definition install_into (rc rc_name : string) (installed : bool) : M bool :=
  present ← exists_ rc;
  if (present : bool) then
    content ← read_text rc;
    if negb (PyStr.contains integration_marker content) then
      append_file env rc (LF ++ _get_shell_script_content);;
      print ("✅ Shell integration installed in " ++ rc_name);;
      mret true
    else
      print ("✅ Shell integration already installed in " ++ rc_name);;
      mret true
  else mret installed.

(** Lines 425-463. *)
Definition install_shell_integration : M unit :=
  installed ← install_into bashrc "~/.bashrc" false;
  installed ← install_into zshrc "~/.zshrc" installed;
  if (installed : bool) then
    if PyStr.contains "zsh" (shell env)
    then print "Run 'source ~/.zshrc' or start a new terminal session"
    else print "Run 'source ~/.bashrc' or start a new terminal session"
  else print "❌ Neither ~/.bashrc nor ~/.zshrc found".

(** Lines 533-542: the loop over the lines of one file. *)
Fixpoint remove_lines (rc_name : string) (in_vity_section : bool) (lines : list string)
  : M (list string) :=
  match lines with
  | [] => mret []
  | line :: rest =>
      if String.eqb (PyText.strip line) integration_marker then
        print ("🗑️  Removing shell integration from " ++ rc_name);;
        remove_lines rc_name true rest
      else if in_vity_section && String.eqb (PyText.strip line) "}" then
        remove_lines rc_name false rest
      else if negb in_vity_section then
        new_lines ← remove_lines rc_name in_vity_section rest;
        mret (line :: new_lines)
      else remove_lines rc_name in_vity_section rest
  end.

(** Lines 520-545: the body of the loop over the two files. *)
Definition remove_from (rc_name rc_path : string) : M unit :=
  present ← exists_ rc_path;
  if negb present then mret tt
  else
    content ← read_text rc_path;
    if negb (PyStr.contains integration_marker content) then mret tt
    else
      new_lines ← remove_lines rc_name false (PyStr.split LF content);
      write_file env rc_path (PyStr.join LF new_lines);;
      print ("✅ Shell integration removed from " ++ rc_name).

(** Lines 517-545. *)
Definition remove_shell_integration : M unit :=
  remove_from "~/.bashrc" bashrc;;
  remove_from "~/.zshrc" zshrc.

(** Lines 466-475. *)
Definition reinstall_shell_integration : M unit :=
  print "🔄 Reinstalling shell integration...";;
  remove_shell_integration;;
  print "✨ Installing fresh shell integration...";;
  install_shell_integration.

End Maintenance.

(** ** The entry point (cli.py, lines 126-162)

    What [argparse] hands to [main], the [uninstall] subcommand apart (it
    removes directories).  [usage] is the text of [parser.print_help()]. *)

Inductive invocation : Type :=
  | Install
  | Reinstall
  | Config (reset show : bool)
  | NoCommand
  | Run (args : arguments).

Definition main_dispatch (env : environ) (lib : collaborators) (usage : string)
    (inv : invocation) : IO unit :=
  match inv with
  | Install => run (install_shell_integration env)
  | Reinstall => run (reinstall_shell_integration env)
  | Config reset show =>
      if reset then run (reset_config env)
      else if show then run (show_config env)
      else setup_config env;; mret tt
  | NoCommand | Run _ =>
      configured ← run (check_config env);
      if negb configured then setup_config env;; mret tt
      else match inv with
           | Run args => run (main env lib args)
           | _ => run (print usage)
           end
  end.

(** ** Lines of a text *)

Module PyLines.

(** The line boundaries of [str.splitlines], in UTF-8: [\r\n] (before
    [\r]), [\n], [\r], [\v], [\f], U+001C, U+001D, U+001E, U+0085, U+2028
    and U+2029. *)
Definition linebreaks : list string :=
  PyText.of_codes <$>
    [[13; 10]; [10]; [13]; [11]; [12]; [28]; [29]; [30];
     [194; 133]; [226; 128; 168]; [226; 128; 169]].

(** The scan gives the text up to the first boundary and, when there is
    one, the lines after it; a text that ends at a boundary has no further
    line. *)
Definition finish (scanned : string * option (list string)) : list string :=
  match scanned with
  | (line, Some lines) => line :: lines
  | (EmptyString, None) => []
  | (line, None) => [line]
  end.

Fixpoint splitlines_go (skip : nat) (s : string) : string * option (list string) :=
  match s with
  | EmptyString => (EmptyString, None)
  | String c s' =>
      match skip with
      | S k => splitlines_go k s'
      | O =>
          match PyText.leading linebreaks s with
          | Some n => (EmptyString, Some (finish (splitlines_go (n - 1) s')))
          | None => let '(line, lines) := splitlines_go 0 s' in (String c line, lines)
          end
      end
  end.

(** [s.splitlines()] *)
Definition splitlines (s : string) : list string := finish (splitlines_go 0 s).

(** [s.endswith(suffix)] *)
Fixpoint endswith (suffix s : string) : bool :=
  if String.eqb suffix s then true
  else match s with
       | EmptyString => false
       | String _ s' => endswith suffix s'
       end.

End PyLines.

(** A text without line boundary: none starts anywhere in it. *)
Definition plain_line (line : string) : Prop :=
  ∀ a b, line = a ++ b → PyText.leading PyLines.linebreaks b = None.

Definition untagged (line : string) : Prop :=
  PyLines.endswith "# Vity generated" line = false.

(** A check for [plain_line]: no suffix starts with a line boundary. *)
Fixpoint plain_lineb (line : string) : bool :=
  match PyText.leading PyLines.linebreaks line with
  | Some _ => false
  | None => match line with
            | EmptyString => true
            | String _ line' => plain_lineb line'
            end
  end.

(** ** Cleaning the shell history (cli.py, lines 572-600) *)

Section Cleaning.
Context (env : environ).

Definition history_tag : string := "# Vity generated".

(** Lines 581-597: the body of the loop over the two history files.
    [read_text] hands [\r\n] and [\r] over as [\n]; all three are
    boundaries of [splitlines], so the lines are those of the bytes read. *)
Definition clean_history (shell_name history_file : string) (found_any : bool) : M bool :=
  present ← exists_ history_file;
  if negb present then mret found_any
  else
    try_except
      (text ← read_file env history_file;
       let lines := PyLines.splitlines text in
       let original_count := length lines in
       let cleaned_lines :=
         List.filter (λ line, negb (PyLines.endswith history_tag line)) lines in
       let removed_count := original_count - length cleaned_lines in
       if Nat.ltb 0 removed_count then
         write_file env history_file (PyStr.join LF cleaned_lines ++ LF);;
         print ("✅ Cleaned " ++ pretty removed_count ++ " vity entries from " ++ shell_name ++ " history")
       else print ("ℹ️  No vity entries found in " ++ shell_name ++ " history"))
      (λ e, if is_Exception e
            then Some (print ("⚠️  Could not clean " ++ shell_name ++ " history: " ++ exn_str e))
            else None);;
    mret true.

(** Lines 572-600. *)
Definition clean_bash_history : M unit :=
  found_any ← clean_history "bash" (HOME env ++ "/.bash_history") false;
  found_any ← clean_history "zsh" (HOME env ++ "/.zsh_history") found_any;
  if negb found_any then print "ℹ️  No history files found" else mret tt.

End Cleaning.

(** ** What the maintenance commands leave behind

    Closed forms to state their effect with: the lines the loop of
    [remove_shell_integration] keeps, the lines it takes for the start of
    a section, and the contents of an rc file after installing and after
    removing (the marker has no line end in it, so it is in the text read
    when it is in the file). *)

Fixpoint kept_lines (in_vity_section : bool) (lines : list string) : list string :=
  match lines with
  | [] => []
  | line :: rest =>
      if String.eqb (PyText.strip line) integration_marker then kept_lines true rest
      else if in_vity_section && String.eqb (PyText.strip line) "}" then kept_lines false rest
      else if negb in_vity_section then line :: kept_lines in_vity_section rest
      else kept_lines in_vity_section rest
  end.

Definition marker_lines (lines : list string) : list string :=
  filter (λ line, PyText.strip line = integration_marker) lines.

Definition with_integration (content : string) : string :=
  if PyStr.contains integration_marker content then content
  else content ++ LF ++ _get_shell_script_content.

Definition without_integration (content : string) : string :=
  if PyStr.contains integration_marker content
  then PyStr.join LF (kept_lines false (PyStr.split LF (PyText.universal_newlines content)))
  else content.

(** No read, write or append fails. *)
Definition faultless (env : environ) : Prop :=
  (∀ p, read_fault env p = None)
  ∧ (∀ p, write_fault env p = None)
  ∧ (∀ p, append_fault env p = None).

(** The two files [clean_bash_history] looks at. *)
Definition bash_history (env : environ) : string := HOME env ++ "/.bash_history".
Definition zsh_history (env : environ) : string := HOME env ++ "/.zsh_history".

(** The exception a failing write raises. *)
Definition write_failure_exn (f : write_failure) : exn :=
  match f with FailOpen e | FailWrite _ e => e end.

(** Reading and writing fail with an [Exception] only, not with a
    [KeyboardInterrupt] or a [SystemExit]. *)
Definition fails_with_Exception (env : environ) : Prop :=
  (∀ p e, read_fault env p = Some e → is_Exception e = true)
  ∧ (∀ p f, write_fault env p = Some f → is_Exception (write_failure_exn f) = true).

(** What the loop body of [clean_bash_history] writes for a file it read. *)
Definition cleaned_text (text : string) : string :=
  PyStr.join LF
    (List.filter (λ line, negb (PyLines.endswith "# Vity generated" line))
       (PyLines.splitlines text)) ++ LF.

(** A text of whole lines, each ended by a newline. *)
Definition unlines (lines : list string) : string :=
  fold_right (λ line text, line ++ LF ++ text) "" lines.

(** The bash history cannot be read, and the zsh history cannot be written
    once it is opened. *)
Definition locked_histories : environ := {|
  HOME := "/home/u";
  SHELL := Some "/bin/bash";
  now := 1700000000;
  vity_llm_base_url := "https://api.openai.com/v1";
  read_fault := λ p, if String.eqb p "/home/u/.bash_history"
                     then Some (PermissionError
                                  "[Errno 13] Permission denied: '/home/u/.bash_history'")
                     else None;
  write_fault := λ p, if String.eqb p "/home/u/.zsh_history"
                      then Some (FailWrite 0 (OSError "[Errno 28] No space left on device"))
                      else None;
  append_fault := λ _, None;
  unlink_fault := λ _, None
|}.

(** The chat file is not UTF-8 text. *)
Definition undecodable_chat : environ := {|
  HOME := "/home/u";
  SHELL := Some "/bin/bash";
  now := 1700000000;
  vity_llm_base_url := "https://api.openai.com/v1";
  read_fault := λ p, if String.eqb p "chat.json"
                     then Some (UnicodeDecodeError
                                  "'utf-8' codec can't decode byte 0xff in position 0: invalid start byte")
                     else None;
  write_fault := λ _, None;
  append_fault := λ _, None;
  unlink_fault := λ _, None
|}.

(** The terminal log is looked for under a regular file. *)
Definition history_under_file : environ := {|
  HOME := "/home/u";
  SHELL := Some "/bin/bash";
  now := 1700000000;
  vity_llm_base_url := "https://api.openai.com/v1";
  read_fault := λ p, if String.eqb p "notes.txt/session.log"
                     then Some (NotADirectoryError
                                  "[Errno 20] Not a directory: 'notes.txt/session.log'")
                     else None;
  write_fault := λ _, None;
  append_fault := λ _, None;
  unlink_fault := λ _, None
|}.

(** The configuration file cannot be removed. *)
Definition locked_config : environ := {|
  HOME := "/home/u";
  SHELL := Some "/bin/bash";
  now := 1700000000;
  vity_llm_base_url := "https://api.openai.com/v1";
  read_fault := λ _, None;
  write_fault := λ _, None;
  append_fault := λ _, None;
  unlink_fault := λ p, if String.eqb p "/home/u/.config/vity/.env"
                       then Some (PermissionError
                                    "[Errno 13] Permission denied: '/home/u/.config/vity/.env'")
                       else None
|}.

(** ** More concrete settings *)

Module Fixtures.

(** A stripper that replaces a tagged text as a whole; stripping its result
    again changes nothing. *)
Definition redact (text : value) : result value :=
  match text with
  | VStr s => Ok (VStr (if PyStr.startswith Sample.open_tag s then "[redacted]" else s))
  | _ => Raise (TypeError "expected string or bytes-like object")
  end.

(** A [json.loads] that reads back one known serialisation. *)
Definition loads_of (known : list value) (data : string) : result value :=
  if String.eqb data (Sample.dumps (VList known)) then Ok (VList known)
  else Sample.loads data.

Definition lib (strip : value → result value) (known : list value)
    (generate : string → value → string → string → result (list value)) : collaborators := {|
  generate_command := generate;
  generate_chat_response := generate;
  remove_terminal_history_tags := strip;
  json_loads := loads_of known;
  json_dumps := λ history, Sample.dumps (VList history);
  py_repr := Sample.dumps
|}.

(** A collaborator that returns a fixed history, and one that is
    interrupted from the keyboard. *)
Definition returning (history : list value) (terminal_history : string)
    (chat_history : value) (user_input provider : string) : result (list value) :=
  Ok history.

Definition interrupted (terminal_history : string) (chat_history : value)
    (user_input provider : string) : result (list value) :=
  Raise KeyboardInterrupt.

(** An assistant turn without ["role"], one without ["content"], and one
    whose content list is empty. *)
Definition anonymous_message : value :=
  VDict [("content", VList [VDict [("text", VStr "ls")]])].

Definition bare_assistant : value := VDict [("role", VStr "assistant")].

Definition hollow_assistant : value :=
  VDict [("role", VStr "assistant"); ("content", VList [])].

End Fixtures.

(** * Properties *)

(** ** Strings *)

Module PyStrFacts.
Import PyStr.

Lemma append_nil_r (s : string) : s ++ "" = s.
Proof. induction s as [|c s IH]; simpl; [done | by rewrite IH]. Qed.

Lemma append_assoc (a b c : string) : (a ++ b) ++ c = a ++ b ++ c.
Proof. induction a as [|x a IH]; simpl; [done | by rewrite IH]. Qed.

Lemma length_append (a b : string) :
  String.length (a ++ b) = String.length a + String.length b.
Proof. induction a as [|x a IH]; simpl; [done | by rewrite IH]. Qed.

Lemma startswith_app (p s : string) : startswith p (p ++ s) = true.
Proof.
  induction p as [|a p IH]; simpl; [done |].
  by rewrite Ascii.eqb_refl.
Qed.

Lemma startswith_inv (p s : string) :
  startswith p s = true → ∃ t, s = p ++ t.
Proof.
  revert s. induction p as [|a p IH]; intros s H; simpl in *.
  - by exists s.
  - destruct s as [|b s]; [done |].
    destruct (Ascii.eqb_spec a b) as [->|]; [| done].
    destruct (IH _ H) as [t ->]. by exists t.
Qed.

(** Passing over the rest of a matched separator. *)
Lemma split_go_skip (sep u m : string) :
  split_go sep (String.length u) (u ++ m) = split_go sep 0 m.
Proof. induction u as [|c u IH]; simpl; [by destruct m | done]. Qed.

Lemma replace_go_skip (old new u m : string) :
  replace_go old new (String.length u) (u ++ m) = replace_go old new 0 m.
Proof. induction u as [|c u IH]; simpl; [by destruct m | done]. Qed.

Lemma find_cons_Some (sub : string) (c : ascii) (s : string) (i : nat) :
  find sub (String c s) = Some (S i) →
  startswith sub (String c s) = false ∧ find sub s = Some i.
Proof.
  unfold find at 1; fold find.
  destruct (startswith sub (String c s)); [done |].
  destruct (find sub s) as [j|]; simpl; [| done].
  intros [= ->]. done.
Qed.

(** [split] cuts at the first occurrence of the separator and goes on with
    what follows it. *)
Lemma split_first (sep c m : string) :
  sep ≠ "" →
  find sep (c ++ sep ++ m) = Some (String.length c) →
  split sep (c ++ sep ++ m) = c :: split sep m.
Proof.
  intros Hsep. unfold split.
  induction c as [|x c IH]; simpl; intros Hfind.
  - destruct sep as [|a sep']; [done |].
    change (String a sep' ++ m) with (String a (sep' ++ m)).
    cbn [split_go].
    change (String a (sep' ++ m)) with (String a sep' ++ m).
    rewrite startswith_app.
    replace (String.length (String a sep') - 1) with (String.length sep')
      by (simpl; lia).
    rewrite split_go_skip.
    by destruct (split_go (String a sep') 0 m).
  - apply find_cons_Some in Hfind as [Hno Hfind].
    simpl in Hno. rewrite Hno.
    specialize (IH Hfind).
    destruct (split_go sep 0 (c ++ sep ++ m)) as [p ps].
    destruct (split_go sep 0 m) as [q qs].
    by injection IH as -> ->.
Qed.

(** Without an occurrence there is one piece. *)
Lemma split_absent (sep s : string) :
  find sep s = None → split sep s = [s].
Proof.
  unfold split. induction s as [|x s IH]; simpl.
  - by destruct (startswith sep "").
  - destruct (startswith sep (String x s)) eqn:E; [done |].
    destruct (find sep s) as [j|]; simpl; [done |].
    intros _. specialize (IH eq_refl).
    destruct (split_go sep 0 s) as [p ps]. by injection IH as -> ->.
Qed.

(** [sub in s] locates a first occurrence. *)
Lemma contains_first (sub s : string) :
  contains sub s = true →
  ∃ c m, s = c ++ sub ++ m ∧ find sub s = Some (String.length c).
Proof.
  unfold contains. rewrite bool_decide_eq_true. intros [i Hi].
  revert i Hi. induction s as [|x s IH]; intros i Hi.
  - simpl in Hi. destruct (startswith sub "") eqn:E; [| done].
    apply startswith_inv in E as [t Ht]. exists "", t. split; [done |].
    simpl. destruct sub; [done | done].
  - destruct (startswith sub (String x s)) eqn:E.
    + apply startswith_inv in E as [t Ht]. exists "", t. split; [done |].
      simpl String.length. unfold find; fold find.
      rewrite Ht, startswith_app. done.
    + unfold find in Hi; fold find in Hi. rewrite E in Hi.
      destruct (find sub s) as [j|] eqn:Hj; simpl in Hi; [| done].
      destruct (IH j eq_refl) as (c & m & -> & Hc).
      exists (String x c), m. split; [done |].
      simpl String.length. unfold find; fold find.
      change (String x c ++ sub ++ m) with (String x (c ++ sub ++ m)).
      rewrite E, Hj. by injection Hc as ->.
Qed.

(** [replace] keeps the pieces between the occurrences and puts [new]
    between them. *)
Lemma replace_go_join (old new : string) (k : nat) (s : string) :
  replace_go old new k s = join new (let '(p, ps) := split_go old k s in p :: ps).
Proof.
  revert k. induction s as [|x s IH]; intros k; simpl; [done |].
  destruct k as [|k]; [| apply IH].
  destruct (startswith old (String x s)).
  - rewrite IH. by destruct (split_go old (String.length old - 1) s).
  - rewrite IH. destruct (split_go old 0 s) as [p ps]. by destruct ps.
Qed.

Lemma replace_join_split (old new s : string) :
  replace old new s = join new (split old s).
Proof. apply replace_go_join. Qed.

(** Joining the pieces with the separator gives the text back. *)
Lemma join_split_bounded (sep : string) (n : nat) :
  sep ≠ "" → ∀ s, (String.length s <= n)%nat → join sep (split sep s) = s.
Proof.
  intros Hsep. unfold split. induction n as [|n IH]; intros s Hlen.
  - destruct s; [done | simpl in Hlen; lia].
  - destruct s as [|x s]; [done |]. cbn [split_go].
    destruct (startswith sep (String x s)) eqn:E.
    + apply startswith_inv in E as [t Ht].
      destruct sep as [|a sep']; [done |].
      simpl in Ht. injection Ht as -> ->.
      replace (String.length (String a sep') - 1) with (String.length sep')
        by (simpl; lia).
      rewrite split_go_skip.
      assert (String.length t <= n)%nat as Ht.
      { simpl in Hlen. rewrite length_append in Hlen. lia. }
      specialize (IH t Ht).
      destruct (split_go (String a sep') 0 t) as [p ps]. simpl in *. by rewrite IH.
    + assert (String.length s <= n)%nat as Hs by (simpl in Hlen; lia).
      specialize (IH s Hs).
      destruct (split_go sep 0 s) as [p ps]. rewrite <- IH. by destruct ps.
Qed.

Lemma join_split (sep s : string) : sep ≠ "" → join sep (split sep s) = s.
Proof. intros Hsep. by apply (join_split_bounded sep (String.length s)). Qed.

End PyStrFacts.

(** ** The model at work *)

Example split_two : PyStr.split " # " "ls -la # lists all files" = ["ls -la"; "lists all files"].
Proof. reflexivity. Qed.

Example split_three : PyStr.split " # " "echo a # b # c" = ["echo a"; "b"; "c"].
Proof. reflexivity. Qed.

Example split_adjacent : PyStr.split " # " "a #  # b" = ["a"; ""; "b"].
Proof. reflexivity. Qed.

Example split_overlap : PyStr.split " # " "a # # b" = ["a"; "# b"].
Proof. reflexivity. Qed.

Example split_none : PyStr.split " # " "ls" = ["ls"].
Proof. reflexivity. Qed.

Example replace_marker :
  PyStr.replace marker "" "lists all files * vity generated command" = "lists all files".
Proof. reflexivity. Qed.

Example run_do_bash :
  main Sample.bash (Sample.lib "ls -la # lists all files * vity generated command")
       (Sample.args Do None None) Sample.empty
  = (Ok tt, {| stdout := ["🤖 Vity is thinking...";
                          "Command: ls -la # lists all files";
                          "__VITY_CMD__:ls -la # lists all files"];
               fs := {[ "/home/u/.bash_history" := "ls -la # lists all files" ++ LF ]} |}).
Proof. vm_compute. reflexivity. Qed.

(** ** Running the monad *)

Lemma bind_Ok {A B} (m : M A) (k : A → M B) (w w1 : world) (a : A) :
  m w = (Ok a, w1) → (m ≫= k) w = k a w1.
Proof. intros H. unfold mbind, M_bind. by rewrite H. Qed.

Lemma bind_Raise {A B} (m : M A) (k : A → M B) (w w1 : world) (e : exn) :
  m w = (Raise e, w1) → (m ≫= k) w = (Raise e, w1).
Proof. intros H. unfold mbind, M_bind. by rewrite H. Qed.

Lemma bind_lift {A B} (r : result A) (k : A → M B) (w : world) :
  (lift r ≫= k) w = match r with Ok a => k a w | Raise e => (Raise e, w) end.
Proof. by destruct r. Qed.

Lemma bind_print {B} (line : string) (k : unit → M B) (w : world) :
  (print line ≫= k) w = k tt (out w [line]).
Proof. done. Qed.

Lemma try_except_Ok {A} (body : M A) h (w w1 : world) (a : A) :
  body w = (Ok a, w1) → try_except body h w = (Ok a, w1).
Proof. intros H. unfold try_except. by rewrite H. Qed.

Lemma try_except_Raise {A} (body : M A) h (w w1 : world) (e : exn) :
  body w = (Raise e, w1) →
  try_except body h w = match h e with Some k => k w1 | None => (Raise e, w1) end.
Proof. intros H. unfold try_except. by rewrite H. Qed.

(** ** The two scans and the parser *)

Section Scans.
Context (lib : collaborators).

(** The scan for the assistant message returns [None] or a non-empty dict. *)
Lemma last_assistant_loop_truthy (l : list value) (msg : value) :
  last_assistant_loop l = Ok msg → msg = VNone ∨ Py.truthy msg = true.
Proof.
  induction l as [|m l IH]; simpl.
  - intros [= <-]. by left.
  - destruct m as [| | | | | |d]; try done. simpl.
    destruct (Py.assoc_get "role" d) as [r|] eqn:Hr; simpl.
    + destruct (Py.eq_str r "assistant"); [| exact IH].
      intros [= <-]. right. by destruct d.
    + exact IH.
Qed.

(** On a string the parser never raises: where the delimiter occurs,
    [split] has at least two pieces. *)
Lemma cmd_string_delimited (command rest comment : string) (later : list string) :
  PyStr.find delimiter (command ++ delimiter ++ rest) = Some (String.length command) →
  PyStr.split delimiter rest = comment :: later →
  cmd_string (VStr (command ++ delimiter ++ rest))
  = Ok (VStr (command ++ " # " ++ PyStr.replace marker "" comment)).
Proof.
  intros Hfind Hrest. unfold cmd_string. cbn [Py.contains Py.split].
  unfold PyStr.contains. rewrite Hfind.
  rewrite bool_decide_eq_true_2 by eauto.
  rewrite (PyStrFacts.split_first delimiter command rest) by done.
  rewrite Hrest. done.
Qed.

Lemma cmd_string_plain (content : string) :
  PyStr.contains delimiter content = false →
  cmd_string (VStr content) = Ok (VStr content).
Proof. intros H. unfold cmd_string. cbn [Py.contains]. by rewrite H. Qed.

Lemma split_nonempty (sep s : string) : ∃ p ps, PyStr.split sep s = p :: ps.
Proof. unfold PyStr.split. destruct (PyStr.split_go sep 0 s) as [p ps]. eauto. Qed.

End Scans.

(** ** Dicts *)

Lemma assoc_get_set_eq (k : string) (x : value) (d : list (string * value)) :
  Py.assoc_get k (Py.assoc_set k x d) = Some x.
Proof.
  induction d as [|[k' v] d IH]; simpl.
  - by rewrite String.eqb_refl.
  - destruct (String.eqb k k') eqn:E; simpl; by rewrite E.
Qed.

(** A store under one key leaves the other keys alone. *)
Lemma assoc_get_set_ne (k k' : string) (x : value) (d : list (string * value)) :
  k ≠ k' → Py.assoc_get k (Py.assoc_set k' x d) = Py.assoc_get k d.
Proof.
  intros Hne. induction d as [|[k'' v] d IH]; simpl.
  - by apply String.eqb_neq in Hne as ->.
  - destruct (String.eqb k' k'') eqn:E; simpl; [| by rewrite IH].
    apply String.eqb_eq in E as <-. by apply String.eqb_neq in Hne as ->.
Qed.

(** A store under an existing key keeps the keys and their order. *)
Lemma assoc_set_keys (k : string) (x : value) (d : list (string * value)) :
  is_Some (Py.assoc_get k d) → (Py.assoc_set k x d).*1 = d.*1.
Proof.
  induction d as [|[k' v] d IH]; cbn [Py.assoc_get Py.assoc_set].
  - by intros [? [=]].
  - destruct (String.eqb k k') eqn:E; [done |].
    intros H. rewrite !fmap_cons. f_equal. by apply IH.
Qed.

Lemma eq_str_true (v : value) (s : string) : Py.eq_str v s = true → v = VStr s.
Proof.
  destruct v; simpl; try done. by intros ->%String.eqb_eq.
Qed.

(** ** Stripping *)

Section Stripping.
Context (lib : collaborators).

Lemma strip_message_inv (m m' : value) :
  strip_message lib m = Ok m' →
  ∃ d part parts text text',
    m = VDict d ∧
    Py.assoc_get "content" d = Some (VList (VDict part :: parts)) ∧
    Py.assoc_get "text" part = Some text ∧
    remove_terminal_history_tags lib text = Ok text' ∧
    m' = VDict (Py.assoc_set "content"
                  (VList (VDict (Py.assoc_set "text" text' part) :: parts)) d).
Proof.
  unfold strip_message. destruct m as [| | | | | |d]; try done.
  simpl. destruct (Py.assoc_get "content" d) as [content|] eqn:Hc; [| done].
  simpl. destruct content as [| | | |s|[|p parts]|]; try done.
  { by destruct s. }
  simpl. destruct p as [| | | | | |part]; try done.
  simpl. destruct (Py.assoc_get "text" part) as [text|] eqn:Ht; [| done].
  simpl. destruct (remove_terminal_history_tags lib text) as [text'|] eqn:Hr; [| done].
  simpl. intros [= <-]. by exists d, part, parts, text, text'.
Qed.

Lemma strip_loop_inv (l l' : list value) :
  strip_loop lib l = Ok l' →
  (Forall not_user l ∧ l' = l)
  ∨ ∃ pre m m' post,
      l = (pre ++ m :: post)%list ∧ l' = (pre ++ m' :: post)%list ∧
      Forall not_user pre ∧
      Py.getitem m "role" = Ok (VStr "user") ∧
      strip_message lib m = Ok m'.
Proof.
  revert l'. induction l as [|m l IH]; intros l'; simpl.
  - intros [= <-]. left. by split.
  - destruct (Py.getitem m "role") as [role|] eqn:Hrole; [| done]. simpl.
    destruct (Py.eq_str role "user") eqn:Huser.
    + apply eq_str_true in Huser as ->.
      destruct (strip_message lib m) as [m'|] eqn:Hm; [| done]. simpl.
      intros [= <-]. right. by exists [], m, m', l.
    + destruct (strip_loop lib l) as [rest|] eqn:Hrest; [| done]. simpl.
      intros [= <-].
      assert (not_user m) as Hm by (by exists role).
      destruct (IH _ eq_refl) as [[Hall ->] | (pre & x & x' & post & -> & -> & Hpre & Hx)].
      * left. split; [by constructor | done].
      * right. exists (m :: pre), x, x', post. repeat split; try done; try apply Hx.
        by constructor.
Qed.

(** The loop of lines 199-202 changes what [stripped_last_user] allows
    and nothing else. *)
Lemma strip_last_user_spec (history history' : list value) :
  strip_last_user lib history = Ok history' →
  stripped_last_user lib history history'.
Proof.
  unfold strip_last_user.
  destruct (strip_loop lib (reverse history)) as [l'|] eqn:Hloop; [| done].
  simpl. intros [= <-].
  apply strip_loop_inv in Hloop
    as [[Hall ->] | (pre & m & m' & post & Hl & -> & Hpre & Hrole & Hm)].
  - rewrite reverse_involutive. constructor.
    apply Forall_reverse in Hall. by rewrite reverse_involutive in Hall.
  - apply (f_equal reverse) in Hl. rewrite reverse_involutive in Hl. subst history.
    rewrite !reverse_app, !reverse_cons, <- !(assoc_L (++)%list). simpl.
    apply strip_message_inv in Hm as (d & part & parts & text & text' & -> & Hc & Ht & Hr & ->).
    apply (stripped_one lib _ _ d part parts text text'); try done.
    + by apply Forall_reverse.
    + simpl in Hrole. destruct (Py.assoc_get "role" d); by simplify_eq.
Qed.
End Stripping.

(** ** Steps of one invocation *)

Section Steps.
Context (env : environ) (lib : collaborators).

Lemma read_file_fs (p : string) (w w1 : world) (r : result string) :
  read_file env p w = (r, w1) → w1 = w.
Proof.
  unfold read_file. destruct (read_fault env p); [by intros [= _ <-] |].
  destruct (fs w !! p); by intros [= _ <-].
Qed.

(** Loading prints at most a warning and writes no file. *)
Lemma load_terminal_history_fs (args : arguments) (w w1 : world) r :
  load_terminal_history env args w = (r, w1) → fs w1 = fs w.
Proof.
  unfold load_terminal_history. destruct (given (history_file args)) as [p|].
  - unfold try_except. destruct (read_file env p w) as [[data|e] w0] eqn:E;
      apply read_file_fs in E as ->.
    + by intros [= _ <-].
    + destruct (is_FileNotFoundError e); by intros [= _ <-].
  - by intros [= _ <-].
Qed.

Lemma load_chat_history_fs (args : arguments) (w w1 : world) r :
  load_chat_history env lib args w = (r, w1) → fs w1 = fs w.
Proof.
  unfold load_chat_history. destruct (given (chat_file args)) as [p|].
  - unfold try_except, json_load, mbind, M_bind.
    destruct (read_file env p w) as [[data|e] w0] eqn:E; apply read_file_fs in E as ->.
    + unfold lift. destruct (json_loads lib data) as [v|e]; [by intros [= _ <-] |].
      destruct (is_FileNotFoundError e); [by intros [= _ <-] |].
      destruct (is_JSONDecodeError e); by intros [= _ <-].
    + destruct (is_FileNotFoundError e); [by intros [= _ <-] |].
      destruct (is_JSONDecodeError e); by intros [= _ <-].
  - by intros [= _ <-].
Qed.

Lemma main_loaded (args : arguments) (w w1 w2 : world) (th : string) (ch : value) :
  load_terminal_history env args w = (Ok th, w1) →
  load_chat_history env lib args w1 = (Ok ch, w2) →
  main env lib args w
  = handled env lib args th ch (out w2 ["🤖 Vity is thinking..."]).
Proof.
  intros H1 H2. unfold main.
  rewrite (bind_Ok _ _ _ _ _ H1), (bind_Ok _ _ _ _ _ H2). apply bind_print.
Qed.

Lemma append_shell_history_run (cmd : string) (w : world) :
  append_shell_history env cmd w
  = match append_fault env (shell_history_file env) with
    | None => (Ok tt, put w (shell_history_file env)
                        (default "" (fs w !! shell_history_file env)
                         ++ history_entry env cmd))
    | Some e => if is_OSError e then (Ok tt, w) else (Raise e, w)
    end.
Proof.
  unfold append_shell_history, try_except, append_file.
  destruct (append_fault env (shell_history_file env)) as [e|]; [| done].
  by destruct (is_OSError e).
Qed.

Lemma emit_command_run (msg content cmd : value) (w : world) :
  Py.truthy msg = true →
  assistant_text msg = Ok content →
  cmd_string content = Ok cmd →
  emit_command env lib msg w
  = append_shell_history env (py_str lib cmd)
      (out (out w ["Command: " ++ py_str lib cmd]) [sentinel ++ py_str lib cmd]).
Proof.
  intros Ht Htext Hcmd. unfold emit_command. rewrite Ht.
  unfold mbind, M_bind, lift. by rewrite Htext, Hcmd.
Qed.


Lemma do_command_run args th ch ui pr (history history' : list value) (msg : value) w :
  generate_command lib th ch ui pr = Ok history →
  strip_last_user lib history = Ok history' →
  last_assistant history' = Ok msg →
  do_command env lib args th ch ui pr w
  = (emit_command env lib msg ≫= λ _, save env lib args history') w.
Proof.
  intros Hg Hs Hl. unfold do_command.
  by rewrite bind_lift, Hg, bind_lift, Hs, bind_lift, Hl.
Qed.

Lemma chat_command_run args th ch ui pr (history history' : list value) (msg : value) w :
  generate_chat_response lib th ch ui pr = Ok history →
  strip_last_user lib history = Ok history' →
  last_assistant history' = Ok msg →
  chat_command env lib args th ch ui pr w
  = (emit_reply lib msg ≫= λ _, save env lib args history') w.
Proof.
  intros Hg Hs Hl. unfold chat_command.
  by rewrite bind_lift, Hg, bind_lift, Hs, bind_lift, Hl.
Qed.

(** [save] either writes the whole history, or fails. *)
Lemma save_Ok (args : arguments) (history : list value) (w w' : world) :
  save env lib args history w = (Ok tt, w') → w' = saved lib args history w.
Proof.
  unfold save, saved, write_file. destruct (given (chat_file args)) as [p|].
  - destruct (write_fault env p) as [[e|n e]|]; by intros [= <-].
  - by intros [= <-].
Qed.

Lemma save_unfaulted (args : arguments) (history : list value) (w : world) :
  (∀ p, given (chat_file args) = Some p → write_fault env p = None) →
  save env lib args history w = (Ok tt, saved lib args history w).
Proof.
  intros H. unfold save, saved, write_file. destruct (given (chat_file args)) as [p|]; [| done].
  by rewrite (H p eq_refl).
Qed.

(** The generic handler: an [Exception] is reported and turned into
    [sys.exit(1)], anything else passes through. *)
Lemma handled_Raise args th ch (w w1 : world) (e : exn) :
  do_or_chat env lib args th ch w = (Raise e, w1) →
  handled env lib args th ch w
  = if is_Exception e
    then (Raise (SystemExit 1), out w1 ["❌ Error: " ++ exn_str e])
    else (Raise e, w1).
Proof.
  intros H. unfold handled. rewrite (try_except_Raise _ _ _ _ _ H).
  by destruct (is_Exception e).
Qed.

Lemma handled_Ok args th ch (w w1 : world) :
  do_or_chat env lib args th ch w = (Ok tt, w1) →
  handled env lib args th ch w = (Ok tt, w1).
Proof. intros H. unfold handled. by rewrite (try_except_Ok _ _ _ _ _ H). Qed.
End Steps.

(** ** The response parser (claims C1 and C3) *)

(** One delimiter: the command is the text before it, the comment is all
    the text after it with the markers cut out. *)
Lemma cmd_string_one_delimiter (command comment : string) :
  PyStr.find delimiter (command ++ delimiter ++ comment) = Some (String.length command) →
  PyStr.find delimiter comment = None →
  cmd_string (VStr (command ++ delimiter ++ comment))
  = Ok (VStr (command ++ " # " ++ PyStr.join "" (PyStr.split marker comment))).
Proof.
  intros Hfirst Hnone.
  rewrite (cmd_string_delimited command comment comment []); [| done |].
  - by rewrite PyStrFacts.replace_join_split.
  - by apply PyStrFacts.split_absent.
Qed.

(** Two delimiters or more: the comment stops at the second one, and what
    follows it is not emitted. *)
Lemma cmd_string_second_delimiter (command comment later : string) :
  PyStr.find delimiter (command ++ delimiter ++ comment ++ delimiter ++ later)
  = Some (String.length command) →
  PyStr.find delimiter (comment ++ delimiter ++ later) = Some (String.length comment) →
  cmd_string (VStr (command ++ delimiter ++ comment ++ delimiter ++ later))
  = Ok (VStr (command ++ " # " ++ PyStr.replace marker "" comment)).
Proof.
  intros Hfirst Hsecond.
  apply (cmd_string_delimited command _ comment (PyStr.split delimiter later)); [done |].
  by apply PyStrFacts.split_first.
Qed.

(** C1 — with the delimiter " # " occurring more than once, the claim has
    the comment run to the end of the text ("b # c" below).  The code takes
    [content.split(" # ")[1]], the text between the first and the second
    delimiter, so "echo a # b # c" is emitted as "echo a # b". *)
Theorem second_delimiter_ends_comment :
  PyStr.split delimiter "echo a # b # c" = ["echo a"; "b"; "c"]
  ∧ cmd_string (VStr "echo a # b # c") = Ok (VStr "echo a # b").
Proof. split; reflexivity. Qed.

(** C3 — the claim has the emitted string keep the whole comment half; on
    an assistant text with two delimiters the printed line and the sentinel
    line both lose the text from the second delimiter on. *)
Theorem do_mode_output_two_delimiters :
  main Sample.bash (Sample.lib "echo a # b # c * vity generated command")
       (Sample.args Do None None) Sample.empty
  = (Ok tt, {| stdout := ["🤖 Vity is thinking...";
                          "Command: echo a # b";
                          "__VITY_CMD__:echo a # b"];
               fs := {[ "/home/u/.bash_history" := "echo a # b" ++ LF ]} |}).
Proof. vm_compute. reflexivity. Qed.

(** ** Printing (claim C5) *)

Section Printing.
Context (env : environ) (lib : collaborators).




Lemma last_assistant_truthy (history : list value) (msg : value) :
  last_assistant history = Ok msg → msg ≠ VNone → Py.truthy msg = true.
Proof.
  intros H Hne. by destruct (last_assistant_loop_truthy _ _ H).
Qed.

End Printing.

(** ** What is persisted (claims C6, C9 and C10) *)

Section Persisting.
Context (env : environ) (lib : collaborators).

Lemma handled_Ok_inv args th ch (w w' : world) :
  handled env lib args th ch w = (Ok tt, w') →
  do_or_chat env lib args th ch w = (Ok tt, w').
Proof.
  destruct (do_or_chat env lib args th ch w) as [[[]|e] w1] eqn:H.
  - by rewrite (handled_Ok _ _ _ _ _ _ _ H).
  - rewrite (handled_Raise _ _ _ _ _ _ _ _ H). by destruct (is_Exception e).
Qed.

(** A normal return of the body went through every step up to [save]. *)
Lemma do_or_chat_Ok_inv args th ch (w w' : world) :
  do_or_chat env lib args th ch w = (Ok tt, w') →
  ∃ history history' w1,
    match command args with
    | Do => generate_command lib
    | Chat => generate_chat_response lib
    end th ch (user_input args) (provider env) = Ok history ∧
    strip_last_user lib history = Ok history' ∧
    w' = saved lib args history' w1.
Proof.
  unfold do_or_chat, do_command, chat_command.
  destruct (command args); rewrite bind_lift;
    (match goal with |- context [match ?g with Ok _ => _ | Raise _ => _ end] =>
       destruct g as [history|] eqn:Hg; [| done] end);
    rewrite bind_lift;
    destruct (strip_last_user lib history) as [history'|] eqn:Hs; [| done | | done];
    rewrite bind_lift;
    destruct (last_assistant history') as [msg|]; [| done | | done];
    unfold mbind, M_bind.
  - destruct (emit_command env lib msg w) as [[[]|e] w1]; [| done].
    intros Hsave%save_Ok. by exists history, history', w1.
  - destruct (emit_reply lib msg w) as [[[]|e] w1]; [| done].
    intros Hsave%save_Ok. by exists history, history', w1.
Qed.

(** C6 — what reaches the chat file is the history the collaborator
    returned, changed by [remove_terminal_history_tags] in one place only:
    the text of the first content part of the most recent user message.
    Every other message, and every other key and part of that message,
    is the value the collaborator returned. *)
Theorem only_last_user_message_stripped
    (args : arguments) (w w1 w2 w' : world) (th : string) (ch : value) (p : string) :
  load_terminal_history env args w = (Ok th, w1) →
  load_chat_history env lib args w1 = (Ok ch, w2) →
  given (chat_file args) = Some p →
  main env lib args w = (Ok tt, w') →
  ∃ history history',
    match command args with
    | Do => generate_command lib
    | Chat => generate_chat_response lib
    end th ch (user_input args) (provider env) = Ok history ∧
    stripped_last_user lib history history' ∧
    fs w' !! p = Some (json_dumps lib history').
Proof.
  intros H1 H2 Hp. rewrite (main_loaded _ _ _ _ _ _ _ _ H1 H2).
  intros (history & history' & w3 & Hgen & Hstrip & ->)%handled_Ok_inv%do_or_chat_Ok_inv.
  exists history, history'. split; [done |]. split.
  - by apply strip_last_user_spec.
  - unfold saved. rewrite Hp. simpl. apply lookup_insert_eq.
Qed.

Lemma forallb_Forall {A} (f : A → bool) (l : list A) :
  forallb f l = true → Forall (λ x, f x = true) l.
Proof.
  induction l as [|x l IH]; simpl; [by constructor |].
  intros [Hx Hl]%andb_true_iff. constructor; auto.
Qed.

Lemma last_assistant_loop_none (l : list value) :
  Forall (λ m, no_assistant m = true) l → last_assistant_loop l = Ok VNone.
Proof.
  induction 1 as [|m l Hm _ IH]; simpl; [done |].
  destruct m as [| | | | | |d]; try done.
  unfold no_assistant in Hm. simpl in *.
  destruct (Py.assoc_get "role" d) as [r|]; simpl in *; [| done].
  by destruct (Py.eq_str r "assistant").
Qed.

(** Stripping stores under ["content"] and ["text"], never under
    ["role"]. *)
Lemma stripped_no_assistant (history history' : list value) :
  stripped_last_user lib history history' →
  Forall (λ m, no_assistant m = true) history →
  Forall (λ m, no_assistant m = true) history'.
Proof.
  destruct 1 as [|earlier later d part parts text text' _ _ _ _ _]; [done |].
  rewrite !Forall_app, !Forall_cons. intros (He & Hd & Hl). repeat split; try done.
  unfold no_assistant in *. simpl in *. by rewrite assoc_get_set_ne.
Qed.

(** C9 — [do] with a history without assistant message: nothing is
    printed after the progress line, no file but the chat file changes,
    the chat file (if one was named) holds the stripped history, and
    [main] returns normally. *)
Theorem no_assistant_message_only_saves
    (args : arguments) (w w1 w2 : world) (th : string) (ch : value)
    (history history' : list value) :
  command args = Do →
  load_terminal_history env args w = (Ok th, w1) →
  load_chat_history env lib args w1 = (Ok ch, w2) →
  generate_command lib th ch (user_input args) (provider env) = Ok history →
  strip_last_user lib history = Ok history' →
  forallb no_assistant history = true →
  (∀ p, given (chat_file args) = Some p → write_fault env p = None) →
  ∃ w',
    main env lib args w = (Ok tt, w') ∧
    exit_status (Ok tt) = 0%Z ∧
    stdout w' = (stdout w2 ++ ["🤖 Vity is thinking..."])%list ∧
    fs w' = match given (chat_file args) with
            | Some p => <[p := json_dumps lib history']> (fs w)
            | None => fs w
            end.
Proof.
  intros Hdo H1 H2 Hgen Hstrip Hno Hwrite.
  rewrite (main_loaded _ _ _ _ _ _ _ _ H1 H2).
  set (w3 := out w2 ["🤖 Vity is thinking..."]).
  assert (last_assistant history' = Ok VNone) as Hlast.
  { apply last_assistant_loop_none, Forall_reverse.
    apply (stripped_no_assistant history); [by apply strip_last_user_spec |].
    by apply forallb_Forall. }
  assert (do_or_chat env lib args th ch w3 = (Ok tt, saved lib args history' w3)) as Hbody.
  { unfold do_or_chat. rewrite Hdo.
    rewrite (do_command_run _ _ _ _ _ _ _ _ _ _ _ Hgen Hstrip Hlast).
    unfold mbind, M_bind, emit_command. simpl. by apply save_unfaulted. }
  exists (saved lib args history' w3). rewrite (handled_Ok _ _ _ _ _ _ _ Hbody).
  split; [done |]. split; [done |].
  assert (fs w2 = fs w) as Hfs.
  { rewrite (load_chat_history_fs _ _ _ _ _ _ H2).
    apply (load_terminal_history_fs _ _ _ _ _ H1). }
  unfold saved. destruct (given (chat_file args)); simpl; by rewrite ?Hfs.
Qed.
End Persisting.

(** ** When a step fails (claims C2 and C10) *)

Section Failing.
Context (env : environ) (lib : collaborators).

Lemma append_shell_history_fs (cmd : string) (w w' : world) r (p : string) :
  append_shell_history env cmd w = (r, w') →
  p ≠ shell_history_file env →
  fs w' !! p = fs w !! p.
Proof.
  rewrite append_shell_history_run. intros H Hp.
  destruct (append_fault env (shell_history_file env)) as [e|].
  - destruct (is_OSError e); by injection H as _ <-.
  - injection H as _ <-. simpl. by rewrite lookup_insert_ne.
Qed.

Lemma emit_command_fs (msg : value) (w w' : world) r (p : string) :
  emit_command env lib msg w = (r, w') →
  p ≠ shell_history_file env →
  fs w' !! p = fs w !! p.
Proof.
  unfold emit_command. destruct (Py.truthy msg); [| by intros [= _ <-]].
  rewrite bind_lift. destruct (assistant_text msg) as [content|]; [| by intros [= _ <-]].
  rewrite bind_lift. destruct (cmd_string content) as [cmd|]; [| by intros [= _ <-]].
  rewrite !bind_print. intros H Hp.
  by rewrite (append_shell_history_fs _ _ _ _ _ H Hp).
Qed.

Lemma emit_reply_fs (msg : value) (w w' : world) r :
  emit_reply lib msg w = (r, w') → fs w' = fs w.
Proof.
  unfold emit_reply. destruct (Py.truthy msg); [| by intros [= _ <-]].
  rewrite bind_lift. destruct (assistant_text msg) as [content|]; by intros [= _ <-].
Qed.

(** A save that fails before anything was written leaves the file. *)
Lemma save_Raise_fs (args : arguments) (history : list value) (w w' : world)
    (e : exn) (p : string) :
  given (chat_file args) = Some p →
  (∀ n e', write_fault env p ≠ Some (FailWrite n e')) →
  save env lib args history w = (Raise e, w') →
  fs w' = fs w.
Proof.
  intros Hp Hfault. unfold save, write_file. rewrite Hp.
  destruct (write_fault env p) as [[e1|n e1]|] eqn:E; try by intros [= _ <-].
  by destruct (Hfault n e1).
Qed.

Lemma do_or_chat_Raise_fs args th ch (w w' : world) (e : exn) (p : string) :
  given (chat_file args) = Some p →
  p ≠ shell_history_file env →
  (∀ n e', write_fault env p ≠ Some (FailWrite n e')) →
  do_or_chat env lib args th ch w = (Raise e, w') →
  fs w' !! p = fs w !! p.
Proof.
  intros Hp Hne Hfault. unfold do_or_chat, do_command, chat_command.
  destruct (command args); rewrite bind_lift;
    (match goal with |- context [match ?g with Ok _ => _ | Raise _ => _ end] =>
       destruct g as [history|] eqn:Hg; [| by intros [= _ <-]] end);
    rewrite bind_lift;
    (destruct (strip_last_user lib history) as [history'|] eqn:Hs;
       [| by intros [= _ <-]]);
    rewrite bind_lift;
    (destruct (last_assistant history') as [msg|]; [| by intros [= _ <-]]);
    unfold mbind, M_bind.
  - destruct (emit_command env lib msg w) as [[[]|e1] w1] eqn:Hemit;
      apply (emit_command_fs _ _ _ _ p) in Hemit; try done.
    + intros Hsave. by rewrite (save_Raise_fs _ _ _ _ _ _ Hp Hfault Hsave).
    + by intros [= _ <-].
  - destruct (emit_reply lib msg w) as [[[]|e1] w1] eqn:Hemit;
      apply emit_reply_fs in Hemit.
    + intros Hsave. by rewrite (save_Raise_fs _ _ _ _ _ _ Hp Hfault Hsave), Hemit.
    + intros [= _ <-]. by rewrite Hemit.
Qed.

(** C10, as the code has it — the save is the last step, so when the
    invocation fails the chat file has its old contents, unless the
    failing step is the write itself after [open(_, "w")] has truncated
    the file.  (A chat file that is also the shell history file is
    appended to before the save; the two paths are taken to differ.) *)
Theorem failed_invocation_keeps_chat_file
    (args : arguments) (w w' : world) (r : result unit) (p : string) :
  given (chat_file args) = Some p →
  p ≠ shell_history_file env →
  (∀ n e, write_fault env p ≠ Some (FailWrite n e)) →
  main env lib args w = (r, w') →
  r ≠ Ok tt →
  fs w' !! p = fs w !! p.
Proof.
  intros Hp Hne Hfault. unfold main, mbind, M_bind.
  destruct (load_terminal_history env args w) as [[th|e] w1] eqn:H1;
    pose proof (load_terminal_history_fs _ _ _ _ _ H1) as Hfs1;
    [| intros [= _ <-] _; by rewrite Hfs1].
  destruct (load_chat_history env lib args w1) as [[ch|e] w2] eqn:H2;
    pose proof (load_chat_history_fs _ _ _ _ _ _ H2) as Hfs2;
    [| intros [= _ <-] _; by rewrite Hfs2, Hfs1].
  cbn [print]. set (w3 := out w2 _).
  assert (fs w3 = fs w) as Hfs3 by (simpl; by rewrite Hfs2, Hfs1).
  destruct (do_or_chat env lib args th ch w3) as [[[]|e] w4] eqn:Hbody.
  - rewrite (handled_Ok _ _ _ _ _ _ _ Hbody). by intros [= <- _] ?.
  - rewrite (handled_Raise _ _ _ _ _ _ _ _ Hbody).
    pose proof (do_or_chat_Raise_fs _ _ _ _ _ _ _ Hp Hne Hfault Hbody) as Hfs4.
    destruct (is_Exception e); intros [= _ <-] _; simpl; by rewrite Hfs4, Hfs3.
Qed.

(** C2, as the code has it — the [try] statement begins after the two
    context files were loaded: once they are, an [Exception] raised by
    the collaborator or by any later step is reported in one line and the
    process exits with status 1. *)
Theorem exception_after_loading_is_reported
    (args : arguments) (w w1 w2 w3 : world) (th : string) (ch : value) (e : exn) :
  load_terminal_history env args w = (Ok th, w1) →
  load_chat_history env lib args w1 = (Ok ch, w2) →
  do_or_chat env lib args th ch (out w2 ["🤖 Vity is thinking..."]) = (Raise e, w3) →
  is_Exception e = true →
  main env lib args w = (Raise (SystemExit 1), out w3 ["❌ Error: " ++ exn_str e])
  ∧ exit_status (Raise (SystemExit 1)) = 1%Z
  ∧ uncaught (Raise (SystemExit 1)) = None.
Proof.
  intros H1 H2 Hbody He. rewrite (main_loaded _ _ _ _ _ _ _ _ H1 H2).
  rewrite (handled_Raise _ _ _ _ _ _ _ _ Hbody), He. done.
Qed.

(** The steps of the body, one by one: what each raises is what the body
    raises. *)
Lemma collaborator_error args th ch (w : world) (e : exn) :
  match command args with
  | Do => generate_command lib
  | Chat => generate_chat_response lib
  end th ch (user_input args) (provider env) = Raise e →
  do_or_chat env lib args th ch w = (Raise e, w).
Proof.
  unfold do_or_chat, do_command, chat_command.
  destruct (command args); intros H; by rewrite bind_lift, H.
Qed.

Lemma save_error args th ch (w w1 : world) (e : exn) history history' msg :
  match command args with
  | Do => generate_command lib
  | Chat => generate_chat_response lib
  end th ch (user_input args) (provider env) = Ok history →
  strip_last_user lib history = Ok history' →
  last_assistant history' = Ok msg →
  match command args with
  | Do => emit_command env lib msg
  | Chat => emit_reply lib msg
  end w = (Ok tt, w1) →
  ∀ w2, save env lib args history' w1 = (Raise e, w2) →
  do_or_chat env lib args th ch w = (Raise e, w2).
Proof.
  unfold do_or_chat. destruct (command args); intros Hg Hs Hl Hemit w2 Hsave.
  - rewrite (do_command_run _ _ _ _ _ _ _ _ _ _ _ Hg Hs Hl).
    unfold mbind, M_bind. by rewrite Hemit.
  - rewrite (chat_command_run _ _ _ _ _ _ _ _ _ _ _ Hg Hs Hl).
    unfold mbind, M_bind. by rewrite Hemit.
Qed.

(** A read error other than a missing file is raised by [main] itself. *)
Lemma unreadable_history_file_escapes (args : arguments) (w : world) (p : string) (e : exn) :
  given (history_file args) = Some p →
  read_fault env p = Some e →
  is_FileNotFoundError e = false →
  main env lib args w = (Raise e, w).
Proof.
  intros Hp Hfault He. unfold main, mbind, M_bind, load_terminal_history.
  rewrite Hp. unfold try_except, read_file. by rewrite Hfault, He.
Qed.

Lemma unreadable_chat_file_escapes (args : arguments) (w w1 : world) (th : string)
    (p : string) (e : exn) :
  load_terminal_history env args w = (Ok th, w1) →
  given (chat_file args) = Some p →
  read_fault env p = Some e →
  is_FileNotFoundError e = false →
  is_JSONDecodeError e = false →
  main env lib args w = (Raise e, w1).
Proof.
  intros H1 Hp Hfault He1 He2. unfold main. rewrite (bind_Ok _ _ _ _ _ H1).
  unfold mbind, M_bind, load_chat_history. rewrite Hp.
  unfold try_except, json_load, mbind, M_bind, read_file. by rewrite Hfault, He1, He2.
Qed.

(** So is an error of [json.load] other than [JSONDecodeError]. *)
Lemma undecodable_chat_file_escapes (args : arguments) (w w1 : world) (th : string)
    (p data : string) (e : exn) :
  load_terminal_history env args w = (Ok th, w1) →
  given (chat_file args) = Some p →
  read_file env p w1 = (Ok data, w1) →
  json_loads lib data = Raise e →
  is_FileNotFoundError e = false →
  is_JSONDecodeError e = false →
  main env lib args w = (Raise e, w1).
Proof.
  intros H1 Hp Hread Hjson He1 He2. unfold main. rewrite (bind_Ok _ _ _ _ _ H1).
  unfold mbind, M_bind, load_chat_history. rewrite Hp.
  unfold try_except, json_load, mbind, M_bind, lift. by rewrite Hread, Hjson, He1, He2.
Qed.
End Failing.

(** ** The context files (claims C4 and C7) *)

Section Loading.
Context (env : environ) (lib : collaborators).

(** C7 — a terminal-history path that names no file and on which [open]
    raises [FileNotFoundError]: the warning is printed, the terminal
    history is the empty string, and [main] goes on with loading the chat
    history and the rest.  (On any other error of [open] no warning is
    printed and [main] is left uncaught: [unreadable_history_file_escapes].) *)
Theorem missing_history_file_warns_and_proceeds
    (args : arguments) (w : world) (p : string) :
  given (history_file args) = Some p →
  read_fault env p = None →
  fs w !! p = None →
  let warned := out w ["⚠️  Warning: history file '" ++ p ++ "' not found"] in
  load_terminal_history env args w = (Ok "", warned)
  ∧ main env lib args w
    = (chat_history ← load_chat_history env lib args;
       print "🤖 Vity is thinking...";;
       handled env lib args "" chat_history) warned.
Proof.
  intros Hp Hfault Hmissing warned.
  assert (load_terminal_history env args w = (Ok "", warned)) as Hload.
  { unfold load_terminal_history, try_except, read_file.
    by rewrite Hp, Hfault, Hmissing. }
  split; [done |]. unfold main. by rewrite (bind_Ok _ _ _ _ _ Hload).
Qed.

(** C4 — a chat-file path on which [open] raises [FileNotFoundError]:
    the history is the empty list, nothing is printed and nothing is
    raised.  A chat file that is read and on which [json.load] raises
    [JSONDecodeError]: the history is the empty list and the warning is
    printed.  In both cases [main] goes on with the handled region.  (Any
    other error of the load leaves [main] uncaught, with no warning:
    [unreadable_chat_file_escapes], [undecodable_chat_file_escapes].) *)
Theorem chat_history_loads_softly
    (args : arguments) (w w1 : world) (th : string) (p : string) :
  given (chat_file args) = Some p →
  read_fault env p = None →
  load_terminal_history env args w = (Ok th, w1) →
  (fs w !! p = None →
     load_chat_history env lib args w1 = (Ok (VList []), w1)
     ∧ main env lib args w
       = handled env lib args th (VList []) (out w1 ["🤖 Vity is thinking..."]))
  ∧ (∀ data,
       fs w !! p = Some data →
       (∃ msg, json_loads lib data = Raise (JSONDecodeError msg)) →
       let warned := out w1 ["⚠️  Warning: chat file '" ++ p
                             ++ "' contains invalid JSON, starting fresh"] in
       load_chat_history env lib args w1 = (Ok (VList []), warned)
       ∧ main env lib args w
         = handled env lib args th (VList []) (out warned ["🤖 Vity is thinking..."])).
Proof.
  intros Hp Hfault H1.
  pose proof (load_terminal_history_fs _ _ _ _ _ H1) as Hfs.
  split.
  - intros Hmissing.
    assert (load_chat_history env lib args w1 = (Ok (VList []), w1)) as H2.
    { unfold load_chat_history, try_except, json_load, mbind, M_bind, read_file.
      by rewrite Hp, Hfault, Hfs, Hmissing. }
    split; [done |]. by apply (main_loaded env lib args w w1).
  - intros data Hdata [msg Hjson] warned.
    assert (load_chat_history env lib args w1 = (Ok (VList []), warned)) as H2.
    { unfold load_chat_history, try_except, json_load, mbind, M_bind, read_file, lift.
      by rewrite Hp, Hfault, Hfs, Hdata, Hjson. }
    split; [done |]. by apply (main_loaded env lib args w w1).
Qed.
End Loading.

(** ** The shell history file (claim C8) *)

Section ShellHistory.
Context (env : environ) (lib : collaborators).

Lemma out_out (w : world) (l1 l2 : list string) :
  out (out w l1) l2 = out w (l1 ++ l2)%list.
Proof. unfold out. simpl. by rewrite <- (assoc_L (++)%list). Qed.

(** C8 — [do] with a command: the command goes to the end of
    [~/.zsh_history] as ": <time>:0;<command>" when [$SHELL] mentions zsh,
    and to the end of [~/.bash_history] as the bare command otherwise,
    each followed by a newline.  When the append raises an [OSError] the
    file is left out, nothing is printed about it, and [main] still saves
    the chat history and returns normally. *)
Theorem command_appended_to_shell_history
    (args : arguments) (w w1 w2 : world) (th : string) (ch : value)
    (history history' : list value) (msg content cmd : value) :
  command args = Do →
  load_terminal_history env args w = (Ok th, w1) →
  load_chat_history env lib args w1 = (Ok ch, w2) →
  generate_command lib th ch (user_input args) (provider env) = Ok history →
  strip_last_user lib history = Ok history' →
  last_assistant history' = Ok msg →
  msg ≠ VNone →
  assistant_text msg = Ok content →
  cmd_string content = Ok cmd →
  (∀ p, given (chat_file args) = Some p → write_fault env p = None) →
  let line := py_str lib cmd in
  let printed := out w2 ["🤖 Vity is thinking..."; "Command: " ++ line; sentinel ++ line] in
  let zsh_history := HOME env ++ "/.zsh_history" in
  let bash_history := HOME env ++ "/.bash_history" in
  (PyStr.contains "zsh" (default "/bin/bash" (SHELL env)) = true →
   append_fault env zsh_history = None →
   main env lib args w
   = (Ok tt, saved lib args history'
               (put printed zsh_history
                  (default "" (fs w !! zsh_history)
                   ++ ": " ++ pretty (now env) ++ ":0;" ++ line ++ LF))))
  ∧ (PyStr.contains "zsh" (default "/bin/bash" (SHELL env)) = false →
     append_fault env bash_history = None →
     main env lib args w
     = (Ok tt, saved lib args history'
                 (put printed bash_history
                    (default "" (fs w !! bash_history) ++ line ++ LF))))
  ∧ (∀ e,
       append_fault env (shell_history_file env) = Some e →
       is_OSError e = true →
       main env lib args w = (Ok tt, saved lib args history' printed)).
Proof.
  intros Hdo H1 H2 Hgen Hstrip Hlast Hmsg Htext Hcmd Hwrite line printed zsh bash.
  rewrite (main_loaded _ _ _ _ _ _ _ _ H1 H2).
  pose proof (last_assistant_truthy _ _ Hlast Hmsg) as Htruthy.
  assert (fs w2 = fs w) as Hfs.
  { rewrite (load_chat_history_fs _ _ _ _ _ _ H2).
    apply (load_terminal_history_fs _ _ _ _ _ H1). }
  assert (∀ r w3,
            append_shell_history env line printed = (Ok tt, w3) →
            r = (Ok tt, saved lib args history' w3) →
            handled env lib args th ch (out w2 ["🤖 Vity is thinking..."]) = r) as Hrun.
  { intros r w3 Happ ->. apply handled_Ok. unfold do_or_chat. rewrite Hdo.
    rewrite (do_command_run _ _ _ _ _ _ _ _ _ _ _ Hgen Hstrip Hlast).
    unfold mbind, M_bind.
    rewrite (emit_command_run _ _ _ _ _ _ Htruthy Htext Hcmd), !out_out.
    change (out w2 _) with printed. fold line.
    rewrite Happ. by apply save_unfaulted. }
  repeat split.
  - intros Hzsh Hfault. eapply Hrun; [| done].
    rewrite append_shell_history_run. unfold shell_history_file, history_entry, shell.
    rewrite Hzsh. fold zsh. rewrite Hfault. subst printed. simpl. by rewrite Hfs.
  - intros Hzsh Hfault. eapply Hrun; [| done].
    rewrite append_shell_history_run. unfold shell_history_file, history_entry, shell.
    rewrite Hzsh. fold bash. rewrite Hfault. subst printed. simpl. by rewrite Hfs.
  - intros e Hfault He. eapply Hrun; [| done].
    rewrite append_shell_history_run. by rewrite Hfault, He.
Qed.
End ShellHistory.

(** ** The theorems at concrete inputs *)

(** C2 — the terminal log exists and cannot be read: [PermissionError]
    leaves [main] uncaught, and no error line was printed. *)
Lemma unreadable_history_file_uncaught :
  let '(r, w') := main Sample.unreadable_log (Sample.lib Sample.reply)
                    (Sample.args Do (Some "session.log") None) Sample.empty in
  uncaught r = Some (PermissionError "[Errno 13] Permission denied: 'session.log'")
  ∧ stdout w' = [].
Proof. vm_compute. done. Qed.

(** C4 — the chat file exists and is not UTF-8 text: reading it raises
    [UnicodeDecodeError], which neither [except] clause of the load names,
    so [main] is left uncaught; no warning was printed and the invocation
    does not continue. *)
Lemma undecodable_chat_file_uncaught :
  let w := Sample.with_files [("chat.json", String "255" (String "254" ""))] in
  let '(r, w') := main undecodable_chat (Sample.lib Sample.reply)
                    (Sample.args Chat None (Some "chat.json")) w in
  uncaught r
  = Some (UnicodeDecodeError
            "'utf-8' codec can't decode byte 0xff in position 0: invalid start byte")
  ∧ stdout w' = [].
Proof. vm_compute. done. Qed.

(** C7 — the terminal-history path names no file, under a regular file:
    [open] raises [NotADirectoryError], which is no [FileNotFoundError], so
    no warning is printed and [main] is left uncaught. *)
Lemma nonexistent_history_path_uncaught :
  let w := Sample.with_files [("notes.txt", "todo")] in
  let '(r, w') := main history_under_file (Sample.lib Sample.reply)
                    (Sample.args Do (Some "notes.txt/session.log") None) w in
  fs w !! "notes.txt/session.log" = None
  ∧ uncaught r
    = Some (NotADirectoryError "[Errno 20] Not a directory: 'notes.txt/session.log'")
  ∧ stdout w' = [].
Proof. vm_compute. done. Qed.

(** C10 — the disk is full when the chat file is saved: the invocation
    ends with the error exit and the chat file has lost its contents. *)
Lemma failed_save_truncates_chat_file :
  let w := Sample.with_files [("chat.json", "[]")] in
  let '(r, w') := main Sample.disk_full (Sample.lib Sample.reply)
                    (Sample.args Chat None (Some "chat.json")) w in
  r = Raise (SystemExit 1)
  ∧ fs w !! "chat.json" = Some "[]"
  ∧ fs w' !! "chat.json" = Some ""
  ∧ fs w' !! "chat.json" ≠ fs w !! "chat.json".
Proof. vm_compute. done. Qed.

Lemma exception_after_loading_is_reported_witness :
  main Sample.bash Sample.failing_lib (Sample.args Do None None) Sample.empty
  = (Raise (SystemExit 1),
     out (out Sample.empty ["🤖 Vity is thinking..."]) ["❌ Error: Connection error."])
  ∧ exit_status (Raise (SystemExit 1)) = 1%Z
  ∧ uncaught (Raise (SystemExit 1)) = None.
Proof.
  apply (exception_after_loading_is_reported Sample.bash Sample.failing_lib
           (Sample.args Do None None) Sample.empty Sample.empty Sample.empty
           (out Sample.empty ["🤖 Vity is thinking..."]) "" (VList [])
           (OtherException "Connection error."));
    reflexivity.
Defined.

Lemma chat_history_loads_softly_witness :
  let args := Sample.args Chat None (Some "chat.json") in
  let lib := Sample.lib Sample.reply in
  let broken := Sample.with_files [("chat.json", "{oops")] in
  load_chat_history Sample.bash lib args Sample.empty = (Ok (VList []), Sample.empty)
  ∧ load_chat_history Sample.bash lib args broken
    = (Ok (VList []),
       out broken ["⚠️  Warning: chat file 'chat.json' contains invalid JSON, starting fresh"]).
Proof.
  intros args lib broken. split.
  - apply (proj1 (chat_history_loads_softly Sample.bash lib args Sample.empty Sample.empty
                    "" "chat.json" eq_refl eq_refl eq_refl)).
    reflexivity.
  - apply (proj2 (chat_history_loads_softly Sample.bash lib args broken broken
                    "" "chat.json" eq_refl eq_refl eq_refl) "{oops");
      [reflexivity | eexists; reflexivity].
Defined.


Lemma only_last_user_message_stripped_witness :
  let lib := Sample.lib Sample.reply in
  let args := Sample.args Do (Some "session.log") (Some "chat.json") in
  let w := Sample.with_files [("session.log", "$ ls"); ("chat.json", "[]")] in
  ∃ history history',
    generate_command lib "$ ls" (VList []) (user_input args) (provider Sample.bash)
    = Ok history ∧
    stripped_last_user lib history history' ∧
    fs (main Sample.bash lib args w).2 !! "chat.json" = Some (json_dumps lib history').
Proof.
  intros lib args w.
  apply (only_last_user_message_stripped Sample.bash lib args w w w
           (main Sample.bash lib args w).2 "$ ls" (VList []) "chat.json");
    vm_compute; reflexivity.
Defined.

Lemma missing_history_file_warns_and_proceeds_witness :
  let lib := Sample.lib Sample.reply in
  let args := Sample.args Do (Some "session.log") None in
  let warned := out Sample.empty ["⚠️  Warning: history file 'session.log' not found"] in
  load_terminal_history Sample.bash args Sample.empty = (Ok "", warned)
  ∧ main Sample.bash lib args Sample.empty
    = (chat_history ← load_chat_history Sample.bash lib args;
       print "🤖 Vity is thinking...";;
       handled Sample.bash lib args "" chat_history) warned.
Proof.
  intros lib args warned.
  apply (missing_history_file_warns_and_proceeds Sample.bash lib args Sample.empty
           "session.log"); reflexivity.
Defined.

Lemma command_appended_to_shell_history_witness :
  let lib := Sample.lib Sample.reply in
  let args := Sample.args Do None None in
  let line := "ls -la # lists all files" in
  let printed := out Sample.empty ["🤖 Vity is thinking..."; "Command: " ++ line;
                                   sentinel ++ line] in
  main Sample.zsh lib args Sample.empty
  = (Ok tt, put printed "/home/u/.zsh_history" (": 1700000000:0;" ++ line ++ LF))
  ∧ main Sample.bash lib args Sample.empty
    = (Ok tt, put printed "/home/u/.bash_history" (line ++ LF))
  ∧ main Sample.history_readonly lib args Sample.empty = (Ok tt, printed).
Proof.
  intros lib args line printed.
  pose (history := Sample.returned "" Sample.reply).
  pose (history' := Sample.stripped Sample.reply).
  pose (msg := Sample.assistant_message Sample.reply).
  split; [| split].
  - apply (proj1 (command_appended_to_shell_history Sample.zsh lib args
                    Sample.empty Sample.empty Sample.empty "" (VList [])
                    history history' msg (VStr Sample.reply) (VStr line)
                    eq_refl eq_refl eq_refl eq_refl eq_refl eq_refl
                    ltac:(discriminate) eq_refl eq_refl
                    ltac:(intros p; discriminate)));
      reflexivity.
  - apply (proj1 (proj2 (command_appended_to_shell_history Sample.bash lib args
                    Sample.empty Sample.empty Sample.empty "" (VList [])
                    history history' msg (VStr Sample.reply) (VStr line)
                    eq_refl eq_refl eq_refl eq_refl eq_refl eq_refl
                    ltac:(discriminate) eq_refl eq_refl
                    ltac:(intros p; discriminate))));
      reflexivity.
  - apply (proj2 (proj2 (command_appended_to_shell_history Sample.history_readonly lib args
                    Sample.empty Sample.empty Sample.empty "" (VList [])
                    history history' msg (VStr Sample.reply) (VStr line)
                    eq_refl eq_refl eq_refl eq_refl eq_refl eq_refl
                    ltac:(discriminate) eq_refl eq_refl
                    ltac:(intros p; discriminate)))
               (PermissionError "[Errno 13] Permission denied: '/home/u/.bash_history'"));
      reflexivity.
Defined.

Lemma no_assistant_message_only_saves_witness :
  let args := Sample.args Do None (Some "chat.json") in
  let w := Sample.with_files [("chat.json", "[]")] in
  ∃ w',
    main Sample.bash Sample.silent_lib args w = (Ok tt, w') ∧
    exit_status (Ok tt) = 0%Z ∧
    stdout w' = ([] ++ ["🤖 Vity is thinking..."])%list ∧
    fs w' = <["chat.json" :=
                json_dumps Sample.silent_lib [Sample.user_message "list files"]]> (fs w).
Proof.
  intros args w.
  apply (no_assistant_message_only_saves Sample.bash Sample.silent_lib args w w w
           "" (VList [])
           [Sample.user_message (Sample.open_tag ++ Sample.close_tag ++ "list files")]
           [Sample.user_message "list files"]);
    reflexivity.
Defined.

Lemma failed_invocation_keeps_chat_file_witness :
  let args := Sample.args Do None (Some "chat.json") in
  let w := Sample.with_files [("chat.json", "[]")] in
  fs (main Sample.bash Sample.failing_lib args w).2 !! "chat.json" = fs w !! "chat.json".
Proof.
  intros args w.
  apply (failed_invocation_keeps_chat_file Sample.bash Sample.failing_lib args w
           (main Sample.bash Sample.failing_lib args w).2
           (main Sample.bash Sample.failing_lib args w).1 "chat.json").
  - reflexivity.
  - vm_compute. discriminate.
  - intros n e. vm_compute. discriminate.
  - vm_compute. reflexivity.
  - vm_compute. discriminate.
Defined.

(** * Further properties of the orchestrator *)

(** ** Which files an invocation writes *)

Section Footprint.
Context (env : environ) (lib : collaborators).

Lemma save_fs_other (args : arguments) (history : list value) (w w' : world) r (p : string) :
  save env lib args history w = (r, w') →
  given (chat_file args) ≠ Some p →
  fs w' !! p = fs w !! p.
Proof.
  unfold save, write_file. destruct (given (chat_file args)) as [q|]; [| by intros [= _ <-]].
  intros H Hq. assert (q ≠ p) as Hne by congruence.
  destruct (write_fault env q) as [[e|n e]|]; injection H as _ <-; simpl;
    by rewrite ?lookup_insert_ne.
Qed.

Lemma do_command_fs_other args th ch ui pr (w w' : world) r (p : string) :
  do_command env lib args th ch ui pr w = (r, w') →
  p ≠ shell_history_file env →
  given (chat_file args) ≠ Some p →
  fs w' !! p = fs w !! p.
Proof.
  unfold do_command. rewrite bind_lift.
  destruct (generate_command lib th ch ui pr) as [history|]; [| by intros [= _ <-]].
  rewrite bind_lift.
  destruct (strip_last_user lib history) as [history'|]; [| by intros [= _ <-]].
  rewrite bind_lift.
  destruct (last_assistant history') as [msg|]; [| by intros [= _ <-]].
  unfold mbind, M_bind.
  destruct (emit_command env lib msg w) as [[[]|e] w1] eqn:Hemit; intros H Hp Hq;
    apply (emit_command_fs _ _ _ _ _ _ p) in Hemit; try done.
  - by rewrite (save_fs_other _ _ _ _ _ _ H Hq).
  - by injection H as _ <-.
Qed.

Lemma chat_command_fs_other args th ch ui pr (w w' : world) r (p : string) :
  chat_command env lib args th ch ui pr w = (r, w') →
  given (chat_file args) ≠ Some p →
  fs w' !! p = fs w !! p.
Proof.
  unfold chat_command. rewrite bind_lift.
  destruct (generate_chat_response lib th ch ui pr) as [history|]; [| by intros [= _ <-]].
  rewrite bind_lift.
  destruct (strip_last_user lib history) as [history'|]; [| by intros [= _ <-]].
  rewrite bind_lift.
  destruct (last_assistant history') as [msg|]; [| by intros [= _ <-]].
  unfold mbind, M_bind.
  destruct (emit_reply lib msg w) as [[[]|e] w1] eqn:Hemit; intros H Hq;
    apply emit_reply_fs in Hemit.
  - by rewrite (save_fs_other _ _ _ _ _ _ H Hq), Hemit.
  - injection H as _ <-. by rewrite Hemit.
Qed.

(** The handler prints and raises; it writes no file. *)
Lemma handled_fs args th ch (w w' : world) r :
  handled env lib args th ch w = (r, w') →
  ∃ r0 w1, do_or_chat env lib args th ch w = (r0, w1) ∧ fs w' = fs w1.
Proof.
  destruct (do_or_chat env lib args th ch w) as [[[]|e] w1] eqn:Hbody.
  - rewrite (handled_Ok _ _ _ _ _ _ _ Hbody). intros [= _ <-]. eauto.
  - rewrite (handled_Raise _ _ _ _ _ _ _ _ Hbody).
    destruct (is_Exception e); intros [= _ <-]; eauto.
Qed.

(** Everything [main] does after the two loads starts from the files as
    they were. *)
Lemma main_inv (args : arguments) (w w' : world) r :
  main env lib args w = (r, w') →
  fs w' = fs w
  ∨ ∃ th ch w3, fs w3 = fs w ∧ handled env lib args th ch w3 = (r, w').
Proof.
  unfold main, mbind, M_bind.
  destruct (load_terminal_history env args w) as [[th|e] w1] eqn:H1;
    pose proof (load_terminal_history_fs _ _ _ _ _ H1) as Hfs1;
    [| intros [= _ <-]; by left].
  destruct (load_chat_history env lib args w1) as [[ch|e] w2] eqn:H2;
    pose proof (load_chat_history_fs _ _ _ _ _ _ H2) as Hfs2;
    [| intros [= _ <-]; left; by rewrite Hfs2].
  cbn [print]. intros H. right. exists th, ch, (out w2 ["🤖 Vity is thinking..."]).
  split; [simpl; by rewrite Hfs2 | done].
Qed.

(** X1 — whatever happens in an invocation, the only files whose contents
    can differ afterwards are the chat file named by [-c] and the shell
    history file; the terminal log and every other file are as before. *)
Theorem main_writes_only_chat_and_shell_history
    (args : arguments) (w w' : world) (r : result unit) (p : string) :
  main env lib args w = (r, w') →
  p ≠ shell_history_file env →
  given (chat_file args) ≠ Some p →
  fs w' !! p = fs w !! p.
Proof.
  intros Hmain Hp Hq.
  destruct (main_inv _ _ _ _ Hmain) as [-> | (th & ch & w3 & Hfs & Hh)]; [done |].
  destruct (handled_fs _ _ _ _ _ _ Hh) as (r0 & w1 & Hbody & ->).
  rewrite <- Hfs. unfold do_or_chat in Hbody. destruct (command args).
  - by apply (do_command_fs_other _ _ _ _ _ _ _ _ _ Hbody).
  - by apply (chat_command_fs_other _ _ _ _ _ _ _ _ _ Hbody).
Qed.

(** X2 — [chat] never writes the shell history file: apart from the chat
    file it leaves every file alone, and without [-c] it writes nothing. *)
Theorem chat_writes_only_chat_file
    (args : arguments) (w w' : world) (r : result unit) :
  command args = Chat →
  main env lib args w = (r, w') →
  (∀ p, given (chat_file args) ≠ Some p → fs w' !! p = fs w !! p)
  ∧ (given (chat_file args) = None → fs w' = fs w).
Proof.
  intros Hchat Hmain.
  assert (∀ p, given (chat_file args) ≠ Some p → fs w' !! p = fs w !! p) as Hother.
  { intros p Hq.
    destruct (main_inv _ _ _ _ Hmain) as [-> | (th & ch & w3 & Hfs & Hh)]; [done |].
    destruct (handled_fs _ _ _ _ _ _ Hh) as (r0 & w1 & Hbody & ->).
    rewrite <- Hfs. unfold do_or_chat in Hbody. rewrite Hchat in Hbody.
    by apply (chat_command_fs_other _ _ _ _ _ _ _ _ _ Hbody). }
  split; [done |]. intros Hnone. apply map_eq. intros p. apply Hother. by rewrite Hnone.
Qed.
End Footprint.

Lemma main_writes_only_chat_and_shell_history_witness :
  let args := Sample.args Do (Some "session.log") (Some "chat.json") in
  let w := Sample.with_files [("session.log", "$ ls"); ("chat.json", "[]")] in
  fs (main Sample.bash (Sample.lib Sample.reply) args w).2 !! "session.log"
  = fs w !! "session.log".
Proof.
  intros args w.
  apply (main_writes_only_chat_and_shell_history Sample.bash (Sample.lib Sample.reply)
           args w (main Sample.bash (Sample.lib Sample.reply) args w).2
           (main Sample.bash (Sample.lib Sample.reply) args w).1 "session.log").
  - vm_compute. reflexivity.
  - vm_compute. discriminate.
  - vm_compute. discriminate.
Defined.

Lemma chat_writes_only_chat_file_witness :
  let args := Sample.args Chat (Some "session.log") None in
  let w := Sample.with_files [("session.log", "$ ls"); ("/home/u/.bash_history", "ls")] in
  fs (main Sample.bash (Sample.lib Sample.reply) args w).2 = fs w.
Proof.
  intros args w.
  apply (proj2 (chat_writes_only_chat_file Sample.bash (Sample.lib Sample.reply)
                  args w (main Sample.bash (Sample.lib Sample.reply) args w).2
                  (main Sample.bash (Sample.lib Sample.reply) args w).1
                  eq_refl ltac:(vm_compute; reflexivity))).
  reflexivity.
Defined.

(** ** Stripping twice *)

Lemma assoc_set_set (k : string) (x y : value) (d : list (string * value)) :
  Py.assoc_set k x (Py.assoc_set k y d) = Py.assoc_set k x d.
Proof.
  induction d as [|[k' v] d IH]; simpl.
  - by rewrite String.eqb_refl.
  - destruct (String.eqb k k') eqn:E; simpl; rewrite E; [done | by rewrite IH].
Qed.

Section StrippingTwice.
Context (lib : collaborators).

Lemma strip_loop_app (pre rest : list value) :
  Forall not_user pre →
  strip_loop lib (pre ++ rest) = (pre ++.) <$> strip_loop lib rest.
Proof.
  induction 1 as [|m pre (v & Hv & Hne) _ IH]; simpl.
  - by destruct (strip_loop lib rest).
  - rewrite Hv. simpl. rewrite Hne, IH. by destruct (strip_loop lib rest).
Qed.

Lemma strip_message_again (m m' : value) :
  (∀ t t', remove_terminal_history_tags lib t = Ok t' →
           remove_terminal_history_tags lib t' = Ok t') →
  strip_message lib m = Ok m' →
  strip_message lib m' = Ok m'.
Proof.
  intros Hidem (d & part & parts & text & text' & -> & Hc & Ht & Hr & ->)%strip_message_inv.
  unfold strip_message. cbn [Py.getitem]. rewrite assoc_get_set_eq.
  cbn [mbind result_bind Py.getitem0 Py.getitem]. rewrite assoc_get_set_eq.
  cbn [mbind result_bind]. rewrite (Hidem _ _ Hr).
  cbn [mbind result_bind Py.getitem0 Py.getitem Py.setitem mret result_ret store_part].
  rewrite assoc_get_set_eq. by rewrite !assoc_set_set.
Qed.

Lemma strip_loop_again (l l' : list value) :
  (∀ t t', remove_terminal_history_tags lib t = Ok t' →
           remove_terminal_history_tags lib t' = Ok t') →
  strip_loop lib l = Ok l' →
  strip_loop lib l' = Ok l'.
Proof.
  intros Hidem Hloop.
  destruct (strip_loop_inv _ _ _ Hloop)
    as [[_ ->] | (pre & m & m' & post & -> & -> & Hpre & Hrole & Hm)]; [done |].
  rewrite (strip_loop_app _ _ Hpre). cbn [strip_loop].
  assert (Py.getitem m' "role" = Ok (VStr "user")) as ->.
  { pose proof Hm as (d & part & parts & text & text' & -> & _ & _ & _ & ->)%strip_message_inv.
    simpl in *. by rewrite assoc_get_set_ne. }
  cbn [mbind result_bind Py.eq_str]. rewrite String.eqb_refl.
  by rewrite (strip_message_again _ _ Hidem Hm).
Qed.

(** X3 — when the tag stripper leaves its own results alone, so does the
    loop over the history: the stripped history, stripped again, is the
    same history (the same user message is found, and its text stays). *)
Theorem strip_last_user_idempotent (history history' : list value) :
  (∀ t t', remove_terminal_history_tags lib t = Ok t' →
           remove_terminal_history_tags lib t' = Ok t') →
  strip_last_user lib history = Ok history' →
  strip_last_user lib history' = Ok history'.
Proof.
  intros Hidem. unfold strip_last_user.
  destruct (strip_loop lib (reverse history)) as [l'|] eqn:Hloop; [| done].
  simpl. intros [= <-]. rewrite reverse_involutive.
  rewrite (strip_loop_again _ _ Hidem Hloop). simpl. done.
Qed.
End StrippingTwice.

Lemma redact_idempotent (t t' : value) :
  Fixtures.redact t = Ok t' → Fixtures.redact t' = Ok t'.
Proof.
  destruct t as [| | | |s| |]; try done.
  unfold Fixtures.redact at 1.
  destruct (PyStr.startswith Sample.open_tag s) eqn:E; intros [= <-];
    unfold Fixtures.redact; [reflexivity | by rewrite E].
Qed.

Lemma strip_last_user_idempotent_witness :
  let lib := Fixtures.lib Fixtures.redact [] (Sample.generate Sample.reply) in
  strip_last_user lib
    [Sample.user_message "[redacted]"; Sample.assistant_message Sample.reply]
  = Ok [Sample.user_message "[redacted]"; Sample.assistant_message Sample.reply].
Proof.
  intros lib.
  apply (strip_last_user_idempotent lib (Sample.returned "$ ls" Sample.reply)).
  - exact redact_idempotent.
  - reflexivity.
Defined.

(** ** Messages that lack a key *)

Section MissingKeys.
Context (env : environ) (lib : collaborators).

Lemma body_raises_reported (args : arguments) (w w1 w2 : world) (th : string) (ch : value)
    (e : exn) :
  load_terminal_history env args w = (Ok th, w1) →
  load_chat_history env lib args w1 = (Ok ch, w2) →
  do_or_chat env lib args th ch (out w2 ["🤖 Vity is thinking..."])
  = (Raise e, out w2 ["🤖 Vity is thinking..."]) →
  is_Exception e = true →
  main env lib args w
  = (Raise (SystemExit 1), out w2 ["🤖 Vity is thinking..."; "❌ Error: " ++ exn_str e]).
Proof.
  intros H1 H2 Hbody He. rewrite (main_loaded _ _ _ _ _ _ _ _ H1 H2).
  by rewrite (handled_Raise _ _ _ _ _ _ _ _ Hbody), He, out_out.
Qed.

Lemma strip_raises (args : arguments) (th : string) (ch : value) (w : world)
    (history : list value) (e : exn) :
  match command args with
  | Do => generate_command lib
  | Chat => generate_chat_response lib
  end th ch (user_input args) (provider env) = Ok history →
  strip_last_user lib history = Raise e →
  do_or_chat env lib args th ch w = (Raise e, w).
Proof.
  unfold do_or_chat, do_command, chat_command.
  destruct (command args); intros Hg Hs; by rewrite bind_lift, Hg, bind_lift, Hs.
Qed.

(** X4 — the scan for the user message reads [message["role"]] (the scan
    for the assistant message uses [.get]): when the most recent message of
    the returned history is a dict without a ["role"] key, the invocation
    ends with "❌ Error: 'role'" and status 1; no command or reply is
    printed and no file is written, the chat file included. *)
Theorem last_message_without_role_aborts
    (args : arguments) (w w1 w2 : world) (th : string) (ch : value)
    (earlier : list value) (d : list (string * value)) :
  load_terminal_history env args w = (Ok th, w1) →
  load_chat_history env lib args w1 = (Ok ch, w2) →
  match command args with
  | Do => generate_command lib
  | Chat => generate_chat_response lib
  end th ch (user_input args) (provider env) = Ok (earlier ++ [VDict d])%list →
  Py.assoc_get "role" d = None →
  main env lib args w
  = (Raise (SystemExit 1), out w2 ["🤖 Vity is thinking..."; "❌ Error: 'role'"]).
Proof.
  intros H1 H2 Hgen Hrole.
  apply (body_raises_reported args w w1 w2 th ch (KeyError "'role'") H1 H2); [| done].
  apply (strip_raises _ _ _ _ _ _ Hgen).
  unfold strip_last_user. rewrite reverse_snoc. simpl. by rewrite Hrole.
Qed.

Lemma emit_raises_do (args : arguments) (th : string) (ch : value) (w : world)
    (history history' : list value) (msg : value) (e : exn) :
  command args = Do →
  generate_command lib th ch (user_input args) (provider env) = Ok history →
  strip_last_user lib history = Ok history' →
  last_assistant history' = Ok msg →
  emit_command env lib msg w = (Raise e, w) →
  do_or_chat env lib args th ch w = (Raise e, w).
Proof.
  intros Hdo Hg Hs Hl He. unfold do_or_chat. rewrite Hdo.
  rewrite (do_command_run _ _ _ _ _ _ _ _ _ _ _ Hg Hs Hl).
  unfold mbind, M_bind. by rewrite He.
Qed.

Lemma emit_raises_chat (args : arguments) (th : string) (ch : value) (w : world)
    (history history' : list value) (msg : value) (e : exn) :
  command args = Chat →
  generate_chat_response lib th ch (user_input args) (provider env) = Ok history →
  strip_last_user lib history = Ok history' →
  last_assistant history' = Ok msg →
  emit_reply lib msg w = (Raise e, w) →
  do_or_chat env lib args th ch w = (Raise e, w).
Proof.
  intros Hchat Hg Hs Hl He. unfold do_or_chat. rewrite Hchat.
  rewrite (chat_command_run _ _ _ _ _ _ _ _ _ _ _ Hg Hs Hl).
  unfold mbind, M_bind. by rewrite He.
Qed.

(** X5 — an assistant message whose ["content"] is the empty list: the
    text is read as [content[0]], so the invocation ends with
    "❌ Error: list index out of range" and status 1, in [do] and in [chat];
    nothing else is printed and the updated history is not saved. *)
Theorem assistant_with_empty_content_aborts
    (args : arguments) (w w1 w2 : world) (th : string) (ch : value)
    (history history' : list value) (d : list (string * value)) :
  load_terminal_history env args w = (Ok th, w1) →
  load_chat_history env lib args w1 = (Ok ch, w2) →
  match command args with
  | Do => generate_command lib
  | Chat => generate_chat_response lib
  end th ch (user_input args) (provider env) = Ok history →
  strip_last_user lib history = Ok history' →
  last_assistant history' = Ok (VDict d) →
  Py.assoc_get "content" d = Some (VList []) →
  main env lib args w
  = (Raise (SystemExit 1),
     out w2 ["🤖 Vity is thinking..."; "❌ Error: list index out of range"]).
Proof.
  intros H1 H2 Hgen Hstrip Hlast Hcontent.
  assert (Py.truthy (VDict d) = true) as Htruthy by (by destruct d).
  apply (body_raises_reported args w w1 w2 th ch
           (IndexError "list index out of range") H1 H2); [| done].
  destruct (command args) eqn:Hc.
  - apply (emit_raises_do _ _ _ _ _ _ _ _ Hc Hgen Hstrip Hlast).
    unfold emit_command. rewrite Htruthy, bind_lift.
    unfold assistant_text. simpl. by rewrite Hcontent.
  - apply (emit_raises_chat _ _ _ _ _ _ _ _ Hc Hgen Hstrip Hlast).
    unfold emit_reply. rewrite Htruthy, bind_lift.
    unfold assistant_text. simpl. by rewrite Hcontent.
Qed.

(** X6 — an assistant message without a ["content"] key, or whose first
    content part has no ["text"] key, counts as the empty text: [do] prints
    "Command: " and the bare sentinel, appends an entry for the empty
    command to the shell history file, saves and returns normally. *)
Theorem assistant_without_text_gives_empty_command
    (args : arguments) (w w1 w2 : world) (th : string) (ch : value)
    (history history' : list value) (d : list (string * value)) :
  command args = Do →
  load_terminal_history env args w = (Ok th, w1) →
  load_chat_history env lib args w1 = (Ok ch, w2) →
  generate_command lib th ch (user_input args) (provider env) = Ok history →
  strip_last_user lib history = Ok history' →
  last_assistant history' = Ok (VDict d) →
  Py.assoc_get "content" d = None
  ∨ (∃ part parts, Py.assoc_get "content" d = Some (VList (VDict part :: parts))
                   ∧ Py.assoc_get "text" part = None) →
  append_fault env (shell_history_file env) = None →
  (∀ p, given (chat_file args) = Some p → write_fault env p = None) →
  main env lib args w
  = (Ok tt,
     saved lib args history'
       (put (out w2 ["🤖 Vity is thinking..."; "Command: "; "__VITY_CMD__:"])
          (shell_history_file env)
          (default "" (fs w !! shell_history_file env) ++ history_entry env ""))).
Proof.
  intros Hdo H1 H2 Hgen Hstrip Hlast Hshape Happend Hwrite.
  assert (Py.truthy (VDict d) = true) as Htruthy.
  { apply (last_assistant_truthy _ _ Hlast). done. }
  assert (assistant_text (VDict d) = Ok (VStr "")) as Htext.
  { unfold assistant_text. simpl.
    destruct Hshape as [-> | (part & parts & -> & Ht)]; simpl; [done | by rewrite Ht]. }
  assert (fs w2 = fs w) as Hfs.
  { rewrite (load_chat_history_fs _ _ _ _ _ _ H2).
    apply (load_terminal_history_fs _ _ _ _ _ H1). }
  rewrite (main_loaded _ _ _ _ _ _ _ _ H1 H2). apply handled_Ok.
  unfold do_or_chat. rewrite Hdo.
  rewrite (do_command_run _ _ _ _ _ _ _ _ _ _ _ Hgen Hstrip Hlast).
  unfold mbind, M_bind.
  rewrite (emit_command_run env lib _ (VStr "") (VStr "") _ Htruthy Htext eq_refl).
  rewrite !out_out, append_shell_history_run, Happend. cbn [py_str].
  rewrite (save_unfaulted _ _ _ _ _ Hwrite). simpl. by rewrite Hfs.
Qed.

(** X7 — the generic handler is [except Exception]: when the collaborator
    raises something that is not an [Exception] ([KeyboardInterrupt]), no
    error line is printed and the exception leaves [main]. *)
Theorem base_exception_is_not_reported
    (args : arguments) (w w1 w2 : world) (th : string) (ch : value) (e : exn) :
  load_terminal_history env args w = (Ok th, w1) →
  load_chat_history env lib args w1 = (Ok ch, w2) →
  match command args with
  | Do => generate_command lib
  | Chat => generate_chat_response lib
  end th ch (user_input args) (provider env) = Raise e →
  is_Exception e = false →
  main env lib args w = (Raise e, out w2 ["🤖 Vity is thinking..."]).
Proof.
  intros H1 H2 Hgen He. rewrite (main_loaded _ _ _ _ _ _ _ _ H1 H2).
  rewrite (handled_Raise _ _ _ _ _ _ _ _ (collaborator_error _ _ _ _ _ _ _ Hgen)).
  by rewrite He.
Qed.


(** X9 — what one invocation saves is what the next one starts from: as
    far as [json.loads] reads back what [json.dumps] wrote, loading the
    chat file after a successful invocation yields the stripped history. *)
Theorem saved_history_is_loaded_next
    (args : arguments) (w w1 w2 w' : world) (th : string) (ch : value)
    (history history' : list value) (p : string) :
  load_terminal_history env args w = (Ok th, w1) →
  load_chat_history env lib args w1 = (Ok ch, w2) →
  given (chat_file args) = Some p →
  read_fault env p = None →
  match command args with
  | Do => generate_command lib
  | Chat => generate_chat_response lib
  end th ch (user_input args) (provider env) = Ok history →
  strip_last_user lib history = Ok history' →
  json_loads lib (json_dumps lib history') = Ok (VList history') →
  main env lib args w = (Ok tt, w') →
  load_chat_history env lib args w' = (Ok (VList history'), w').
Proof.
  intros H1 H2 Hp Hfault Hgen Hstrip Hjson.
  rewrite (main_loaded _ _ _ _ _ _ _ _ H1 H2).
  intros (h & h' & w3 & Hgen' & Hstrip' & ->)%handled_Ok_inv%do_or_chat_Ok_inv.
  assert (h' = history') as -> by congruence.
  unfold load_chat_history, try_except, json_load, mbind, M_bind, read_file, lift.
  rewrite Hp, Hfault. unfold saved. rewrite Hp. simpl.
  by rewrite lookup_insert_eq, Hjson.
Qed.
End MissingKeys.

Lemma last_message_without_role_aborts_witness :
  let history := [Sample.user_message "hi"; Fixtures.anonymous_message] in
  let lib := Fixtures.lib Sample.strip_tags [] (Fixtures.returning history) in
  let w := Sample.with_files [("chat.json", "[]")] in
  main Sample.bash lib (Sample.args Do None (Some "chat.json")) w
  = (Raise (SystemExit 1), out w ["🤖 Vity is thinking..."; "❌ Error: 'role'"]).
Proof.
  intros history lib w.
  apply (last_message_without_role_aborts Sample.bash lib
           (Sample.args Do None (Some "chat.json")) w w w "" (VList [])
           [Sample.user_message "hi"]
           [("content", VList [VDict [("text", VStr "ls")]])]);
    reflexivity.
Defined.

Lemma assistant_with_empty_content_aborts_witness :
  let history := [Sample.user_message "hi"; Fixtures.hollow_assistant] in
  let lib := Fixtures.lib Sample.strip_tags [] (Fixtures.returning history) in
  let w := Sample.with_files [("chat.json", "[]")] in
  main Sample.bash lib (Sample.args Chat None (Some "chat.json")) w
  = (Raise (SystemExit 1),
     out w ["🤖 Vity is thinking..."; "❌ Error: list index out of range"]).
Proof.
  intros history lib w.
  apply (assistant_with_empty_content_aborts Sample.bash lib
           (Sample.args Chat None (Some "chat.json")) w w w "" (VList [])
           history history [("role", VStr "assistant"); ("content", VList [])]);
    reflexivity.
Defined.

Lemma assistant_without_text_gives_empty_command_witness :
  let history := [Sample.user_message "hi"; Fixtures.bare_assistant] in
  let lib := Fixtures.lib Sample.strip_tags [] (Fixtures.returning history) in
  main Sample.bash lib (Sample.args Do None None) Sample.empty
  = (Ok tt, put (out Sample.empty ["🤖 Vity is thinking..."; "Command: "; "__VITY_CMD__:"])
              "/home/u/.bash_history" LF).
Proof.
  intros history lib.
  apply (assistant_without_text_gives_empty_command Sample.bash lib
           (Sample.args Do None None) Sample.empty Sample.empty Sample.empty "" (VList [])
           history history [("role", VStr "assistant")]); try reflexivity.
  by left.
Defined.

Lemma base_exception_is_not_reported_witness :
  let lib := Fixtures.lib Sample.strip_tags [] Fixtures.interrupted in
  main Sample.bash lib (Sample.args Do None None) Sample.empty
  = (Raise KeyboardInterrupt, out Sample.empty ["🤖 Vity is thinking..."]).
Proof.
  intros lib.
  apply (base_exception_is_not_reported Sample.bash lib (Sample.args Do None None)
           Sample.empty Sample.empty Sample.empty "" (VList []) KeyboardInterrupt);
    reflexivity.
Defined.

Lemma saved_history_is_loaded_next_witness :
  let lib := Fixtures.lib Sample.strip_tags (Sample.stripped Sample.reply)
               (Sample.generate Sample.reply) in
  let args := Sample.args Do None (Some "chat.json") in
  let w := Sample.with_files [("chat.json", "[]")] in
  let w' := (main Sample.bash lib args w).2 in
  load_chat_history Sample.bash lib args w' = (Ok (VList (Sample.stripped Sample.reply)), w').
Proof.
  intros lib args w w'.
  apply (saved_history_is_loaded_next Sample.bash lib args w w w w' "" (VList [])
           (Sample.returned "" Sample.reply) (Sample.stripped Sample.reply) "chat.json");
    vm_compute; reflexivity.
Defined.

(** ** The parser only deletes *)

Lemma length_replace_go_empty (old : string) (k : nat) (s : string) :
  (String.length (PyStr.replace_go old "" k s) <= String.length s)%nat.
Proof.
  revert k. induction s as [|x s IH]; intros k; simpl; [lia |].
  destruct k as [|k].
  - destruct (PyStr.startswith old (String x s)); simpl.
    + specialize (IH (String.length old - 1)). lia.
    + specialize (IH 0). lia.
  - specialize (IH k). lia.
Qed.

Lemma length_join_head (sep x : string) (l : list string) :
  (String.length x <= String.length (PyStr.join sep (x :: l)))%nat.
Proof.
  destruct l as [|y l]; simpl; [lia |].
  rewrite PyStrFacts.length_append. lia.
Qed.

Lemma length_split_head (sep s piece : string) (later : list string) :
  sep ≠ "" →
  PyStr.split sep s = piece :: later →
  (String.length piece <= String.length s)%nat.
Proof.
  intros Hsep Hsplit. rewrite <- (PyStrFacts.join_split sep s Hsep), Hsplit.
  apply length_join_head.
Qed.

(** X10 — the parser never makes the text longer: the command part and
    the delimiter are kept, and the comment is a piece of the reply from
    which text was only removed. *)
Theorem cmd_string_never_longer (content normalized : string) :
  cmd_string (VStr content) = Ok (VStr normalized) →
  (String.length normalized <= String.length content)%nat.
Proof.
  destruct (PyStr.contains delimiter content) eqn:E.
  - apply PyStrFacts.contains_first in E as (c & m & -> & Hfind).
    destruct (split_nonempty delimiter m) as (p & ps & Hm).
    rewrite (cmd_string_delimited c m p ps Hfind Hm). intros [= <-].
    pose proof (length_split_head delimiter m p ps ltac:(done) Hm) as Hp.
    pose proof (length_replace_go_empty marker 0 p) as Hr.
    unfold PyStr.replace. rewrite !PyStrFacts.length_append.
    change (String.length delimiter) with 3. simpl String.length. lia.
  - rewrite (cmd_string_plain _ E). by intros [= <-].
Qed.

Lemma cmd_string_never_longer_witness :
  (String.length "ls -la # lists all files" <= String.length Sample.reply)%nat.
Proof.
  apply (cmd_string_never_longer Sample.reply "ls -la # lists all files").
  reflexivity.
Defined.

(** X11 — a text that is already in the emitted form — one delimiter, no
    marker after it — goes through the parser unchanged. *)
Theorem cmd_string_fixes_normal_form (command comment : string) :
  PyStr.find delimiter (command ++ delimiter ++ comment) = Some (String.length command) →
  PyStr.find delimiter comment = None →
  PyStr.find marker comment = None →
  cmd_string (VStr (command ++ delimiter ++ comment))
  = Ok (VStr (command ++ delimiter ++ comment)).
Proof.
  intros Hfirst Hnone Hmarker.
  rewrite (cmd_string_delimited command comment comment []); [| done |].
  - rewrite PyStrFacts.replace_join_split, (PyStrFacts.split_absent _ _ Hmarker). done.
  - by apply PyStrFacts.split_absent.
Qed.

Lemma cmd_string_fixes_normal_form_witness :
  cmd_string (VStr "ls -la # lists all files") = Ok (VStr "ls -la # lists all files").
Proof.
  apply (cmd_string_fixes_normal_form "ls -la" "lists all files"); reflexivity.
Defined.

(** * Configuration and shell integration *)

(** ** More on strings *)

Module PyTextFacts.
Import PyStr PyText.

Lemma startswith_app_l (m a t : string) :
  startswith m a = true → startswith m (a ++ t) = true.
Proof.
  intros [u ->]%PyStrFacts.startswith_inv.
  rewrite PyStrFacts.append_assoc. apply PyStrFacts.startswith_app.
Qed.

Lemma contains_app_l (m a t : string) :
  contains m a = true → contains m (a ++ t) = true.
Proof.
  unfold contains. rewrite !bool_decide_eq_true.
  induction a as [|x a IH]; unfold find; fold find.
  - destruct (startswith m "") eqn:E; [| by intros [? [=]]].
    intros _. change ("" ++ t) with t.
    assert (startswith m t = true) as Ht by apply (startswith_app_l m "" t E).
    destruct t; simpl; rewrite Ht; eauto.
  - destruct (startswith m (String x a)) eqn:E.
    + intros _. change (String x a ++ t) with (String x (a ++ t)).
      unfold find; fold find.
      change (String x (a ++ t)) with (String x a ++ t).
      rewrite (startswith_app_l _ _ t E). eauto.
    + intros [i Hi]. change (String x a ++ t) with (String x (a ++ t)).
      unfold find; fold find.
      destruct (startswith m (String x (a ++ t))); [eauto |].
      destruct (find m a) as [j|] eqn:Hj; [| done].
      destruct (IH ltac:(eauto)) as [k ->]. simpl. eauto.
Qed.

Lemma contains_app_r (m a t : string) :
  contains m t = true → contains m (a ++ t) = true.
Proof.
  unfold contains. rewrite !bool_decide_eq_true. intros [i Hi].
  induction a as [|x a [k IH]]; [eauto |].
  change (String x a ++ t) with (String x (a ++ t)). unfold find; fold find.
  destruct (startswith m (String x (a ++ t))); [eauto |]. rewrite IH. simpl. eauto.
Qed.

Lemma contains_middle (m a b : string) : contains m (a ++ m ++ b) = true.
Proof.
  apply contains_app_r. unfold contains. rewrite bool_decide_eq_true.
  destruct (m ++ b) eqn:E; unfold find; fold find; rewrite <- E,
    PyStrFacts.startswith_app; eauto.
Qed.

(** A line that contains [m] makes the joined text contain [m]. *)
Lemma contains_join (m sep : string) (l : list string) (line : string) :
  line ∈ l → contains m line = true → contains m (join sep l) = true.
Proof.
  intros Hin Hline. induction Hin as [line l | line y l Hin IH].
  - destruct l as [|z l]; simpl; [done | by apply contains_app_l].
  - destruct l as [|z l]; [by apply elem_of_nil in Hin |].
    change (join sep (y :: z :: l)) with (y ++ sep ++ join sep (z :: l)).
    by apply contains_app_r, contains_app_r, IH.
Qed.

(** Stripping takes text away at the two ends only. *)
Lemma lstrip_go_suffix (k : nat) (s : string) : ∃ a, s = a ++ lstrip_go k s.
Proof.
  revert k. induction s as [|x s IH]; intros k; cbn [lstrip_go]; [by exists "" |].
  destruct k as [|k].
  - destruct (leading whitespace (String x s)) as [n|]; [| by exists ""].
    destruct (IH (n - 1)) as [a Ha]. exists (String x a).
    cbn [String.append]. by rewrite <- Ha.
  - destruct (IH k) as [a Ha]. exists (String x a).
    cbn [String.append]. by rewrite <- Ha.
Qed.

Lemma rstrip_prefix (s : string) : ∃ b, s = rstrip s ++ b.
Proof.
  induction s as [|x s [b IH]]; cbn [rstrip]; [by exists "" |].
  destruct (String.eqb (lstrip (String x s)) ""); [by exists (String x s) |].
  exists b. cbn [String.append]. by rewrite <- IH.
Qed.

Lemma strip_inside (s : string) : ∃ a b, s = a ++ strip s ++ b.
Proof.
  destruct (rstrip_prefix s) as [b Hb].
  destruct (lstrip_go_suffix 0 (rstrip s)) as [a Ha].
  exists a, b. unfold strip, lstrip. rewrite <- PyStrFacts.append_assoc, <- Ha. done.
Qed.

Lemma strip_contains (s m : string) : strip s = m → contains m s = true.
Proof.
  intros <-. destruct (strip_inside s) as (a & b & Hs).
  rewrite Hs at 2. apply contains_middle.
Qed.

(** Splitting on one character, one character at a time. *)
Lemma split_char_hit (c : ascii) (s : string) :
  split (String c "") (String c s) = "" :: split (String c "") s.
Proof.
  unfold split. cbn [split_go startswith]. rewrite Ascii.eqb_refl.
  cbn [String.length Nat.sub]. by destruct (split_go (String c "") 0 s).
Qed.

Lemma split_char_miss (c x : ascii) (s : string) :
  Ascii.eqb c x = false →
  split (String c "") (String x s)
  = match split (String c "") s with
    | p :: ps => String x p :: ps
    | [] => []
    end.
Proof.
  intros E. unfold split. cbn [split_go startswith]. rewrite E.
  by destruct (split_go (String c "") 0 s).
Qed.

(** Splitting on one character splits the two sides of that character
    separately. *)
Lemma split_char_app (c : ascii) (a b : string) :
  split (String c "") (a ++ String c "" ++ b)
  = (split (String c "") a ++ split (String c "") b)%list.
Proof.
  induction a as [|x a IH].
  - change ("" ++ String c "" ++ b) with (String c b). by rewrite split_char_hit.
  - change (String x a ++ String c "" ++ b) with (String x (a ++ String c "" ++ b)).
    destruct (Ascii.eqb c x) eqn:E.
    + apply Ascii.eqb_eq in E as <-. by rewrite !split_char_hit, IH.
    + rewrite !(split_char_miss _ _ _ E), IH.
      destruct (split_nonempty (String c "") a) as (p & ps & ->). done.
Qed.

Lemma join_app (sep : string) (l1 l2 : list string) :
  l1 ≠ [] → l2 ≠ [] →
  join sep (l1 ++ l2) = join sep l1 ++ sep ++ join sep l2.
Proof.
  intros H1 H2. induction l1 as [|x l1 IH]; [done |].
  destruct l1 as [|y l1].
  - destruct l2; [done | done].
  - change (join sep ((x :: y :: l1) ++ l2))
      with (x ++ sep ++ join sep ((y :: l1) ++ l2)).
    rewrite IH by done.
    change (join sep (x :: y :: l1)) with (x ++ sep ++ join sep (y :: l1)).
    by rewrite !PyStrFacts.append_assoc.
Qed.

End PyTextFacts.

(** ** Universal newlines *)

Module NewlineFacts.
Import PyStr PyText.

Lemma universal_newlines_other (c : ascii) (s : string) :
  c ≠ "013"%char →
  universal_newlines (String c s) = String c (universal_newlines s).
Proof. intros Hc. cbn [universal_newlines]. by apply Ascii.eqb_neq in Hc as ->. Qed.

(** A [\r] is handed over as a newline, or it is the [\r] of a [\r\n]
    and is dropped. *)
Lemma universal_newlines_return (s : string) :
  universal_newlines (String "013" s) = String "010" (universal_newlines s)
  ∨ (∃ s', s = String "010" s')
    ∧ universal_newlines (String "013" s) = universal_newlines s.
Proof.
  destruct s as [|d s]; [by left |].
  destruct (Ascii.eqb_spec d "010") as [-> | Hd].
  - right. split; [by eexists | done].
  - left. change (universal_newlines (String "013" (String d s)))
      with (if Ascii.eqb d "010" then universal_newlines (String d s)
            else String "010" (universal_newlines (String d s))).
    by apply Ascii.eqb_neq in Hd as ->.
Qed.

(** The text handed over for [\r...] starts with a newline. *)
Lemma universal_newlines_return_head (s : string) :
  ∃ t, universal_newlines (String "013" s) = String "010" t.
Proof.
  destruct (universal_newlines_return s) as [-> | [[s' ->] ->]]; [by eexists |].
  rewrite universal_newlines_other by done. by eexists.
Qed.

Lemma startswith_universal_newlines (y : ascii) (m s : string) :
  Forall (λ y, y ≠ "013"%char ∧ y ≠ "010"%char) (list_ascii_of_string (String y m)) →
  startswith (String y m) (universal_newlines s) = startswith (String y m) s.
Proof.
  revert y s. induction m as [|z m IH]; intros y s Hm;
    simpl in Hm; apply Forall_cons in Hm as [[Hcr Hlf] Hm];
    apply Ascii.eqb_neq in Hcr, Hlf.
  - destruct s as [|c s]; [done |].
    destruct (Ascii.eqb_spec c "013") as [-> | Hc].
    + destruct (universal_newlines_return_head s) as [t ->].
      cbn [startswith]. by rewrite Hcr, Hlf.
    + rewrite (universal_newlines_other _ _ Hc). cbn [startswith].
      by destruct (Ascii.eqb y c).
  - destruct s as [|c s]; [done |].
    destruct (Ascii.eqb_spec c "013") as [-> | Hc].
    + destruct (universal_newlines_return_head s) as [t ->].
      cbn [startswith]. by rewrite Hcr, Hlf.
    + rewrite (universal_newlines_other _ _ Hc).
      change (startswith (String y (String z m)) (String c ?t))
        with (if Ascii.eqb y c then startswith (String z m) t else false).
      destruct (Ascii.eqb y c); [by apply IH | done].
Qed.

Lemma contains_cons (m : string) (c : ascii) (s : string) :
  contains m (String c s) = startswith m (String c s) || contains m s.
Proof.
  unfold contains. destruct (startswith m (String c s)) eqn:E; cbn [orb].
  - apply bool_decide_eq_true. unfold find; fold find. rewrite E. eauto.
  - apply bool_decide_ext. unfold find at 1; fold find. rewrite E.
    destruct (find m s) as [i|]; simpl; split; intros [? ?]; by eauto.
Qed.

(** A text without line end is in the text handed over when it is in the
    file. *)
Lemma contains_universal_newlines (y : ascii) (m s : string) :
  Forall (λ y, y ≠ "013"%char ∧ y ≠ "010"%char) (list_ascii_of_string (String y m)) →
  contains (String y m) (universal_newlines s) = contains (String y m) s.
Proof.
  intros Hm. induction s as [|c s IH]; [done |].
  rewrite (contains_cons _ c s), <- (startswith_universal_newlines _ _ (String c s) Hm).
  destruct (Ascii.eqb_spec c "013") as [-> | Hc].
  - destruct (universal_newlines_return s) as [Hun | [[s' ->] Hun]]; rewrite Hun.
    + by rewrite contains_cons, IH.
    + rewrite IH, (startswith_universal_newlines _ _ _ Hm).
      rewrite (contains_cons _ "010" s'). by destruct (startswith _ _).
  - rewrite (universal_newlines_other _ _ Hc), contains_cons. by rewrite IH.
Qed.

Lemma universal_newlines_app_newline (a b : string) :
  universal_newlines (a ++ LF ++ b)
  = universal_newlines (a ++ LF) ++ universal_newlines b.
Proof.
  induction a as [|c a IH].
  - change ("" ++ LF ++ b) with (String "010" b). change ("" ++ LF) with (String "010" "").
    by rewrite !universal_newlines_other by done.
  - change (String c a ++ LF ++ b) with (String c (a ++ LF ++ b)).
    change (String c a ++ LF) with (String c (a ++ LF)).
    destruct (Ascii.eqb_spec c "013") as [-> | Hc].
    + destruct a as [|d a].
      * change ("" ++ LF ++ b) with (String "010" b) in *.
        change ("" ++ LF) with (String "010" "") in *.
        change (universal_newlines (String "013" (String "010" b)))
          with (universal_newlines (String "010" b)).
        change (universal_newlines (String "013" (String "010" "")))
          with (universal_newlines (String "010" "")).
        exact IH.
      * change (String d a ++ LF ++ b) with (String d (a ++ LF ++ b)) in *.
        change (String d a ++ LF) with (String d (a ++ LF)) in *.
        change (universal_newlines (String "013" (String d ?t)))
          with (if Ascii.eqb d "010" then universal_newlines (String d t)
                else String "010" (universal_newlines (String d t))).
        destruct (Ascii.eqb d "010"); [exact IH |].
        rewrite IH. reflexivity.
    + rewrite !(universal_newlines_other _ _ Hc), IH. reflexivity.
Qed.

Lemma universal_newlines_ends_newline (a : string) :
  ∃ u, universal_newlines (a ++ LF) = u ++ LF.
Proof.
  induction a as [|c a [u IH]].
  - by exists "".
  - change (String c a ++ LF) with (String c (a ++ LF)).
    destruct (Ascii.eqb_spec c "013") as [-> | Hc].
    + destruct (universal_newlines_return (a ++ LF)) as [-> | [_ ->]].
      * exists (String "010" u). by rewrite IH.
      * by exists u.
    + rewrite (universal_newlines_other _ _ Hc), IH. by exists (String c u).
Qed.

Lemma universal_newlines_idempotent (s : string) :
  universal_newlines (universal_newlines s) = universal_newlines s.
Proof.
  induction s as [|c s IH]; [done |].
  destruct (Ascii.eqb_spec c "013") as [-> | Hc].
  - destruct (universal_newlines_return s) as [-> | [_ ->]]; [| done].
    by rewrite universal_newlines_other, IH.
  - by rewrite !(universal_newlines_other _ _ Hc), IH.
Qed.

Lemma script_has_no_return :
  universal_newlines _get_shell_script_content = _get_shell_script_content.
Proof. vm_compute. reflexivity. Qed.

Lemma marker_universal_newlines (s : string) :
  contains integration_marker (universal_newlines s) = contains integration_marker s.
Proof.
  apply (contains_universal_newlines "#" " Vity shell integration").
  vm_compute. repeat (constructor; [split; discriminate |]). constructor.
Qed.
End NewlineFacts.


(** ** Installing and removing the shell integration *)

Lemma out_nil (w : world) : out w [] = w.
Proof. destruct w as [o f]. unfold out. simpl. by rewrite app_nil_r. Qed.

Lemma kept_lines_clean (pre rest : list string) :
  Forall (λ line, PyText.strip line ≠ integration_marker) pre →
  kept_lines false (pre ++ rest) = (pre ++ kept_lines false rest)%list.
Proof.
  induction 1 as [|line pre Hline _ IH]; [done |].
  cbn [app kept_lines]. apply String.eqb_neq in Hline as ->.
  cbn [andb negb]. by rewrite IH.
Qed.

(** A section that is never closed takes the rest of the file with it. *)
Lemma kept_lines_open (post : list string) :
  Forall (λ line, PyText.strip line ≠ "}") post →
  kept_lines true post = [].
Proof.
  induction 1 as [|line post Hline _ IH]; [done |].
  cbn [kept_lines]. apply String.eqb_neq in Hline as ->.
  cbn [andb negb]. by destruct (String.eqb (PyText.strip line) integration_marker).
Qed.

(** The script is one section: its first line opens it and its last line
    closes it. *)
Lemma kept_lines_script :
  PyStr.split LF _get_shell_script_content = ("" :: shell_script_lines ++ [""])%list
  ∧ kept_lines false ("" :: shell_script_lines ++ [""]) = [""; ""]
  ∧ PyStr.contains integration_marker _get_shell_script_content = true.
Proof. vm_compute. done. Qed.

(** Where the marker is no part of the text, no line is the marker. *)
Lemma no_marker_line (content : string) :
  PyStr.contains integration_marker content = false →
  Forall (λ line, PyText.strip line ≠ integration_marker) (PyStr.split LF content).
Proof.
  intros Hno. apply Forall_forall. intros line Hin Hline.
  apply PyTextFacts.strip_contains in Hline.
  pose proof (PyTextFacts.contains_join _ LF _ _ Hin Hline) as Hjoin.
  rewrite PyStrFacts.join_split in Hjoin by done. congruence.
Qed.

Lemma with_integration_marked (content : string) :
  PyStr.contains integration_marker (with_integration content) = true.
Proof.
  unfold with_integration.
  destruct (PyStr.contains integration_marker content) eqn:E; [done |].
  apply PyTextFacts.contains_app_r, PyTextFacts.contains_app_r, kept_lines_script.
Qed.

Lemma with_integration_idempotent (content : string) :
  with_integration (with_integration content) = with_integration content.
Proof.
  unfold with_integration at 1. by rewrite with_integration_marked.
Qed.

Lemma startswith_before_char (m a t : string) (c : ascii) :
  Forall (λ y, y ≠ c) (list_ascii_of_string m) →
  PyStr.startswith m (a ++ String c t) = PyStr.startswith m a.
Proof.
  revert a. induction m as [|y m IH]; intros a Hm; [done |].
  simpl in Hm. apply Forall_cons in Hm as [Hy Hm].
  destruct a as [|x a]; cbn [String.append PyStr.startswith].
  - by apply Ascii.eqb_neq in Hy as ->.
  - destruct (Ascii.eqb y x); [by apply IH | done].
Qed.

(** What the removal keeps of a text without marker followed by the
    script: the text and two newlines. *)
Lemma kept_after_script (text : string) :
  PyStr.contains integration_marker text = false →
  PyStr.join LF (kept_lines false (PyStr.split LF (text ++ LF ++ _get_shell_script_content)))
  = text ++ LF ++ LF.
Proof.
  intros Hno. destruct kept_lines_script as (Hsplit & Hkept & _).
  change LF with (String "010" "") at 2 3.
  rewrite PyTextFacts.split_char_app.
  change (String "010" "") with LF. rewrite Hsplit.
  rewrite (kept_lines_clean _ _ (no_marker_line _ Hno)), Hkept.
  destruct (split_nonempty LF text) as (p & ps & Hc).
  rewrite PyTextFacts.join_app; [| by rewrite Hc | done].
  by rewrite PyStrFacts.join_split.
Qed.

(** A newline at the end brings no marker into a text. *)
Lemma no_marker_newline (content : string) :
  PyStr.contains integration_marker content = false →
  PyStr.contains integration_marker (content ++ LF) = false.
Proof.
  unfold PyStr.contains. rewrite !bool_decide_eq_false. intros Hno Hyes. apply Hno.
  clear Hno. induction content as [|x a IH].
  - vm_compute in Hyes. by destruct Hyes.
  - change (String x a ++ LF) with (String x (a ++ LF)) in Hyes.
    unfold PyStr.find in *; fold PyStr.find in *.
    change (String x (a ++ LF)) with (String x a ++ String "010" "") in Hyes.
    rewrite startswith_before_char in Hyes
      by (vm_compute; repeat (constructor; [discriminate |]); constructor).
    destruct (PyStr.startswith integration_marker (String x a)); [eauto |].
    destruct (PyStr.find integration_marker (a ++ LF)) as [i|] eqn:E;
      [| by destruct Hyes].
    destruct IH as [j ->]; eauto.
Qed.

(** The text read from a file without marker and a newline after it:
    it has no marker, and it ends with a newline. *)
Lemma no_marker_read (content : string) :
  PyStr.contains integration_marker content = false →
  PyStr.contains integration_marker (PyText.universal_newlines (content ++ LF)) = false.
Proof.
  intros Hno. rewrite NewlineFacts.marker_universal_newlines. by apply no_marker_newline.
Qed.

(** Removing what was just installed leaves the text as it is read, and
    two newlines behind it. *)
Lemma without_with_integration (content : string) :
  PyStr.contains integration_marker content = false →
  without_integration (with_integration content)
  = PyText.universal_newlines (content ++ LF) ++ LF.
Proof.
  intros Hno. unfold without_integration. rewrite with_integration_marked.
  unfold with_integration. rewrite Hno.
  rewrite NewlineFacts.universal_newlines_app_newline, NewlineFacts.script_has_no_return.
  pose proof (no_marker_read _ Hno) as Hread.
  destruct (NewlineFacts.universal_newlines_ends_newline content) as [u Hu].
  rewrite Hu in Hread |- *.
  rewrite !PyStrFacts.append_assoc. rewrite kept_after_script; [done |].
  destruct (PyStr.contains integration_marker u) eqn:E; [| done].
  by rewrite (PyTextFacts.contains_app_l _ _ LF E) in Hread.
Qed.

Section ShellIntegration.
Context (env : environ).

Lemma rc_files_differ : bashrc env ≠ zshrc env.
Proof.
  unfold bashrc, zshrc. intros H. apply (inj (String.append (HOME env))) in H. done.
Qed.

Lemma remove_lines_run (rc_name : string) (b : bool) (lines : list string) (w : world) :
  ∃ w', remove_lines rc_name b lines w = (Ok (kept_lines b lines), w') ∧ fs w' = fs w.
Proof.
  revert b w. induction lines as [|line rest IH]; intros b w; [by exists w |].
  cbn [remove_lines kept_lines].
  destruct (String.eqb (PyText.strip line) integration_marker).
  - rewrite bind_print.
    match goal with
    | |- context [remove_lines _ true rest ?w0] => destruct (IH true w0) as (w' & -> & Hfs)
    end.
    by exists w'.
  - destruct (b && String.eqb (PyText.strip line) "}"); [apply IH |].
    destruct b; cbn [negb]; [apply IH |].
    destruct (IH false w) as (w' & Hrun & Hfs). exists w'.
    by rewrite (bind_Ok _ _ _ _ _ Hrun).
Qed.

(** Installing into one file. *)
Lemma install_into_effect (rc rc_name : string) (installed : bool) (w : world) :
  faultless env →
  ∃ b w', install_into env rc rc_name installed w = (Ok b, w')
          ∧ fs w' = alter with_integration rc (fs w)
          ∧ b = installed || bool_decide (is_Some (fs w !! rc)).
Proof.
  intros (Hread & _ & Happend). unfold install_into, exists_, mbind, M_bind at 1.
  destruct (fs w !! rc) as [content|] eqn:Hrc.
  - rewrite bool_decide_eq_true_2 by eauto.
    unfold mbind, M_bind at 1, read_text. unfold mbind, M_bind at 1, read_file. rewrite Hread, Hrc.
    cbn [mret M_ret]. rewrite NewlineFacts.marker_universal_newlines.
    destruct (PyStr.contains integration_marker content) eqn:Hmark; cbn [negb].
    + exists true. eexists. split; [done |]. split; [| by rewrite orb_true_r].
      apply map_eq. intros p. simpl. destruct (decide (p = rc)) as [->|Hne].
      * rewrite lookup_alter_eq, Hrc. simpl. unfold with_integration. by rewrite Hmark.
      * by rewrite lookup_alter_ne.
    + unfold mbind, M_bind at 1, append_file. rewrite Happend, Hrc.
      exists true. eexists. split; [done |]. split; [| by rewrite orb_true_r].
      apply map_eq. intros p. simpl. destruct (decide (p = rc)) as [->|Hne].
      * rewrite lookup_alter_eq, lookup_insert_eq, Hrc. simpl.
        unfold with_integration. by rewrite Hmark.
      * by rewrite lookup_alter_ne, lookup_insert_ne.
  - rewrite bool_decide_eq_false_2 by (by intros [? [=]]).
    exists installed, w. split; [done |]. split; [| by rewrite orb_false_r].
    apply map_eq. intros p. destruct (decide (p = rc)) as [->|Hne].
    + by rewrite lookup_alter_eq, Hrc.
    + by rewrite lookup_alter_ne.
Qed.

Lemma install_effect (w : world) :
  faultless env →
  ∃ w', install_shell_integration env w = (Ok tt, w')
        ∧ fs w' = alter with_integration (zshrc env)
                    (alter with_integration (bashrc env) (fs w)).
Proof.
  intros Hfl. unfold install_shell_integration.
  destruct (install_into_effect (bashrc env) "~/.bashrc" false w Hfl)
    as (b1 & w1 & H1 & Hfs1 & _).
  rewrite (bind_Ok _ _ _ _ _ H1).
  destruct (install_into_effect (zshrc env) "~/.zshrc" b1 w1 Hfl)
    as (b2 & w2 & H2 & Hfs2 & _).
  rewrite (bind_Ok _ _ _ _ _ H2).
  destruct b2; [destruct (PyStr.contains "zsh" (shell env)) |];
    (eexists; split; [done |]; simpl; by rewrite Hfs2, Hfs1).
Qed.

(** Removing from one file. *)
Lemma remove_from_effect (rc_name rc : string) (w : world) :
  faultless env →
  ∃ w', remove_from env rc_name rc w = (Ok tt, w')
        ∧ fs w' = alter without_integration rc (fs w).
Proof.
  intros (Hread & Hwrite & _). unfold remove_from, exists_, mbind, M_bind at 1.
  destruct (fs w !! rc) as [content|] eqn:Hrc.
  - rewrite bool_decide_eq_true_2 by eauto. cbn [negb].
    unfold mbind, M_bind at 1, read_text. unfold mbind, M_bind at 1, read_file. rewrite Hread, Hrc.
    cbn [mret M_ret]. rewrite NewlineFacts.marker_universal_newlines.
    destruct (PyStr.contains integration_marker content) eqn:Hmark; cbn [negb].
    + destruct (remove_lines_run rc_name false
                  (PyStr.split LF (PyText.universal_newlines content)) w)
        as (w1 & Hrun & Hfs1).
      rewrite (bind_Ok _ _ _ _ _ Hrun).
      unfold mbind, M_bind, write_file. rewrite Hwrite.
      eexists. split; [done |]. simpl. rewrite Hfs1.
      apply map_eq. intros p. destruct (decide (p = rc)) as [->|Hne].
      * rewrite lookup_alter_eq, lookup_insert_eq, Hrc. simpl.
        unfold without_integration. by rewrite Hmark.
      * by rewrite lookup_alter_ne, lookup_insert_ne.
    + exists w. split; [done |].
      apply map_eq. intros p. destruct (decide (p = rc)) as [->|Hne].
      * rewrite lookup_alter_eq, Hrc. simpl. unfold without_integration. by rewrite Hmark.
      * by rewrite lookup_alter_ne.
  - rewrite bool_decide_eq_false_2 by (by intros [? [=]]). cbn [negb].
    exists w. split; [done |].
    apply map_eq. intros p. destruct (decide (p = rc)) as [->|Hne].
    + by rewrite lookup_alter_eq, Hrc.
    + by rewrite lookup_alter_ne.
Qed.

Lemma remove_effect (w : world) :
  faultless env →
  ∃ w', remove_shell_integration env w = (Ok tt, w')
        ∧ fs w' = alter without_integration (zshrc env)
                    (alter without_integration (bashrc env) (fs w)).
Proof.
  intros Hfl. unfold remove_shell_integration.
  destruct (remove_from_effect "~/.bashrc" (bashrc env) w Hfl) as (w1 & H1 & Hfs1).
  rewrite (bind_Ok _ _ _ _ _ H1).
  destruct (remove_from_effect "~/.zshrc" (zshrc env) w1 Hfl) as (w2 & H2 & Hfs2).
  exists w2. split; [done |]. by rewrite Hfs2, Hfs1.
Qed.

(** Both commands act on the two rc files one by one. *)
Lemma alter_both (f : string → string) (m : gmap string string) (p : string) :
  alter f (zshrc env) (alter f (bashrc env) m) !! p
  = if bool_decide (p = bashrc env ∨ p = zshrc env) then f <$> m !! p else m !! p.
Proof.
  pose proof rc_files_differ as Hne.
  destruct (decide (p = zshrc env)) as [->|Hz].
  - rewrite bool_decide_eq_true_2 by auto.
    by rewrite lookup_alter_eq, lookup_alter_ne.
  - rewrite lookup_alter_ne by done. destruct (decide (p = bashrc env)) as [->|Hb].
    + rewrite bool_decide_eq_true_2 by auto. by rewrite lookup_alter_eq.
    + rewrite bool_decide_eq_false_2 by (by intros [|]). by rewrite lookup_alter_ne.
Qed.
End ShellIntegration.

Section ShellIntegrationProperties.
Context (env : environ).

(** X12 — installing twice is installing once: a file that has the
    integration is recognised by its marker and left as it is. *)
Theorem install_shell_integration_idempotent (w w1 w2 : world) (r1 r2 : result unit) :
  faultless env →
  install_shell_integration env w = (r1, w1) →
  install_shell_integration env w1 = (r2, w2) →
  fs w2 = fs w1.
Proof.
  intros Hfl H1 H2.
  destruct (install_effect env w Hfl) as (w1' & H1' & Hfs1).
  destruct (install_effect env w1 Hfl) as (w2' & H2' & Hfs2).
  assert (w1' = w1) as -> by congruence. assert (w2' = w2) as -> by congruence.
  apply map_eq. intros p. rewrite Hfs2, alter_both, Hfs1, alter_both.
  destruct (bool_decide (p = bashrc env ∨ p = zshrc env)); [| done].
  destruct (fs w !! p); simpl; [| done]. by rewrite with_integration_idempotent.
Qed.

Lemma install_into_appends (rc rc_name : string) (installed : bool) (w w' : world)
    (r : result bool) (p : string) :
  install_into env rc rc_name installed w = (r, w') →
  match fs w !! p with
  | Some content => ∃ tail, fs w' !! p = Some (content ++ tail)
  | None => fs w' !! p = None
  end.
Proof.
  assert (match fs w !! p with
          | Some content => ∃ tail, fs w !! p = Some (content ++ tail)
          | None => fs w !! p = None
          end) as Hsame.
  { destruct (fs w !! p) as [c|]; [| done]. exists "". by rewrite PyStrFacts.append_nil_r. }
  unfold install_into, exists_, mbind, M_bind at 1.
  destruct (fs w !! rc) as [content|] eqn:Hrc.
  - rewrite bool_decide_eq_true_2 by eauto.
    unfold mbind, M_bind at 1, read_text. unfold mbind, M_bind at 1, read_file.
    destruct (read_fault env rc); [by intros [= _ <-] |]. rewrite Hrc.
    cbn [mret M_ret].
    destruct (PyStr.contains integration_marker (PyText.universal_newlines content));
      cbn [negb]; [by intros [= _ <-] |].
    unfold mbind, M_bind at 1, append_file.
    destruct (append_fault env rc); [by intros [= _ <-] |].
    intros [= _ <-]. simpl. destruct (decide (p = rc)) as [->|Hne].
    + rewrite Hrc, lookup_insert_eq. simpl. eauto.
    + by rewrite lookup_insert_ne.
  - rewrite bool_decide_eq_false_2 by (by intros [? [=]]). by intros [= _ <-].
Qed.

(** X13 — installing only ever appends: whatever fails on the way, every
    file that existed still starts with its old contents, and no file is
    created (an absent rc file stays absent). *)
Theorem install_shell_integration_only_appends
    (w w' : world) (r : result unit) (p : string) :
  install_shell_integration env w = (r, w') →
  match fs w !! p with
  | Some content => ∃ tail, fs w' !! p = Some (content ++ tail)
  | None => fs w' !! p = None
  end.
Proof.
  unfold install_shell_integration, mbind, M_bind at 1.
  destruct (install_into env (bashrc env) "~/.bashrc" false w) as [[b1|e] w1] eqn:H1;
    pose proof (install_into_appends _ _ _ _ _ _ p H1) as Hp1;
    [| by intros [= _ <-]].
  unfold mbind, M_bind.
  destruct (install_into env (zshrc env) "~/.zshrc" b1 w1) as [[b2|e] w2] eqn:H2;
    pose proof (install_into_appends _ _ _ _ _ _ p H2) as Hp2.
  - assert (fs w' = fs w2 → match fs w !! p with
                              | Some content => ∃ tail, fs w' !! p = Some (content ++ tail)
                              | None => fs w' !! p = None
                              end) as Hdone.
    { intros ->. destruct (fs w !! p) as [c|].
      - destruct Hp1 as [t1 Ht1]. rewrite Ht1 in Hp2. destruct Hp2 as [t2 Ht2].
        exists (t1 ++ t2). by rewrite Ht2, PyStrFacts.append_assoc.
      - by rewrite Hp1 in Hp2. }
    destruct b2; [destruct (PyStr.contains "zsh" (shell env)) |];
      intros [= _ <-]; by apply Hdone.
  - intros [= _ <-]. destruct (fs w !! p) as [c|].
    + destruct Hp1 as [t1 Ht1]. rewrite Ht1 in Hp2. destruct Hp2 as [t2 Ht2].
      exists (t1 ++ t2). by rewrite Ht2, PyStrFacts.append_assoc.
    + by rewrite Hp1 in Hp2.
Qed.

(** X14 — removing the integration right after installing it does not give
    the rc file back as it was: the script is gone, the file is rewritten
    as it was read (every [\r\n] and [\r] a [\n]), and the newline written
    in front of the script and the empty last line of the script stay, so
    the file ends with two more newlines. *)
Theorem remove_after_install_leaves_two_newlines
    (w w1 w2 : world) (r1 r2 : result unit) (p content : string) :
  faultless env →
  p = bashrc env ∨ p = zshrc env →
  fs w !! p = Some content →
  PyStr.contains integration_marker content = false →
  install_shell_integration env w = (r1, w1) →
  remove_shell_integration env w1 = (r2, w2) →
  fs w1 !! p = Some (content ++ LF ++ _get_shell_script_content)
  ∧ fs w2 !! p = Some (PyText.universal_newlines (content ++ LF) ++ LF).
Proof.
  intros Hfl Hp Hc Hno H1 H2.
  destruct (install_effect env w Hfl) as (w1' & H1' & Hfs1).
  destruct (remove_effect env w1 Hfl) as (w2' & H2' & Hfs2).
  assert (w1' = w1) as -> by congruence. assert (w2' = w2) as -> by congruence.
  rewrite Hfs2, alter_both, Hfs1, alter_both, bool_decide_eq_true_2, Hc by done.
  simpl. split.
  - unfold with_integration. by rewrite Hno.
  - by rewrite without_with_integration.
Qed.

Lemma reinstall_effect (w : world) :
  faultless env →
  ∃ w', reinstall_shell_integration env w = (Ok tt, w')
        ∧ ∀ p, fs w' !! p
               = if bool_decide (p = bashrc env ∨ p = zshrc env)
                 then (λ c, with_integration (without_integration c)) <$> fs w !! p
                 else fs w !! p.
Proof.
  intros Hfl. unfold reinstall_shell_integration. rewrite bind_print.
  match goal with
  | |- context [(remove_shell_integration env ≫= _) ?w0] =>
      destruct (remove_effect env w0 Hfl) as (w1 & H1 & Hfs1);
      rewrite (bind_Ok _ _ _ _ _ H1)
  end.
  rewrite bind_print.
  match goal with
  | |- context [install_shell_integration env ?w0] =>
      destruct (install_effect env w0 Hfl) as (w2 & H2 & Hfs2)
  end.
  exists w2. split; [done |]. intros p. rewrite Hfs2, alter_both. simpl.
  rewrite Hfs1, alter_both. simpl.
  destruct (bool_decide (p = bashrc env ∨ p = zshrc env)); [| done].
  by destruct (fs w !! p).
Qed.

(** X15 — every reinstall makes the rc file longer: after an install and a
    reinstall the script is there once, behind three newlines instead of
    one, and the text before it is as it was read (every [\r\n] and [\r] a
    [\n]). *)
Theorem reinstall_adds_two_newlines
    (w w1 w2 : world) (r1 r2 : result unit) (p content : string) :
  faultless env →
  p = bashrc env ∨ p = zshrc env →
  fs w !! p = Some content →
  PyStr.contains integration_marker content = false →
  install_shell_integration env w = (r1, w1) →
  reinstall_shell_integration env w1 = (r2, w2) →
  fs w2 !! p
  = Some ((PyText.universal_newlines (content ++ LF) ++ LF)
          ++ LF ++ _get_shell_script_content).
Proof.
  intros Hfl Hp Hc Hno H1 H2.
  destruct (install_effect env w Hfl) as (w1' & H1' & Hfs1).
  destruct (reinstall_effect w1 Hfl) as (w2' & H2' & Hfs2).
  assert (w1' = w1) as -> by congruence. assert (w2' = w2) as -> by congruence.
  rewrite Hfs2, bool_decide_eq_true_2, Hfs1, alter_both, bool_decide_eq_true_2, Hc by done.
  simpl. rewrite (without_with_integration _ Hno).
  unfold with_integration. by rewrite (no_marker_newline _ (no_marker_read _ Hno)).
Qed.

(** X16 — a section that no line consisting of a closing brace ends takes
    the rest of the file with it: everything from the marker line on is
    dropped, and the file is rewritten with the lines before it only.  The
    lines are those of the text as it is read, every [\r\n] and [\r] a
    [\n]. *)
Theorem remove_unterminated_section_truncates
    (w w' : world) (r : result unit) (p content marker_line : string)
    (before after : list string) :
  faultless env →
  p = bashrc env ∨ p = zshrc env →
  fs w !! p = Some content →
  PyStr.split LF (PyText.universal_newlines content)
  = (before ++ marker_line :: after)%list →
  Forall (λ line, PyText.strip line ≠ integration_marker) before →
  PyText.strip marker_line = integration_marker →
  Forall (λ line, PyText.strip line ≠ "}") after →
  remove_shell_integration env w = (r, w') →
  fs w' !! p = Some (PyStr.join LF before).
Proof.
  intros Hfl Hp Hc Hsplit Hbefore Hmarker Hafter Hrun.
  destruct (remove_effect env w Hfl) as (w1 & H1 & Hfs).
  assert (w1 = w') as -> by congruence.
  rewrite Hfs, alter_both, bool_decide_eq_true_2, Hc by done. simpl.
  assert (PyStr.contains integration_marker content = true) as Hmark.
  { rewrite <- NewlineFacts.marker_universal_newlines.
    rewrite <- (PyStrFacts.join_split LF (PyText.universal_newlines content)) by done.
    apply (PyTextFacts.contains_join _ _ _ marker_line).
    - rewrite Hsplit. apply elem_of_app. right. by apply elem_of_cons; left.
    - by apply PyTextFacts.strip_contains. }
  unfold without_integration. rewrite Hmark, Hsplit.
  rewrite (kept_lines_clean _ _ Hbefore). cbn [kept_lines].
  rewrite Hmarker, String.eqb_refl, (kept_lines_open _ Hafter). by rewrite app_nil_r.
Qed.

(** X17 — [remove_shell_integration] looks for a line that is the marker,
    [install_shell_integration] for a text that contains it.  With the
    marker only inside a longer line, removing rewrites the file as it was
    read (every [\r\n] and [\r] a [\n]) with no line taken out, and
    installing finds it installed: after a reinstall the file has its
    lines, and no integration. *)
Theorem reinstall_skips_file_with_marker_inside_a_line
    (w w' : world) (r : result unit) (p content : string) :
  faultless env →
  p = bashrc env ∨ p = zshrc env →
  fs w !! p = Some content →
  PyStr.contains integration_marker content = true →
  Forall (λ line, PyText.strip line ≠ integration_marker)
    (PyStr.split LF (PyText.universal_newlines content)) →
  reinstall_shell_integration env w = (r, w') →
  fs w' !! p = Some (PyText.universal_newlines content).
Proof.
  intros Hfl Hp Hc Hmark Hlines Hrun.
  destruct (reinstall_effect w Hfl) as (w1 & H1 & Hfs).
  assert (w1 = w') as -> by congruence.
  rewrite Hfs, bool_decide_eq_true_2, Hc by done. simpl.
  assert (without_integration content = PyText.universal_newlines content) as ->.
  { unfold without_integration. rewrite Hmark.
    rewrite <- (app_nil_r (PyStr.split LF (PyText.universal_newlines content))),
      (kept_lines_clean _ _ Hlines).
    cbn [kept_lines]. rewrite app_nil_r. by apply PyStrFacts.join_split. }
  unfold with_integration. by rewrite NewlineFacts.marker_universal_newlines, Hmark.
Qed.
End ShellIntegrationProperties.

Lemma sample_faultless : faultless Sample.bash.
Proof. by repeat split. Qed.

Lemma install_shell_integration_idempotent_witness :
  let w := Sample.with_files [("/home/u/.bashrc", "export A=1" ++ LF)] in
  let w1 := (install_shell_integration Sample.bash w).2 in
  fs (install_shell_integration Sample.bash w1).2 = fs w1.
Proof.
  intros w w1.
  apply (install_shell_integration_idempotent Sample.bash w w1
           (install_shell_integration Sample.bash w1).2
           (install_shell_integration Sample.bash w).1
           (install_shell_integration Sample.bash w1).1 sample_faultless).
  - vm_compute. reflexivity.
  - vm_compute. reflexivity.
Defined.

Lemma install_shell_integration_only_appends_witness :
  let w := Sample.with_files [("/home/u/.zshrc", "export A=1" ++ LF)] in
  (∃ tail, fs (install_shell_integration Sample.zsh w).2 !! "/home/u/.zshrc"
           = Some (("export A=1" ++ LF) ++ tail))
  ∧ fs (install_shell_integration Sample.zsh w).2 !! "/home/u/.bashrc" = None.
Proof.
  intros w. split.
  - apply (install_shell_integration_only_appends Sample.zsh w
             (install_shell_integration Sample.zsh w).2
             (install_shell_integration Sample.zsh w).1 "/home/u/.zshrc").
    vm_compute. reflexivity.
  - apply (install_shell_integration_only_appends Sample.zsh w
             (install_shell_integration Sample.zsh w).2
             (install_shell_integration Sample.zsh w).1 "/home/u/.bashrc").
    vm_compute. reflexivity.
Defined.

Lemma remove_after_install_leaves_two_newlines_witness :
  let content := "export A=1" ++ String "013" LF ++ "export B=2" ++ String "013" LF in
  let w := Sample.with_files [("/home/u/.bashrc", content)] in
  let w1 := (install_shell_integration Sample.bash w).2 in
  let w2 := (remove_shell_integration Sample.bash w1).2 in
  fs w1 !! "/home/u/.bashrc" = Some (content ++ LF ++ _get_shell_script_content)
  ∧ fs w2 !! "/home/u/.bashrc"
    = Some (("export A=1" ++ LF ++ "export B=2" ++ LF ++ LF) ++ LF).
Proof.
  intros content w w1 w2.
  apply (remove_after_install_leaves_two_newlines Sample.bash w w1 w2
           (install_shell_integration Sample.bash w).1
           (remove_shell_integration Sample.bash w1).1
           "/home/u/.bashrc" content sample_faultless).
  - by left.
  - reflexivity.
  - reflexivity.
  - vm_compute. reflexivity.
  - vm_compute. reflexivity.
Defined.

Lemma reinstall_adds_two_newlines_witness :
  let content := "export A=1" ++ String "013" LF in
  let w := Sample.with_files [("/home/u/.bashrc", content)] in
  let w1 := (install_shell_integration Sample.bash w).2 in
  fs (reinstall_shell_integration Sample.bash w1).2 !! "/home/u/.bashrc"
  = Some ((("export A=1" ++ LF ++ LF) ++ LF) ++ LF ++ _get_shell_script_content).
Proof.
  intros content w w1.
  apply (reinstall_adds_two_newlines Sample.bash w w1
           (reinstall_shell_integration Sample.bash w1).2
           (install_shell_integration Sample.bash w).1
           (reinstall_shell_integration Sample.bash w1).1
           "/home/u/.bashrc" content sample_faultless).
  - by left.
  - reflexivity.
  - reflexivity.
  - vm_compute. reflexivity.
  - vm_compute. reflexivity.
Defined.

Lemma remove_unterminated_section_truncates_witness :
  let content := "alias ll=ls" ++ String "013" LF ++ "# Vity shell integration"
                 ++ String "013" LF ++ "vity() {" ++ LF ++ "export KEEP=1" in
  let w := Sample.with_files [("/home/u/.bashrc", content)] in
  fs (remove_shell_integration Sample.bash w).2 !! "/home/u/.bashrc" = Some "alias ll=ls".
Proof.
  intros content w.
  apply (remove_unterminated_section_truncates Sample.bash w
           (remove_shell_integration Sample.bash w).2
           (remove_shell_integration Sample.bash w).1
           "/home/u/.bashrc" content "# Vity shell integration"
           ["alias ll=ls"] ["vity() {"; "export KEEP=1"] sample_faultless).
  - by left.
  - reflexivity.
  - reflexivity.
  - constructor; [vm_compute; discriminate | constructor].
  - reflexivity.
  - constructor; [vm_compute; discriminate |].
    constructor; [vm_compute; discriminate | constructor].
  - vm_compute. reflexivity.
Defined.

Lemma reinstall_skips_file_with_marker_inside_a_line_witness :
  let content := "## Vity shell integration (disabled)" ++ String "013" LF ++ "export A=1" in
  let w := Sample.with_files [("/home/u/.bashrc", content)] in
  fs (reinstall_shell_integration Sample.bash w).2 !! "/home/u/.bashrc"
  = Some ("## Vity shell integration (disabled)" ++ LF ++ "export A=1").
Proof.
  intros content w.
  apply (reinstall_skips_file_with_marker_inside_a_line Sample.bash w
           (reinstall_shell_integration Sample.bash w).2
           (reinstall_shell_integration Sample.bash w).1
           "/home/u/.bashrc" content sample_faultless).
  - by left.
  - reflexivity.
  - reflexivity.
  - constructor; [vm_compute; discriminate |].
    constructor; [vm_compute; discriminate | constructor].
  - vm_compute. reflexivity.
Defined.

(** ** First-run configuration *)

Lemma bind_run {A B} (m : M A) (k : A → IO B) (t : terminal) (w w1 : world) (a : A) :
  m w = (Ok a, w1) → (run m ≫= k) t w = k a t w1.
Proof. intros H. unfold mbind, IO_bind, run. by rewrite H. Qed.

Lemma bind_run_print {B} (line : string) (k : unit → IO B) (t : terminal) (w : world) :
  (run (print line) ≫= k) t w = k tt t (out w [line]).
Proof. done. Qed.

Lemma bind_input {B} (prompt line : string) (rest : list string) (k : string → IO B)
    (t : terminal) (w : world) :
  stdin t = line :: rest →
  (input prompt ≫= k) t w
  = k line {| stdin := rest; asked := asked t ++ [prompt] |} w.
Proof. intros H. unfold mbind, IO_bind, input. by rewrite H. Qed.

Section Configuration.
Context (env : environ).

Lemma exists_run (p : string) (w : world) :
  exists_ p w = (Ok (bool_decide (is_Some (fs w !! p))), w).
Proof. done. Qed.

(** The four questions are asked before any answer is looked at. *)
Lemma setup_config_asks (t : terminal) (w : world) (url key model limit : string)
    (rest : list string) :
  fs w !! config_file env = None →
  stdin t = url :: key :: model :: limit :: rest →
  ∃ t' w1,
    stdin t' = rest ∧ length (asked t') = length (asked t) + 4 ∧ fs w1 = fs w ∧
    stdout w1 = (stdout w ++ ["🤖 Welcome to Vity! Let's set up your OpenAI API key.";
                              "You can get one at: https://platform.openai.com/api-keys";
                              ""])%list ∧
    setup_config env t w
    = (if String.eqb (PyText.strip key) "" then
         run (print "❌ API key is required");; mret (VBool false)
       else if String.eqb (PyText.strip url) "" then
         run (print "❌ Base URL is required");; mret (VBool false)
       else
         (if String.eqb (PyText.strip model) ""
          then run (print "❌ LLM model name is required") else mret tt);;
         run (write_file env (config_file env)
                ("VITY_LLM_API_KEY=" ++ PyText.strip key ++ LF ++
                 "VITY_LLM_MODEL=" ++ PyText.strip model ++ LF ++
                 "VITY_LLM_BASE_URL=" ++ PyText.strip url ++ LF ++
                 "VITY_TERMINAL_HISTORY_LIMIT=" ++
                 (if String.eqb (PyText.strip limit) "" then "1000"
                  else PyText.strip limit)));;
         run (print "✅ Configuration saved!");;
         run (print ("Config file: " ++ config_file env));;
         run (print "");;
         mret VNone) t' w1.
Proof.
  intros Hcf Hin. unfold setup_config.
  rewrite (bind_run _ _ _ _ _ _ (exists_run _ _)), Hcf.
  rewrite bool_decide_eq_false_2 by (by intros [? [=]]). cbn [negb].
  rewrite !bind_run_print.
  rewrite (bind_input _ url (key :: model :: limit :: rest)) by done.
  rewrite (bind_input _ key (model :: limit :: rest)) by done.
  rewrite (bind_input _ model (limit :: rest)) by done.
  rewrite (bind_input _ limit rest) by done.
  eexists _, _. split; [| split; [| split; [| split; [| reflexivity]]]].
  - done.
  - cbn [asked]. rewrite !length_app. simpl. lia.
  - done.
  - simpl. by rewrite <- !(assoc_L (++)%list).
Qed.

(** X18 — a blank API key or a blank base URL makes [setup_config] give up
    with [False]: all four answers have been read by then, and nothing is
    written. *)
Theorem setup_config_refuses_blank_key_or_url
    (t : terminal) (w : world) (url key model limit : string) (rest : list string) :
  fs w !! config_file env = None →
  stdin t = url :: key :: model :: limit :: rest →
  PyText.strip key = "" ∨ PyText.strip url = "" →
  ∃ t' w',
    setup_config env t w = (Ok (VBool false), t', w')
    ∧ stdin t' = rest
    ∧ fs w' = fs w.
Proof.
  intros Hcf Hin Hblank.
  destruct (setup_config_asks t w url key model limit rest Hcf Hin)
    as (t' & w1 & Hrest & _ & Hfs & _ & ->).
  destruct (String.eqb (PyText.strip key) "") eqn:Ek.
  - rewrite bind_run_print. by eexists _, _.
  - destruct Hblank as [Hk | Hu]; [by rewrite Hk in Ek |].
    rewrite Hu, String.eqb_refl, bind_run_print. by eexists _, _.
Qed.

(** X19 — a blank model name is reported and then ignored: the check has
    no [return], so the configuration is written all the same, with an
    empty [VITY_LLM_MODEL]; a blank history limit becomes 1000. *)
Theorem setup_config_saves_despite_blank_model
    (t : terminal) (w : world) (url key model limit : string) (rest : list string) :
  fs w !! config_file env = None →
  stdin t = url :: key :: model :: limit :: rest →
  PyText.strip key ≠ "" →
  PyText.strip url ≠ "" →
  PyText.strip model = "" →
  write_fault env (config_file env) = None →
  ∃ t' w',
    setup_config env t w = (Ok VNone, t', w')
    ∧ fs w' = <[config_file env :=
                  "VITY_LLM_API_KEY=" ++ PyText.strip key ++ LF ++
                  "VITY_LLM_MODEL=" ++ LF ++
                  "VITY_LLM_BASE_URL=" ++ PyText.strip url ++ LF ++
                  "VITY_TERMINAL_HISTORY_LIMIT=" ++
                  (if String.eqb (PyText.strip limit) "" then "1000"
                   else PyText.strip limit)]> (fs w)
    ∧ stdout w' = (stdout w ++ ["🤖 Welcome to Vity! Let's set up your OpenAI API key.";
                                "You can get one at: https://platform.openai.com/api-keys";
                                "";
                                "❌ LLM model name is required";
                                "✅ Configuration saved!";
                                ("Config file: " ++ config_file env)%string;
                                ""])%list.
Proof.
  intros Hcf Hin Hk Hu Hm Hw.
  destruct (setup_config_asks t w url key model limit rest Hcf Hin)
    as (t' & w1 & Hrest & _ & Hfs & Hout & ->).
  apply String.eqb_neq in Hk as ->. apply String.eqb_neq in Hu as ->.
  rewrite Hm, String.eqb_refl, bind_run_print.
  unfold mbind at 1, IO_bind at 1, run at 1, write_file. rewrite Hw.
  rewrite !bind_run_print. eexists _, _. split; [done |]. split.
  - simpl. by rewrite Hfs.
  - simpl. rewrite Hout. by rewrite <- !(assoc_L (++)%list).
Qed.

Lemma setup_config_present (t : terminal) (w : world) :
  is_Some (fs w !! config_file env) →
  ∃ w', setup_config env t w = (Ok VNone, t, w') ∧ fs w' = fs w.
Proof.
  intros Hcf. unfold setup_config.
  rewrite (bind_run _ _ _ _ _ _ (exists_run _ _)).
  rewrite bool_decide_eq_true_2 by done. cbn [negb].
  rewrite !bind_run_print. by eexists.
Qed.

Lemma setup_config_saves (t : terminal) (w : world) (url key model limit : string)
    (rest : list string) :
  fs w !! config_file env = None →
  stdin t = url :: key :: model :: limit :: rest →
  PyText.strip key ≠ "" →
  PyText.strip url ≠ "" →
  write_fault env (config_file env) = None →
  ∃ t' w',
    setup_config env t w = (Ok VNone, t', w')
    ∧ is_Some (fs w' !! config_file env).
Proof.
  intros Hcf Hin Hk Hu Hw.
  destruct (setup_config_asks t w url key model limit rest Hcf Hin)
    as (t' & w1 & _ & _ & _ & _ & ->).
  apply String.eqb_neq in Hk as ->. apply String.eqb_neq in Hu as ->.
  destruct (String.eqb (PyText.strip model) "").
  - rewrite bind_run_print.
    unfold mbind at 1, IO_bind at 1, run at 1, write_file. rewrite Hw.
    rewrite !bind_run_print. eexists _, _. split; [done |].
    simpl. rewrite lookup_insert_eq. eauto.
  - unfold mbind at 1, IO_bind at 1, mret at 1, IO_ret at 1.
    unfold mbind at 1, IO_bind at 1, run at 1, write_file. rewrite Hw.
    rewrite !bind_run_print. eexists _, _. split; [done |].
    simpl. rewrite lookup_insert_eq. eauto.
Qed.

(** X20 — once a configuration was saved, [check_config] holds, and a
    further [setup_config] asks no question and changes no file. *)
Theorem setup_config_runs_once
    (t : terminal) (w : world) (url key model limit : string) (rest : list string) :
  fs w !! config_file env = None →
  stdin t = url :: key :: model :: limit :: rest →
  PyText.strip key ≠ "" →
  PyText.strip url ≠ "" →
  write_fault env (config_file env) = None →
  ∃ t' w' w'',
    setup_config env t w = (Ok VNone, t', w')
    ∧ check_config env w' = (Ok true, w')
    ∧ setup_config env t' w' = (Ok VNone, t', w'')
    ∧ fs w'' = fs w'.
Proof.
  intros Hcf Hin Hk Hu Hw.
  destruct (setup_config_saves t w url key model limit rest Hcf Hin Hk Hu Hw)
    as (t' & w' & Hrun & Hsaved).
  destruct (setup_config_present t' w' Hsaved) as (w'' & Hagain & Hfs).
  exists t', w', w''. repeat split; try done.
  unfold check_config. rewrite exists_run. by rewrite bool_decide_eq_true_2.
Qed.
End Configuration.

(** X21 — without a configuration a [do] or [chat] invocation is a
    [vity config]: the setup runs and [main] returns; the prompt is not
    answered and the collaborator is not called, whether or not the setup
    saved a configuration. *)
Theorem first_run_only_configures
    (env : environ) (lib lib' : collaborators) (usage usage' : string)
    (args : arguments) (t : terminal) (w : world) :
  fs w !! config_file env = None →
  main_dispatch env lib usage (Run args) t w
  = main_dispatch env lib' usage' (Config false false) t w.
Proof.
  intros Hcf. unfold main_dispatch, check_config.
  rewrite (bind_run _ _ _ _ _ _ (exists_run _ _)), Hcf.
  by rewrite bool_decide_eq_false_2 by (by intros [? [=]]).
Qed.

(** X22 — [reset_config] changes no file other than the configuration
    file.  When there is a configuration and [unlink] fails, the error is
    raised by [reset_config] itself: nothing is printed and the
    configuration stays.  Otherwise it returns normally and [check_config]
    is false afterwards, whether or not there was a configuration. *)
Theorem reset_config_unconfigures (env : environ) (w w' : world) (r : result unit) :
  reset_config env w = (r, w') →
  (∀ p, p ≠ config_file env → fs w' !! p = fs w !! p)
  ∧ match fs w !! config_file env, unlink_fault env (config_file env) with
    | Some _, Some e => r = Raise e ∧ w' = w
    | _, _ => r = Ok tt ∧ check_config env w' = (Ok false, w')
    end.
Proof.
  unfold reset_config, check_config, exists_, mbind, M_bind at 1.
  destruct (fs w !! config_file env) as [text|] eqn:Hcf.
  - rewrite bool_decide_eq_true_2 by eauto.
    unfold mbind, M_bind, unlink. rewrite Hcf.
    destruct (unlink_fault env (config_file env)) as [e|].
    + by intros [= <- <-].
    + intros [= <- <-]. simpl. rewrite lookup_delete_eq.
      rewrite bool_decide_eq_false_2 by (by intros [? [=]]).
      split; [| done]. intros p Hp. by rewrite lookup_delete_ne.
  - rewrite bool_decide_eq_false_2 by (by intros [? [=]]).
    intros [= <- <-]. simpl. rewrite Hcf.
    rewrite bool_decide_eq_false_2 by (by intros [? [=]]). done.
Qed.

Lemma reset_config_unconfigures_witness :
  let w := Sample.with_files [("/home/u/.config/vity/.env", "VITY_LLM_API_KEY=k");
                              ("/home/u/.bashrc", "export A=1")] in
  let w' := (reset_config Sample.bash w).2 in
  let locked := (reset_config locked_config w).2 in
  ((∀ p, p ≠ config_file Sample.bash → fs w' !! p = fs w !! p)
   ∧ (reset_config Sample.bash w).1 = Ok tt
   ∧ check_config Sample.bash w' = (Ok false, w'))
  ∧ ((∀ p, p ≠ config_file locked_config → fs locked !! p = fs w !! p)
     ∧ (reset_config locked_config w).1
       = Raise (PermissionError
                  "[Errno 13] Permission denied: '/home/u/.config/vity/.env'")
     ∧ locked = w).
Proof.
  intros w w' locked. split.
  - apply (reset_config_unconfigures Sample.bash w w' (reset_config Sample.bash w).1).
    vm_compute. reflexivity.
  - apply (reset_config_unconfigures locked_config w locked
             (reset_config locked_config w).1).
    vm_compute. reflexivity.
Defined.

Lemma setup_config_refuses_blank_key_or_url_witness :
  let t := {| stdin := ["https://api.example/v1"; "   "; "gpt"; "200"; "ls"]; asked := [] |} in
  ∃ t' w',
    setup_config Sample.bash t Sample.empty = (Ok (VBool false), t', w')
    ∧ stdin t' = ["ls"]
    ∧ fs w' = fs Sample.empty.
Proof.
  intros t.
  apply (setup_config_refuses_blank_key_or_url Sample.bash t Sample.empty
           "https://api.example/v1" "   " "gpt" "200" ["ls"]).
  - reflexivity.
  - reflexivity.
  - left. reflexivity.
Defined.

Lemma setup_config_saves_despite_blank_model_witness :
  let t := {| stdin := [" https://api.example/v1 "; "KEY"; " "; ""]; asked := [] |} in
  ∃ t' w',
    setup_config Sample.bash t Sample.empty = (Ok VNone, t', w')
    ∧ fs w' = <[config_file Sample.bash :=
                  "VITY_LLM_API_KEY=" ++ PyText.strip "KEY" ++ LF ++
                  "VITY_LLM_MODEL=" ++ LF ++
                  "VITY_LLM_BASE_URL=" ++ PyText.strip " https://api.example/v1 " ++ LF ++
                  "VITY_TERMINAL_HISTORY_LIMIT=" ++
                  (if String.eqb (PyText.strip "") "" then "1000" else PyText.strip "")]>
                (fs Sample.empty)
    ∧ stdout w' = (stdout Sample.empty
                   ++ ["🤖 Welcome to Vity! Let's set up your OpenAI API key.";
                       "You can get one at: https://platform.openai.com/api-keys";
                       "";
                       "❌ LLM model name is required";
                       "✅ Configuration saved!";
                       ("Config file: " ++ config_file Sample.bash)%string;
                       ""])%list.
Proof.
  intros t.
  apply (setup_config_saves_despite_blank_model Sample.bash t Sample.empty
           " https://api.example/v1 " "KEY" " " "" []);
    first [reflexivity | vm_compute; discriminate].
Defined.

Lemma setup_config_runs_once_witness :
  let t := {| stdin := ["https://api.example/v1"; "KEY"; "gpt"; "200"]; asked := [] |} in
  ∃ t' w' w'',
    setup_config Sample.bash t Sample.empty = (Ok VNone, t', w')
    ∧ check_config Sample.bash w' = (Ok true, w')
    ∧ setup_config Sample.bash t' w' = (Ok VNone, t', w'')
    ∧ fs w'' = fs w'.
Proof.
  intros t.
  apply (setup_config_runs_once Sample.bash t Sample.empty
           "https://api.example/v1" "KEY" "gpt" "200" []);
    first [reflexivity | vm_compute; discriminate].
Defined.

Lemma first_run_only_configures_witness :
  let t := {| stdin := ["https://api.example/v1"; "KEY"; "gpt"; "200"]; asked := [] |} in
  main_dispatch Sample.bash (Sample.lib Sample.reply) "usage: vity"
    (Run (Sample.args Do None None)) t Sample.empty
  = main_dispatch Sample.bash Sample.failing_lib ""
      (Config false false) t Sample.empty.
Proof.
  intros t.
  apply (first_run_only_configures Sample.bash (Sample.lib Sample.reply) Sample.failing_lib
           "usage: vity" "" (Sample.args Do None None) t Sample.empty).
  reflexivity.
Defined.

(** * Cleaning the shell history *)

Module PyLinesFacts.
Import PyStr PyText PyLines.

Lemma leading_None (patterns : list string) (s : string) :
  leading patterns s = None ↔ Forall (λ p, startswith p s = false) patterns.
Proof.
  induction patterns as [|p patterns IH]; cbn [leading].
  - split; [by constructor | done].
  - destruct (startswith p s) eqn:E.
    + split; [done |]. intros H. apply Forall_cons in H as [H _]. congruence.
    + rewrite IH. split; [by constructor |]. by intros [_ H]%Forall_cons.
Qed.

Lemma leading_Some (patterns : list string) (s : string) (n : nat) :
  leading patterns s = Some n →
  ∃ p t, p ∈ patterns ∧ s = p ++ t ∧ String.length p = n.
Proof.
  induction patterns as [|p patterns IH]; cbn [leading]; [done |].
  destruct (startswith p s) eqn:E.
  - intros [= <-]. apply PyStrFacts.startswith_inv in E as [t ->].
    exists p, t. split; [by left | done].
  - intros (q & t & Hq & Hs & Hn)%IH. exists q, t. split; [by right | done].
Qed.

Lemma linebreaks_nonempty (p : string) : p ∈ linebreaks → p ≠ "".
Proof.
  intros Hp ->. revert Hp. vm_compute.
  repeat (intros [[=] | Hp]%elem_of_cons; revert Hp). by intros ?%elem_of_nil.
Qed.

Lemma splitlines_go_skip (u s : string) :
  splitlines_go (String.length u) (u ++ s) = splitlines_go 0 s.
Proof. induction u as [|c u IH]; simpl; [by destruct s | done]. Qed.

Lemma plain_empty : plain_line "".
Proof. intros a b H. destruct a, b; try done. Qed.

Lemma plain_tail (x : ascii) (line : string) : plain_line (String x line) → plain_line line.
Proof. intros H a b ->. by apply (H (String x a) b). Qed.

Lemma finish_Forall (P : string → Prop) (line : string) (lines : option (list string)) :
  P line → (∀ ls, lines = Some ls → Forall P ls) → Forall P (finish (line, lines)).
Proof.
  intros Hline Hlines. destruct lines as [ls|], line; cbn [finish];
    repeat constructor; try done; by apply Hlines.
Qed.

(** What the scan finds: a first line without boundary, which the text
    starts with, and lines without boundary after it. *)
Lemma splitlines_go_plain (n : nat) :
  ∀ s line lines,
    (String.length s <= n)%nat →
    splitlines_go 0 s = (line, lines) →
    plain_line line ∧ (∃ rest, s = line ++ rest)
    ∧ ∀ ls, lines = Some ls → Forall plain_line ls.
Proof.
  induction n as [|n IH]; intros s line lines Hlen.
  - destruct s; [| simpl in Hlen; lia]. intros [= <- <-].
    split; [apply plain_empty |]. split; [by exists "" | done].
  - destruct s as [|x s].
    { intros [= <- <-]. split; [apply plain_empty |]. split; [by exists "" | done]. }
    cbn [splitlines_go].
    destruct (leading linebreaks (String x s)) as [m|] eqn:Hlead.
    + intros [= <- <-]. split; [apply plain_empty |].
      split; [by exists (String x s) |]. intros ls [= <-].
      apply leading_Some in Hlead as (p & t & Hp & Hs & <-).
      destruct p as [|y p]; [by apply linebreaks_nonempty in Hp |].
      cbn [String.append] in Hs. injection Hs as <- ->.
      replace (String.length (String x p) - 1) with (String.length p) by (simpl; lia).
      rewrite splitlines_go_skip.
      destruct (splitlines_go 0 t) as [l' ls'] eqn:Ht.
      assert (String.length t <= n)%nat as Hlt.
      { simpl in Hlen. rewrite PyStrFacts.length_append in Hlen. lia. }
      destruct (IH t l' ls' Hlt Ht) as (Hl' & _ & Hls').
      by apply finish_Forall.
    + destruct (splitlines_go 0 s) as [l' ls'] eqn:Hs. intros [= <- <-].
      assert (String.length s <= n)%nat as Hls by (simpl in Hlen; lia).
      destruct (IH s l' ls' Hls Hs) as (Hl' & [rest Hrest] & Hlines).
      split; [| split; [exists rest; cbn [String.append]; by rewrite <- Hrest | done]].
      intros a b Hab. destruct a as [|y a].
      * cbn [String.append] in Hab. subst b.
        apply leading_None. apply leading_None in Hlead.
        eapply Forall_impl; [exact Hlead |]. intros p Hp. cbv beta in *.
        destruct (startswith p (String x l')) eqn:E; [| done].
        rewrite Hrest in Hp.
        change (String x (l' ++ rest)) with (String x l' ++ rest) in Hp.
        by rewrite (PyTextFacts.startswith_app_l _ _ rest E) in Hp.
      * cbn [String.append] in Hab. injection Hab as _ ->. by apply (Hl' a b).
Qed.

Lemma splitlines_plain (s : string) : Forall plain_line (splitlines s).
Proof.
  unfold splitlines. destruct (splitlines_go 0 s) as [line lines] eqn:Hs.
  destruct (splitlines_go_plain (String.length s) s line lines (le_n _) Hs)
    as (Hline & _ & Hlines).
  by apply finish_Forall.
Qed.
End PyLinesFacts.

Module PyLinesJoin.
Import PyStr PyText PyLines.

(** A newline after a text without boundary starts the first boundary. *)
Lemma leading_before_newline (x : ascii) (b rest : string) :
  leading linebreaks (String x b) = None →
  leading linebreaks (String x b ++ String "010" rest) = None.
Proof.
  rewrite !PyLinesFacts.leading_None.
  let l := eval vm_compute in linebreaks in change linebreaks with l.
  intros H.
  repeat match goal with
         | H : Forall _ (_ :: _) |- _ => apply Forall_cons in H as [? H]
         end.
  repeat constructor;
    try (rewrite startswith_before_char;
         [assumption
         | solve [vm_compute; repeat (constructor; [discriminate |]); constructor]]);
    cbn [String.append startswith] in *;
    try assumption;
    repeat match goal with
           | H : (if Ascii.eqb ?c x then _ else _) = false |- context [Ascii.eqb ?c x] =>
               destruct (Ascii.eqb c x); [discriminate H | done]
           end.
Qed.

Lemma splitlines_go_line (line rest : string) :
  plain_line line →
  splitlines_go 0 (line ++ LF ++ rest) = (line, Some (finish (splitlines_go 0 rest))).
Proof.
  induction line as [|x line IH]; intros Hplain.
  - reflexivity.
  - change (String x line ++ LF ++ rest) with (String x (line ++ LF ++ rest)).
    cbn [splitlines_go].
    change (String x (line ++ LF ++ rest)) with (String x line ++ String "010" rest).
    rewrite (leading_before_newline x line rest) by (by apply (Hplain "")).
    change (line ++ String "010" rest) with (line ++ LF ++ rest).
    by rewrite (IH (PyLinesFacts.plain_tail _ _ Hplain)).
Qed.

Lemma finish_Some (line : string) (lines : list string) :
  finish (line, Some lines) = line :: lines.
Proof. by destruct line. Qed.

(** Lines written with a newline after each are the lines read back. *)
Lemma splitlines_join (lines : list string) :
  lines ≠ [] →
  Forall plain_line lines →
  splitlines (join LF lines ++ LF) = lines.
Proof.
  intros Hne Hplain. induction Hplain as [|line lines Hline Hlines IH]; [done |].
  unfold splitlines. destruct lines as [|line2 lines].
  - cbn [join]. change (line ++ LF) with (line ++ LF ++ "").
    by rewrite (splitlines_go_line _ _ Hline), finish_Some.
  - change (join LF (line :: line2 :: lines)) with (line ++ LF ++ join LF (line2 :: lines)).
    rewrite !PyStrFacts.append_assoc.
    rewrite (splitlines_go_line _ _ Hline), finish_Some.
    f_equal. by apply IH.
Qed.

Lemma filter_untagged (lines : list string) :
  Forall untagged lines →
  List.filter (λ line, negb (endswith history_tag line)) lines = lines.
Proof.
  induction 1 as [|line lines Hline _ IH]; [done |].
  cbn [List.filter]. unfold untagged in Hline.
  change "# Vity generated" with history_tag in Hline. by rewrite Hline, IH.
Qed.

Lemma filter_is_untagged (lines : list string) :
  Forall untagged (List.filter (λ line, negb (endswith history_tag line)) lines).
Proof.
  induction lines as [|line lines IH]; [constructor |].
  cbn [List.filter]. destruct (endswith history_tag line) eqn:E; [done |].
  by constructor.
Qed.

Lemma filter_Forall {A} (P : A → Prop) (f : A → bool) (l : list A) :
  Forall P l → Forall P (List.filter f l).
Proof.
  induction 1 as [|x l Hx _ IH]; [constructor |].
  cbn [List.filter]. destruct (f x); [by constructor | done].
Qed.

Lemma filter_length_le {A} (f : A → bool) (l : list A) :
  (length (List.filter f l) <= length l)%nat.
Proof. induction l as [|x l IH]; simpl; [lia |]. destruct (f x); simpl; lia. Qed.

(** Nothing was removed exactly when no line is tagged. *)
Lemma filter_same_length (lines : list string) :
  length lines - length (List.filter (λ line, negb (endswith history_tag line)) lines) = 0 →
  Forall untagged lines.
Proof.
  induction lines as [|line lines IH]; [constructor |].
  cbn [List.filter]. pose proof (filter_length_le
    (λ line, negb (endswith history_tag line)) lines) as Hle.
  destruct (endswith history_tag line) eqn:E; cbn [negb length]; intros H.
  - lia.
  - constructor; [done |]. apply IH. lia.
Qed.

(** What [clean_bash_history] writes has no tagged line. *)
Lemma cleaned_text_untagged (text : string) :
  Forall untagged
    (splitlines
       (join LF (List.filter (λ line, negb (endswith history_tag line)) (splitlines text))
        ++ LF)).
Proof.
  destruct (List.filter _ (splitlines text)) as [|line lines] eqn:E.
  - vm_compute. by repeat constructor.
  - rewrite splitlines_join; [| done |].
    + rewrite <- E. apply filter_is_untagged.
    + rewrite <- E. apply filter_Forall, PyLinesFacts.splitlines_plain.
Qed.
End PyLinesJoin.

Section CleaningHistory.
Context (env : environ).
Import PyLines.

Lemma history_files_differ : bash_history env ≠ zsh_history env.
Proof.
  unfold bash_history, zsh_history. intros H.
  apply (inj (String.append (HOME env))) in H. done.
Qed.

(** One round of the loop, case by case. *)
Lemma clean_history_run (shell_name p : string) (found_any : bool) (w : world) :
  clean_history env shell_name p found_any w
  = match fs w !! p with
    | None => (Ok found_any, w)
    | Some _ =>
        let failed e :=
          "⚠️  Could not clean " ++ shell_name ++ " history: " ++ exn_str e in
        match read_file env p w with
        | (Raise e, _) => if is_Exception e then (Ok true, out w [failed e]) else (Raise e, w)
        | (Ok text, _) =>
            let lines := splitlines text in
            let removed_count :=
              length lines
              - length (List.filter (λ line, negb (endswith history_tag line)) lines) in
            if Nat.ltb 0 removed_count then
              match write_fault env p with
              | None =>
                  (Ok true,
                   out (put w p (cleaned_text text))
                     ["✅ Cleaned " ++ pretty removed_count ++ " vity entries from "
                      ++ shell_name ++ " history"])
              | Some (FailOpen e) =>
                  if is_Exception e then (Ok true, out w [failed e]) else (Raise e, w)
              | Some (FailWrite n e) =>
                  let w1 := put w p (String.substring 0 n (cleaned_text text)) in
                  if is_Exception e then (Ok true, out w1 [failed e]) else (Raise e, w1)
              end
            else (Ok true, out w ["ℹ️  No vity entries found in " ++ shell_name ++ " history"])
        end
    end.
Proof.
  unfold clean_history. unfold mbind at 1. unfold M_bind. rewrite exists_run.
  destruct (fs w !! p) as [content|] eqn:Hp; [| reflexivity].
  change (bool_decide (is_Some (Some content))) with true. cbn [negb].
  unfold mbind at 1. unfold M_bind, try_except.
  unfold mbind at 1. unfold M_bind.
  destruct (read_file env p w) as [[text|e] w0] eqn:Hread;
    pose proof (read_file_fs env p w w0 _ Hread) as ->.
  - cbv zeta. unfold cleaned_text. change "# Vity generated" with history_tag.
    destruct (Nat.ltb 0 _).
    + unfold mbind, M_bind, write_file.
      destruct (write_fault env p) as [[e|n e]|]; [| | reflexivity];
        by destruct (is_Exception e).
    + reflexivity.
  - by destruct (is_Exception e).
Qed.

(** A round writes no other file, leaves a file without tagged line as it
    is, and leaves no tagged line when nothing fails. *)
Lemma clean_history_fs (shell_name p : string) (found_any : bool) (w w' : world) r :
  clean_history env shell_name p found_any w = (r, w') →
  (∀ q, q ≠ p → fs w' !! q = fs w !! q)
  ∧ (∀ content, fs w !! p = Some content →
       Forall untagged (splitlines content) → fs w' = fs w)
  ∧ (fs w !! p = None → fs w' = fs w)
  ∧ (faultless env → ∀ content, fs w' !! p = Some content →
       Forall untagged (splitlines content)).
Proof.
  rewrite clean_history_run. intros Hrun.
  destruct (fs w !! p) as [content|] eqn:Hp.
  2: { injection Hrun as _ <-. repeat split; try done. by rewrite Hp. }
  unfold read_file in Hrun. rewrite Hp in Hrun.
  destruct (read_fault env p) as [e|] eqn:Hfault.
  { assert (fs w' = fs w) as Hfs
      by (destruct (is_Exception e); by injection Hrun as _ <-).
    rewrite Hfs. repeat split; try done.
    intros (Hr & _) ?. by rewrite Hr in Hfault. }
  cbv zeta in Hrun.
  destruct (Nat.ltb 0 _) eqn:Hcount.
  - assert (∃ data, fs w' = <[p := data]> (fs w) ∨ fs w' = fs w) as [data Hfs].
    { destruct (write_fault env p) as [[e|n e]|].
      - exists "". right. destruct (is_Exception e); by injection Hrun as _ <-.
      - eexists. left. destruct (is_Exception e); by injection Hrun as _ <-.
      - eexists. left. by injection Hrun as _ <-. }
    split; [| split; [| split]].
    + intros q Hq. destruct Hfs as [-> | ->]; [by rewrite lookup_insert_ne | done].
    + intros c [= <-] Huntagged. exfalso.
      rewrite (PyLinesJoin.filter_untagged _ Huntagged) in Hcount.
      apply Nat.ltb_lt in Hcount. lia.
    + done.
    + intros (_ & Hw & _) c Hc. rewrite Hw in Hrun. injection Hrun as _ <-.
      cbn [fs out put] in Hc. rewrite lookup_insert_eq in Hc. injection Hc as <-.
      apply PyLinesJoin.cleaned_text_untagged.
  - injection Hrun as _ <-. cbn [fs out]. repeat split; try done.
    intros _ c Hc. rewrite Hp in Hc. injection Hc as <-.
    apply PyLinesJoin.filter_same_length. apply Nat.ltb_ge in Hcount. lia.
Qed.

(** A round keeps every file that is another one, is absent, or has no
    tagged line. *)
Lemma clean_history_keeps (shell_name p : string) (found_any : bool) (w w' : world) r
    (q : string) :
  clean_history env shell_name p found_any w = (r, w') →
  q ≠ p ∨ fs w !! q = None
  ∨ (∃ content, fs w !! q = Some content ∧ Forall untagged (splitlines content)) →
  fs w' !! q = fs w !! q.
Proof.
  intros Hrun Hq. destruct (clean_history_fs _ _ _ _ _ _ Hrun) as (Hother & Hsame & Hnone & _).
  destruct (decide (q = p)) as [-> | Hne]; [| by apply Hother].
  destruct Hq as [Hq | [Hq | (content & Hq & Huntagged)]]; [done | |].
  - by rewrite (Hnone Hq).
  - by rewrite (Hsame _ Hq Huntagged).
Qed.

(** A round fails only with what is not an [Exception]. *)
Lemma clean_history_Ok (shell_name p : string) (found_any : bool) (w : world) :
  fails_with_Exception env →
  ∃ b w', clean_history env shell_name p found_any w = (Ok b, w').
Proof.
  intros (Hread & Hwrite). rewrite clean_history_run.
  destruct (fs w !! p) as [content|] eqn:Hp; [| by eauto].
  unfold read_file. rewrite Hp.
  destruct (read_fault env p) as [e|] eqn:Hfault.
  { rewrite (Hread _ _ Hfault). eauto. }
  cbv zeta. destruct (Nat.ltb 0 _); [| by eauto].
  destruct (write_fault env p) as [[e|n e]|] eqn:Hw; [| | by eauto].
  - rewrite (Hwrite _ _ Hw : is_Exception e = true). eauto.
  - rewrite (Hwrite _ _ Hw : is_Exception e = true). eauto.
Qed.

(** The two rounds of [clean_bash_history]: the files are those left by
    the first round, or by the second one run after it. *)
Lemma clean_bash_history_rounds (w w' : world) (r : result unit) :
  clean_bash_history env w = (r, w') →
  ∃ r1 w1,
    clean_history env "bash" (bash_history env) false w = (r1, w1)
    ∧ (fs w' = fs w1
       ∨ ∃ b r2 w2, clean_history env "zsh" (zsh_history env) b w1 = (r2, w2)
                    ∧ fs w' = fs w2).
Proof.
  unfold clean_bash_history. fold (bash_history env) (zsh_history env).
  unfold mbind at 1. unfold M_bind.
  destruct (clean_history env "bash" (bash_history env) false w) as [[b|e] w1] eqn:H1.
  - unfold mbind at 1. unfold M_bind.
    destruct (clean_history env "zsh" (zsh_history env) b w1) as [[b2|e] w2] eqn:H2.
    + intros H. exists (Ok b), w1. split; [done |]. right.
      exists b, (Ok b2), w2. split; [done |]. destruct b2; by injection H as _ <-.
    + intros [= _ <-]. exists (Ok b), w1. split; [done |]. right. by exists b, (Raise e), w2.
  - intros [= _ <-]. exists (Raise e), w1. split; [done |]. by left.
Qed.

Lemma clean_bash_history_rounds_Ok (w : world) :
  fails_with_Exception env →
  ∃ b1 w1 b2 w2,
    clean_history env "bash" (bash_history env) false w = (Ok b1, w1)
    ∧ clean_history env "zsh" (zsh_history env) b1 w1 = (Ok b2, w2)
    ∧ clean_bash_history env w
      = (Ok tt, if b2 then w2 else out w2 ["ℹ️  No history files found"]).
Proof.
  intros Hfaults.
  destruct (clean_history_Ok "bash" (bash_history env) false w Hfaults) as (b1 & w1 & H1).
  destruct (clean_history_Ok "zsh" (zsh_history env) b1 w1 Hfaults) as (b2 & w2 & H2).
  exists b1, w1, b2, w2. split; [done |]. split; [done |].
  unfold clean_bash_history. fold (bash_history env) (zsh_history env).
  unfold mbind at 1. unfold M_bind. rewrite H1.
  unfold mbind at 1. unfold M_bind. rewrite H2. by destruct b2.
Qed.

Lemma faultless_fails_with_Exception : faultless env → fails_with_Exception env.
Proof.
  intros (Hr & Hw & _). split.
  - intros p e. by rewrite Hr.
  - intros p f. by rewrite Hw.
Qed.

Lemma clean_bash_history_keeps (w w' : world) (r : result unit) (q : string) :
  clean_bash_history env w = (r, w') →
  (q ≠ bash_history env ∧ q ≠ zsh_history env) ∨ fs w !! q = None
  ∨ (∃ content, fs w !! q = Some content ∧ Forall untagged (splitlines content)) →
  fs w' !! q = fs w !! q.
Proof.
  intros Hrun Hq.
  destruct (clean_bash_history_rounds _ _ _ Hrun) as (r1 & w1 & H1 & Hrest).
  assert (fs w1 !! q = fs w !! q) as Hq1.
  { apply (clean_history_keeps _ _ _ _ _ _ _ H1). destruct Hq as [[? _] | Hq]; tauto. }
  destruct Hrest as [-> | (b & r2 & w2 & H2 & ->)]; [done |].
  rewrite <- Hq1. apply (clean_history_keeps _ _ _ _ _ _ _ H2).
  rewrite Hq1. destruct Hq as [[_ ?] | Hq]; tauto.
Qed.

Lemma clean_bash_history_cleans (w w' : world) (r : result unit) (p content : string) :
  faultless env →
  clean_bash_history env w = (r, w') →
  p = bash_history env ∨ p = zsh_history env →
  fs w' !! p = Some content →
  Forall untagged (splitlines content).
Proof.
  intros Hfaultless Hrun Hp Hcontent.
  destruct (clean_bash_history_rounds_Ok w (faultless_fails_with_Exception Hfaultless))
    as (b1 & w1 & b2 & w2 & H1 & H2 & Hboth).
  rewrite Hrun in Hboth.
  assert (fs w' = fs w2) as Hfs by (destruct b2; by injection Hboth as _ ->).
  rewrite Hfs in Hcontent.
  destruct (clean_history_fs _ _ _ _ _ _ H1) as (_ & _ & _ & Hclean1).
  destruct (clean_history_fs _ _ _ _ _ _ H2) as (Hother2 & _ & _ & Hclean2).
  destruct Hp as [-> | ->].
  - apply (Hclean1 Hfaultless). rewrite <- Hcontent. symmetry.
    apply Hother2, history_files_differ.
  - by apply (Hclean2 Hfaultless).
Qed.
Lemma plain_lineb_plain (line : string) : plain_lineb line = true → plain_line line.
Proof.
  induction line as [|x line IH]; intros Hcheck a b Hab.
  - destruct a, b; done.
  - cbn [plain_lineb] in Hcheck.
    destruct (PyText.leading linebreaks (String x line)) eqn:Hlead; [done |].
    destruct a as [|y a].
    + cbn [String.append] in Hab. by subst b.
    + cbn [String.append] in Hab. injection Hab as _ Hab. by apply (IH Hcheck a b).
Qed.

Lemma unlines_app (l1 l2 : list string) :
  unlines (l1 ++ l2) = unlines l1 ++ unlines l2.
Proof.
  induction l1 as [|line l1 IH]; [done |].
  change (unlines ((line :: l1) ++ l2)) with (line ++ LF ++ unlines (l1 ++ l2)).
  change (unlines (line :: l1)) with (line ++ LF ++ unlines l1).
  by rewrite IH, !PyStrFacts.append_assoc.
Qed.

(** Whole lines are read back as they were written. *)
Lemma splitlines_unlines (lines : list string) :
  Forall plain_line lines → splitlines (unlines lines) = lines.
Proof.
  induction 1 as [|line lines Hline _ IH]; [done |].
  change (unlines (line :: lines)) with (line ++ LF ++ unlines lines).
  unfold splitlines.
  rewrite (PyLinesJoin.splitlines_go_line _ _ Hline), PyLinesJoin.finish_Some.
  f_equal. apply IH.
Qed.

(** X23 — cleaning the history writes no file other than the two history
    files, whatever fails on the way. *)
Theorem clean_bash_history_writes_only_history_files
    (w w' : world) (r : result unit) (p : string) :
  clean_bash_history env w = (r, w') →
  p ≠ bash_history env →
  p ≠ zsh_history env →
  fs w' !! p = fs w !! p.
Proof.
  intros Hrun Hbash Hzsh. apply (clean_bash_history_keeps _ _ _ _ Hrun). by left.
Qed.

(** X24 — a history file none of whose lines ends with "# Vity generated"
    is not rewritten: its contents stay byte for byte what they were (line
    endings and a missing final newline included), whatever fails. *)
Theorem clean_bash_history_keeps_untagged_history
    (w w' : world) (r : result unit) (p content : string) :
  clean_bash_history env w = (r, w') →
  fs w !! p = Some content →
  Forall untagged (splitlines content) →
  fs w' !! p = Some content.
Proof.
  intros Hrun Hp Huntagged. rewrite <- Hp.
  apply (clean_bash_history_keeps _ _ _ _ Hrun). right. right. by exists content.
Qed.

(** A round only adds to what was printed. *)
Lemma clean_history_stdout (shell_name p : string) (found_any : bool) (w w' : world) r :
  clean_history env shell_name p found_any w = (r, w') →
  ∃ lines, stdout w' = (stdout w ++ lines)%list.
Proof.
  rewrite clean_history_run.
  destruct (fs w !! p) as [content|];
    [| intros [= _ <-]; exists []; by rewrite app_nil_r].
  destruct (read_file env p w) as [[text|e] w0].
  - cbv zeta. destruct (Nat.ltb 0 _).
    + destruct (write_fault env p) as [[e|n e]|]; [| | intros [= _ <-]; by eexists];
        (destruct (is_Exception e); intros [= _ <-];
         [by eexists | exists []; by rewrite app_nil_r]).
    + intros [= _ <-]. by eexists.
  - destruct (is_Exception e); intros [= _ <-]; [by eexists |].
    exists []. by rewrite app_nil_r.
Qed.

(** A round that meets a failure and returns has printed the warning. *)
Lemma clean_history_warns (shell_name p content : string) (found_any b : bool)
    (w w' : world) (e : exn) :
  clean_history env shell_name p found_any w = (Ok b, w') →
  fs w !! p = Some content →
  read_fault env p = Some e
  ∨ (read_fault env p = None ∧ ¬ Forall untagged (splitlines content)
     ∧ ∃ f, write_fault env p = Some f ∧ write_failure_exn f = e) →
  stdout w'
  = (stdout w
     ++ [("⚠️  Could not clean " ++ shell_name ++ " history: " ++ exn_str e)%string])%list.
Proof.
  rewrite clean_history_run. intros Hrun Hp Hfail. rewrite Hp in Hrun.
  unfold read_file in Hrun. rewrite Hp in Hrun.
  destruct Hfail as [Hread | (Hread & Htagged & f & Hwrite & <-)]; rewrite Hread in Hrun.
  - destruct (is_Exception e); [| done]. by injection Hrun as _ <-.
  - cbv zeta in Hrun. destruct (Nat.ltb 0 _) eqn:Hcount.
    + rewrite Hwrite in Hrun.
      destruct f as [e|n e]; cbn [write_failure_exn];
        (destruct (is_Exception e); [| done]); by injection Hrun as _ <-.
    + exfalso. apply Htagged, PyLinesJoin.filter_same_length.
      apply Nat.ltb_ge in Hcount. lia.
Qed.

(** X25 — a history file that cannot be read or written is reported and
    does not stop the command: when file operations fail with an
    [Exception] only, [clean_bash_history] returns normally, and for each
    history file that is there and that cannot be read, or that has a
    tagged line and cannot be written, the warning with the text of the
    exception has been printed. *)
Theorem clean_bash_history_reports_failures (w : world) :
  fails_with_Exception env →
  ∃ w',
    clean_bash_history env w = (Ok tt, w')
    ∧ ∀ shell_name p content e,
        (shell_name = "bash" ∧ p = bash_history env)
        ∨ (shell_name = "zsh" ∧ p = zsh_history env) →
        fs w !! p = Some content →
        read_fault env p = Some e
        ∨ (read_fault env p = None ∧ ¬ Forall untagged (splitlines content)
           ∧ ∃ f, write_fault env p = Some f ∧ write_failure_exn f = e) →
        ("⚠️  Could not clean " ++ shell_name ++ " history: " ++ exn_str e) ∈ stdout w'.
Proof.
  intros Hfaults.
  destruct (clean_bash_history_rounds_Ok w Hfaults)
    as (b1 & w1 & b2 & w2 & H1 & H2 & ->).
  eexists. split; [done |]. intros shell_name p content e Hfile Hp Hfail.
  assert (("⚠️  Could not clean " ++ shell_name ++ " history: " ++ exn_str e) ∈ stdout w2)
    as Hprinted.
  { destruct Hfile as [[-> ->] | [-> ->]].
    - destruct (clean_history_stdout _ _ _ _ _ _ H2) as [lines ->].
      rewrite (clean_history_warns _ _ _ _ _ _ _ _ H1 Hp Hfail).
      apply elem_of_app. left. apply elem_of_app. right. by apply elem_of_cons; left.
    - destruct (clean_history_fs _ _ _ _ _ _ H1) as (Hother & _).
      rewrite <- (Hother (zsh_history env)) in Hp
        by (intros H; by apply history_files_differ).
      rewrite (clean_history_warns _ _ _ _ _ _ _ _ H2 Hp Hfail).
      apply elem_of_app. right. by apply elem_of_cons; left. }
  destruct b2; [done |]. cbn [stdout out]. apply elem_of_app. by left.
Qed.

(** X26 — when no file operation fails, no line of a history file ends
    with "# Vity generated" after cleaning. *)
Theorem cleaned_history_has_no_tagged_line
    (w w' : world) (r : result unit) (p content : string) :
  faultless env →
  clean_bash_history env w = (r, w') →
  p = bash_history env ∨ p = zsh_history env →
  fs w' !! p = Some content →
  Forall untagged (splitlines content).
Proof. apply clean_bash_history_cleans. Qed.

(** X27 — cleaning is idempotent on the files: when no file operation
    fails, a second cleaning changes nothing. *)
Theorem clean_bash_history_idempotent (w w1 w2 : world) (r1 r2 : result unit) :
  faultless env →
  clean_bash_history env w = (r1, w1) →
  clean_bash_history env w1 = (r2, w2) →
  fs w2 = fs w1.
Proof.
  intros Hfaultless Hfirst Hsecond. apply map_eq. intros q.
  apply (clean_bash_history_keeps _ _ _ _ Hsecond).
  destruct (decide (q = bash_history env)) as [Hb|Hb];
    [| destruct (decide (q = zsh_history env)) as [Hz|Hz]; [| by left]].
  - right. destruct (fs w1 !! q) as [content|] eqn:Hq; [right | by left].
    exists content. split; [done |].
    apply (clean_bash_history_cleans _ _ _ _ _ Hfaultless Hfirst (or_introl Hb) Hq).
  - right. destruct (fs w1 !! q) as [content|] eqn:Hq; [right | by left].
    exists content. split; [done |].
    apply (clean_bash_history_cleans _ _ _ _ _ Hfaultless Hfirst (or_intror Hz) Hq).
Qed.

(** X28 — with neither history file present, the command reads and writes
    nothing, prints the one line "No history files found" and returns. *)
Theorem clean_bash_history_without_history_files (w : world) :
  fs w !! bash_history env = None →
  fs w !! zsh_history env = None →
  clean_bash_history env w = (Ok tt, out w ["ℹ️  No history files found"]).
Proof.
  intros Hbash Hzsh. unfold clean_bash_history. fold (bash_history env) (zsh_history env).
  unfold mbind at 1. unfold M_bind. rewrite clean_history_run, Hbash.
  unfold mbind at 1. unfold M_bind. by rewrite clean_history_run, Hzsh.
Qed.

(** With nothing failing, a round leaves the untagged lines of its file. *)
Lemma clean_history_lines (shell_name p content : string) (found_any : bool)
    (w w' : world) r :
  faultless env →
  clean_history env shell_name p found_any w = (r, w') →
  fs w !! p = Some content →
  ∃ content',
    fs w' !! p = Some content'
    ∧ splitlines content'
      = match List.filter (λ line, negb (endswith "# Vity generated" line))
                (splitlines content), splitlines content with
        | [], _ :: _ => [""]
        | kept, _ => kept
        end.
Proof.
  intros (Hr & Hw & _) Hrun Hp. rewrite clean_history_run, Hp in Hrun.
  unfold read_file in Hrun. rewrite Hr, Hp, Hw in Hrun. cbv zeta in Hrun.
  change history_tag with "# Vity generated" in Hrun.
  pose proof (PyLinesFacts.splitlines_plain content) as Hplain.
  destruct (Nat.ltb 0 _) eqn:Hcount; injection Hrun as _ <-.
  - exists (cleaned_text content). cbn [fs out put]. rewrite lookup_insert_eq.
    split; [done |]. unfold cleaned_text.
    apply Nat.ltb_lt in Hcount.
    destruct (List.filter _ (splitlines content)) as [|line kept] eqn:Hkept.
    + destruct (splitlines content); [cbn [length] in Hcount; lia | reflexivity].
    + rewrite PyLinesJoin.splitlines_join; [done | done |].
      rewrite <- Hkept. by apply PyLinesJoin.filter_Forall.
  - exists content. split; [done |].
    apply Nat.ltb_ge in Hcount.
    assert (Forall untagged (splitlines content)) as Huntagged
      by (apply PyLinesJoin.filter_same_length; change history_tag with "# Vity generated"; lia).
    pose proof (PyLinesJoin.filter_untagged _ Huntagged) as Hsame.
    change history_tag with "# Vity generated" in Hsame. rewrite Hsame.
    by destruct (splitlines content).
Qed.

(** X30 — when no file operation fails, cleaning keeps exactly the lines
    of a history file that do not end with "# Vity generated", in their
    order; a file that had only such lines is left with one empty line,
    not empty. *)
Theorem clean_bash_history_keeps_the_untagged_lines
    (w w' : world) (r : result unit) (p content : string) :
  faultless env →
  clean_bash_history env w = (r, w') →
  p = bash_history env ∨ p = zsh_history env →
  fs w !! p = Some content →
  ∃ content',
    fs w' !! p = Some content'
    ∧ splitlines content'
      = match List.filter (λ line, negb (endswith "# Vity generated" line))
                (splitlines content), splitlines content with
        | [], _ :: _ => [""]
        | kept, _ => kept
        end.
Proof.
  intros Hfaultless Hrun Hp Hcontent.
  destruct (clean_bash_history_rounds_Ok w (faultless_fails_with_Exception Hfaultless))
    as (b1 & w1 & b2 & w2 & H1 & H2 & Hboth).
  rewrite Hrun in Hboth.
  assert (fs w' = fs w2) as -> by (destruct b2; by injection Hboth as _ ->).
  destruct (clean_history_fs _ _ _ _ _ _ H1) as (Hother1 & _).
  destruct (clean_history_fs _ _ _ _ _ _ H2) as (Hother2 & _).
  destruct Hp as [-> | ->].
  - destruct (clean_history_lines _ _ _ _ _ _ _ Hfaultless H1 Hcontent) as (c & Hc & Hlines).
    exists c. split; [| done]. rewrite <- Hc. apply Hother2, history_files_differ.
  - apply (clean_history_lines _ _ _ _ _ _ _ Hfaultless H2).
    rewrite <- Hcontent. apply Hother1. intros H. by apply history_files_differ.
Qed.

(** X29 — what [main] records in the bash history is not what cleaning
    removes: a command appended by [append_shell_history] carries no tag,
    so unless the command itself ends with "# Vity generated" a later
    cleaning leaves it, and the whole file, in place. *)
Theorem recorded_command_survives_cleaning
    (cmd : string) (lines : list string) (w w1 w2 : world) (r : result unit) :
  PyStr.contains "zsh" (shell env) = false →
  append_fault env (bash_history env) = None →
  default "" (fs w !! bash_history env) = unlines lines →
  Forall plain_line (lines ++ [cmd]) →
  Forall untagged (lines ++ [cmd]) →
  append_shell_history env cmd w = (Ok tt, w1) →
  clean_bash_history env w1 = (r, w2) →
  fs w1 !! bash_history env = Some (unlines (lines ++ [cmd]))
  ∧ fs w2 !! bash_history env = Some (unlines (lines ++ [cmd])).
Proof.
  intros Hshell Hfault Hold Hplain Huntagged Happend Hclean.
  rewrite append_shell_history_run in Happend.
  unfold shell_history_file, history_entry in Happend. rewrite Hshell in Happend.
  fold (bash_history env) in Happend. rewrite Hfault, Hold in Happend.
  injection Happend as <-.
  assert (fs (put w (bash_history env) (unlines lines ++ cmd ++ LF)) !! bash_history env
          = Some (unlines (lines ++ [cmd]))) as Hrecorded.
  { cbn [fs put]. rewrite lookup_insert_eq, unlines_app. done. }
  split; [done |]. rewrite <- Hrecorded.
  apply (clean_bash_history_keeps _ _ _ _ Hclean). right. right.
  exists (unlines (lines ++ [cmd])). split; [done |].
  by rewrite (splitlines_unlines _ Hplain).
Qed.
End CleaningHistory.

Lemma locked_histories_fail_with_Exception : fails_with_Exception locked_histories.
Proof.
  split.
  - intros p e. cbn [read_fault locked_histories].
    destruct (String.eqb p _); [by intros [= <-] | done].
  - intros p f. cbn [write_fault locked_histories].
    destruct (String.eqb p _); [by intros [= <-] | done].
Qed.

Lemma clean_bash_history_writes_only_history_files_witness :
  let w := Sample.with_files [("/home/u/.bash_history", "ls # Vity generated" ++ LF);
                              ("notes.txt", "ls # Vity generated" ++ LF)] in
  fs (clean_bash_history Sample.bash w).2 !! "notes.txt" = fs w !! "notes.txt".
Proof.
  intros w.
  apply (clean_bash_history_writes_only_history_files Sample.bash w
           (clean_bash_history Sample.bash w).2 (clean_bash_history Sample.bash w).1).
  - vm_compute. reflexivity.
  - vm_compute. discriminate.
  - vm_compute. discriminate.
Defined.

Lemma clean_bash_history_keeps_untagged_history_witness :
  let content := "cd /tmp" ++ String "013" LF ++ "echo # Vity generated " in
  let w := Sample.with_files [("/home/u/.zsh_history", content)] in
  Forall untagged (PyLines.splitlines content)
  ∧ fs (clean_bash_history Sample.unreadable_log w).2 !! "/home/u/.zsh_history"
    = Some content.
Proof.
  intros content w.
  assert (Forall untagged (PyLines.splitlines content)) as Huntagged
    by (vm_compute; repeat constructor).
  split; [done |].
  apply (clean_bash_history_keeps_untagged_history Sample.unreadable_log w
           (clean_bash_history Sample.unreadable_log w).2
           (clean_bash_history Sample.unreadable_log w).1).
  - vm_compute. reflexivity.
  - vm_compute. reflexivity.
  - exact Huntagged.
Defined.

Lemma clean_bash_history_reports_failures_witness :
  let w := Sample.with_files [("/home/u/.bash_history", "ls # Vity generated" ++ LF);
                              ("/home/u/.zsh_history", "ls # Vity generated" ++ LF)] in
  ∃ w', clean_bash_history locked_histories w = (Ok tt, w')
        ∧ "⚠️  Could not clean bash history: [Errno 13] Permission denied: '/home/u/.bash_history'"
          ∈ stdout w'
        ∧ "⚠️  Could not clean zsh history: [Errno 28] No space left on device"
          ∈ stdout w'.
Proof.
  intros w.
  destruct (clean_bash_history_reports_failures locked_histories w
              locked_histories_fail_with_Exception) as (w' & Hrun & Hwarned).
  exists w'. split; [exact Hrun |]. split.
  - apply (Hwarned "bash" "/home/u/.bash_history" ("ls # Vity generated" ++ LF)
             (PermissionError "[Errno 13] Permission denied: '/home/u/.bash_history'")).
    + left. split; reflexivity.
    + reflexivity.
    + left. reflexivity.
  - apply (Hwarned "zsh" "/home/u/.zsh_history" ("ls # Vity generated" ++ LF)
             (OSError "[Errno 28] No space left on device")).
    + right. split; reflexivity.
    + reflexivity.
    + right. split; [reflexivity |]. split.
      * intros Huntagged. vm_compute in Huntagged.
        inversion Huntagged as [|line lines Hline]. discriminate Hline.
      * eexists. split; reflexivity.
Defined.

Lemma cleaned_history_has_no_tagged_line_witness :
  let w := Sample.with_files
             [("/home/u/.bash_history",
               "cd /tmp" ++ LF ++ "ls -la # Vity generated" ++ LF ++ "pwd")] in
  fs (clean_bash_history Sample.bash w).2 !! "/home/u/.bash_history"
  = Some ("cd /tmp" ++ LF ++ "pwd" ++ LF)
  ∧ Forall untagged (PyLines.splitlines ("cd /tmp" ++ LF ++ "pwd" ++ LF)).
Proof.
  intros w.
  assert (fs (clean_bash_history Sample.bash w).2 !! "/home/u/.bash_history"
          = Some ("cd /tmp" ++ LF ++ "pwd" ++ LF)) as Hcleaned
    by (vm_compute; reflexivity).
  split; [done |].
  apply (cleaned_history_has_no_tagged_line Sample.bash w
           (clean_bash_history Sample.bash w).2 (clean_bash_history Sample.bash w).1
           "/home/u/.bash_history" ("cd /tmp" ++ LF ++ "pwd" ++ LF) sample_faultless).
  - vm_compute. reflexivity.
  - by left.
  - exact Hcleaned.
Defined.

Lemma clean_bash_history_idempotent_witness :
  let w := Sample.with_files
             [("/home/u/.bash_history", "ls -la # Vity generated" ++ LF);
              ("/home/u/.zsh_history", "pwd" ++ String "013" LF ++ "ls # Vity generated")] in
  let w1 := (clean_bash_history Sample.bash w).2 in
  let w2 := (clean_bash_history Sample.bash w1).2 in
  fs w2 = fs w1.
Proof.
  intros w w1 w2.
  apply (clean_bash_history_idempotent Sample.bash w w1 w2
           (clean_bash_history Sample.bash w).1 (clean_bash_history Sample.bash w1).1
           sample_faultless).
  - vm_compute. reflexivity.
  - vm_compute. reflexivity.
Defined.

Lemma clean_bash_history_without_history_files_witness :
  let w := Sample.with_files [("/home/u/.bashrc", "export A=1" ++ LF)] in
  clean_bash_history Sample.zsh w = (Ok tt, out w ["ℹ️  No history files found"]).
Proof.
  intros w. apply (clean_bash_history_without_history_files Sample.zsh w).
  - vm_compute. reflexivity.
  - vm_compute. reflexivity.
Defined.

Lemma recorded_command_survives_cleaning_witness :
  let w := Sample.with_files [("/home/u/.bash_history", "cd /tmp" ++ LF)] in
  let w1 := (append_shell_history Sample.bash "ls -la # lists all files" w).2 in
  let w2 := (clean_bash_history Sample.bash w1).2 in
  fs w1 !! "/home/u/.bash_history"
  = Some (unlines (["cd /tmp"] ++ ["ls -la # lists all files"]))
  ∧ fs w2 !! "/home/u/.bash_history"
    = Some (unlines (["cd /tmp"] ++ ["ls -la # lists all files"])).
Proof.
  intros w w1 w2.
  apply (recorded_command_survives_cleaning Sample.bash "ls -la # lists all files"
           ["cd /tmp"] w w1 w2 (clean_bash_history Sample.bash w1).1).
  - vm_compute. reflexivity.
  - reflexivity.
  - vm_compute. reflexivity.
  - repeat constructor; apply plain_lineb_plain; vm_compute; reflexivity.
  - vm_compute. repeat constructor.
  - vm_compute. reflexivity.
  - vm_compute. reflexivity.
Defined.

Lemma clean_bash_history_keeps_the_untagged_lines_witness :
  let w := Sample.with_files
             [("/home/u/.bash_history",
               "ls # Vity generated" ++ String "013" LF ++ "pwd # Vity generated");
              ("/home/u/.zsh_history",
               "cd /tmp" ++ String "013" LF ++ "ls # Vity generated" ++ LF ++ "pwd")] in
  let w' := (clean_bash_history Sample.zsh w).2 in
  (∃ content', fs w' !! "/home/u/.bash_history" = Some content'
               ∧ PyLines.splitlines content' = [""])
  ∧ (∃ content', fs w' !! "/home/u/.zsh_history" = Some content'
                 ∧ PyLines.splitlines content' = ["cd /tmp"; "pwd"]).
Proof.
  intros w w'. split.
  - apply (clean_bash_history_keeps_the_untagged_lines Sample.zsh w w'
             (clean_bash_history Sample.zsh w).1 "/home/u/.bash_history"
             ("ls # Vity generated" ++ String "013" LF ++ "pwd # Vity generated")).
    + repeat split.
    + vm_compute. reflexivity.
    + by left.
    + vm_compute. reflexivity.
  - apply (clean_bash_history_keeps_the_untagged_lines Sample.zsh w w'
             (clean_bash_history Sample.zsh w).1 "/home/u/.zsh_history"
             ("cd /tmp" ++ String "013" LF ++ "ls # Vity generated" ++ LF ++ "pwd")).
    + repeat split.
    + vm_compute. reflexivity.
    + by right.
    + vm_compute. reflexivity.
Defined.
